(** * Reminder service: request handlers over a document store

    A shallow embedding of the three variants of the reminder service found
    in the repository:

    - [Server]: the Firestore-backed service with audit logging
      (second program of [src/server.js], [logChange] and the six routes);
    - [Legacy]: the earlier Firestore-backed service without audit logging
      (first program of [src/server.js]);
    - [Mock]: the in-memory service ([src/unnamed/part_000]).

    Request bodies are JavaScript values, the document store is a family of
    finite maps from document paths to documents, and the handlers are written
    in a small state-and-exception monad that also records every call issued
    to the store.  Of the console output only the template literals of
    [logChange] are modelled, whose evaluation can throw. *)

From stdpp Require Import gmap strings list fin_maps pretty sorting.
Set Warnings "-register-all".
#[local] Open Scope string_scope.
#[local] Open Scope list_scope.

(** ** JavaScript values *)

Module JS.

(** The largest integer [n] such that [n] and [n + 1] are both numbers of
    JavaScript: [Number.MAX_SAFE_INTEGER]. *)
Definition max_safe_integer : Z := 2 ^ 53 - 1.

Definition safe_integer (n : Z) : bool :=
  (- max_safe_integer <=? n)%Z && (n <=? max_safe_integer)%Z.

(** Numbers are the safe integers among the JSON numbers: each of them is a
    number of JavaScript, and is printed with all its digits.  The other
    JSON numbers are left out: fractions, and the integers beyond that
    range, which JavaScript rounds, and prints with an exponent from
    [1e21] on. *)
Record number : Type := Number {
  integer : Z;
  integer_safe : Is_true (safe_integer integer)
}.

#[global] Instance number_eq_dec : EqDecision number.
Proof.
  refine (λ x y, cast_if (decide (integer x = integer y)));
    abstract (destruct x as [x Hx], y as [y Hy]; cbn in *;
              first [ subst; f_equal; apply proof_irrel | congruence ]).
Defined.

(** Values that can occur in a parsed JSON body, in a stored document or in
    a response.  [JServerTimestamp] is the sentinel returned by
    [admin.firestore.FieldValue.serverTimestamp()]; [JTimestamp] is the
    value the store puts in its place when the write is committed. *)
Inductive jsval : Type :=
  | JUndefined
  | JNull
  | JBool (b : bool)
  | JNum (n : number)
  | JStr (s : string)
  | JArr (xs : list jsval)
  | JObj (o : gmap string jsval)
  | JServerTimestamp
  | JTimestamp (t : Z).

#[global] Instance jsval_eq_dec : EqDecision jsval.
Proof.
  refine (fix go (x y : jsval) {struct x} : Decision (x = y) :=
    let _ : EqDecision jsval := @go in
    match x, y with
    | JUndefined, JUndefined => left _
    | JNull, JNull => left _
    | JBool a, JBool b => cast_if (decide (a = b))
    | JNum a, JNum b => cast_if (decide (a = b))
    | JStr a, JStr b => cast_if (decide (a = b))
    | JArr a, JArr b => cast_if (decide (a = b))
    | JObj a, JObj b => cast_if (decide (a = b))
    | JServerTimestamp, JServerTimestamp => left _
    | JTimestamp a, JTimestamp b => cast_if (decide (a = b))
    | _, _ => right _
    end); abstract congruence.
Defined.

#[global] Instance jsval_inhabited : Inhabited jsval := populate JUndefined.

(** [ToBoolean]: the falsy values are [undefined], [null], [false], [0] and
    the empty string. *)
Definition truthy (v : jsval) : bool :=
  match v with
  | JUndefined | JNull => false
  | JBool b => b
  | JNum n => negb (integer n =? 0)%Z
  | JStr s => negb (String.eqb s "")
  | JArr _ | JObj _ | JServerTimestamp | JTimestamp _ => true
  end.

(** [a || b]. *)
Definition js_or (a b : jsval) : jsval := if truthy a then a else b.

(** [a === b].  Primitives compare by value.  Arrays, objects, sentinels
    and timestamps are references; the two operands of every comparison in
    the handlers come from different places (a freshly parsed body and a
    freshly read document), so two references are never the same one. *)
Definition strict_eq (a b : jsval) : bool :=
  match a, b with
  | JUndefined, JUndefined => true
  | JNull, JNull => true
  | JBool x, JBool y => bool_decide (x = y)
  | JNum x, JNum y => bool_decide (x = y)
  | JStr x, JStr y => bool_decide (x = y)
  | _, _ => false
  end.

(** [v !== undefined]. *)
Definition defined (v : jsval) : bool :=
  match v with JUndefined => false | _ => true end.

(** Property read [o.k]; a missing property reads as [undefined]. *)
Definition field (o : gmap string jsval) (k : string) : jsval :=
  default JUndefined (o !! k).

(** Object literal. *)
Definition obj (l : list (string * jsval)) : gmap string jsval :=
  list_to_map l.

(** Object spread [{...a, ...b}]: the properties of [b] win. *)
Definition spread (a b : gmap string jsval) : gmap string jsval := b ∪ a.

(** [ToString], as a template literal applies it to a value and
    [ToPropertyKey] to a value that indexes an object; [None] when the
    conversion throws a [TypeError].  An object is converted by its
    [toString] method: that of [Object.prototype], unless the object has a
    property of that name of its own, which in a parsed body is no function
    and leaves the object without a primitive value.  An array is converted
    by joining its elements, each converted in its turn. *)
Fixpoint to_string (v : jsval) : option string :=
  match v with
  | JUndefined => Some "undefined"
  | JNull => Some "null"
  | JBool true => Some "true"
  | JBool false => Some "false"
  | JNum n => Some (pretty (integer n))
  | JStr s => Some s
  | JArr xs =>
      (fix join (l : list jsval) : option string :=
         match l with
         | [] => Some ""
         | x :: l' =>
             match (match x with
                    | JUndefined | JNull => Some ""
                    | _ => to_string x
                    end) with
             | None => None
             | Some sx =>
                 match l' with
                 | [] => Some sx
                 | _ :: _ =>
                     match join l' with
                     | None => None
                     | Some rest => Some (sx +:+ "," +:+ rest)%string
                     end
                 end
             end
         end) xs
  | JObj o =>
      if bool_decide (is_Some (o !! "toString")) then None
      else Some "[object Object]"
  | JServerTimestamp | JTimestamp _ => Some "[object Object]"
  end.

(** The message of the [TypeError] of a conversion that fails. *)
Definition cannot_convert : string := "Cannot convert object to primitive value".

End JS.

Export JS.

(** ** The document store *)

Module Firestore.

(** The three collections the service uses: [db.collection('reminders')],
    [db.collection('users')] and [db.collection('logs')]. *)
Inductive collection : Type := Reminders | Users | Logs.

#[global] Instance collection_eq_dec : EqDecision collection.
Proof. solve_decision. Defined.

(** The kinds of call a handler makes on a collection.  Within one request
    no handler makes two calls of the same kind on the same collection. *)
Inductive op : Type := OpGet | OpAdd | OpUpdate | OpDelete | OpQuery.

#[global] Instance op_eq_dec : EqDecision op.
Proof. solve_decision. Defined.

(** Contents of the store: for each collection, its documents by id.  The
    service creates no sub-collection, and the store is taken to have none:
    every document is a document of one of the three collections. *)
Record db : Type := Db {
  reminders : gmap string (gmap string jsval);
  users : gmap string (gmap string jsval);
  logs : gmap string (gmap string jsval)
}.

Definition coll (c : collection) (s : db) : gmap string (gmap string jsval) :=
  match c with
  | Reminders => reminders s
  | Users => users s
  | Logs => logs s
  end.

Definition set_coll (c : collection) (m : gmap string (gmap string jsval))
    (s : db) : db :=
  match c with
  | Reminders => Db m (users s) (logs s)
  | Users => Db (reminders s) m (logs s)
  | Logs => Db (reminders s) (users s) m
  end.

(** Query filters: [.where(k, '==', v)] and [.where(k, 'in', vs)]. *)
Inductive filter : Type :=
  | WhereEq (k : string) (v : jsval)
  | WhereIn (k : string) (vs : list jsval).

(** The calls a handler makes on the store, recorded in the order in which
    they are made, whatever their outcome. *)
Inductive call : Type :=
  | CallGet (c : collection) (id : string)
  | CallAdd (c : collection) (data : gmap string jsval)
  | CallUpdate (c : collection) (id : string) (patch : gmap string jsval)
  | CallDelete (c : collection) (id : string)
  | CallQuery (c : collection) (filters : list filter) (order_by : option string).

Record world : Type := World {
  store : db;
  trace : list call
}.

(** What a handler does not control during one request: which store calls
    fail ([faults c o] is the message of the error raised by the call of kind
    [o] on collection [c], if it fails), the id the store generates for a
    document added to a collection, the server's clock, and the store's
    order on field values. *)
Record env : Type := Env {
  faults : collection → op → option string;
  auto_id : collection → string;
  now : Z;
  value_leb : jsval → jsval → bool
}.

(** Outcome of a computation: a value, or a thrown error with its
    [message]. *)
Inductive result (A : Type) : Type :=
  | Ok (a : A)
  | Throw (message : string).
Arguments Ok {A} a.
Arguments Throw {A} message.

(** Computations that read the environment, change the world and may
    throw. *)
Definition M (A : Type) : Type := env → world → result A * world.

Definition ret {A} (a : A) : M A := λ _ w, (Ok a, w).

Definition bind {A B} (m : M A) (k : A → M B) : M B :=
  λ e w, match m e w with
         | (Ok a, w') => k a e w'
         | (Throw msg, w') => (Throw msg, w')
         end.

Definition throw {A} (msg : string) : M A := λ _ w, (Throw msg, w).

(** [try { m } catch (error) { h error.message }]. *)
Definition try_catch {A} (m : M A) (h : string → M A) : M A :=
  λ e w, match m e w with
         | (Ok a, w') => (Ok a, w')
         | (Throw msg, w') => h msg e w'
         end.

Definition record (c : call) : M unit :=
  λ _ w, (Ok (), World (store w) (trace w ++ [c])).

Definition ask : M env := λ e w, (Ok e, w).

Definition read (c : collection) : M (gmap string (gmap string jsval)) :=
  λ _ w, (Ok (coll c (store w)), w).

Definition write (c : collection) (m : gmap string (gmap string jsval)) : M unit :=
  λ _ w, (Ok (), World (set_coll c m (store w)) (trace w)).

(** Raise the fault the environment schedules for this call, if any. *)
Definition may_fail (c : collection) (o : op) : M unit :=
  λ e w, match faults e c o with
         | Some msg => (Throw msg, w)
         | None => (Ok (), w)
         end.

Declare Scope fs_scope.
Delimit Scope fs_scope with fs.
Notation "x <- m ;; k" := (bind m (λ x, k))
  (at level 100, m at next level, right associativity) : fs_scope.
Notation "m ;;; k" := (bind m (λ _, k))
  (at level 100, right associativity) : fs_scope.
#[local] Open Scope fs_scope.

(** The store replaces each [serverTimestamp()] sentinel of a written
    document, nested ones included, by the time of the write. *)
Fixpoint resolve (t : Z) (v : jsval) : jsval :=
  match v with
  | JServerTimestamp => JTimestamp t
  | JObj o => JObj (resolve t <$> o)
  | _ => v
  end.

(** The character [/]. *)
Definition is_slash (c : Ascii.ascii) : bool := String.eqb (String c "") "/".

(** [path.split('/')]. *)
Fixpoint split_path (path : string) : list string :=
  match path with
  | "" => [""]
  | String c rest =>
      if is_slash c
      then "" :: split_path rest
      else match split_path rest with
           | [] => [String c ""]
           | s :: ss => String c s :: ss
           end
  end.

(** [path.indexOf('//') >= 0]. *)
Fixpoint has_double_slash (path : string) : bool :=
  match path with
  | "" => false
  | String c rest =>
      match rest with
      | String c' _ => (is_slash c && is_slash c') || has_double_slash rest
      | "" => false
      end
  end.

(** The segments of a path below a collection: its parts between slashes,
    leaving out the empty ones that a slash at either end makes. *)
Definition segments (path : string) : list string :=
  List.filter (λ s, negb (String.eqb s "")) (split_path path).

(** The messages of the errors [doc(path)] throws. *)
Definition quoted (s : string) : string :=
  let quote := String (Ascii.ascii_of_nat 34) "" in (quote +:+ s +:+ quote)%string.

Definition not_a_resource_path (why : string) : string :=
  ("Value for argument " +:+ quoted "documentPath"
   +:+ " is not a valid resource path. " +:+ why)%string.

Definition not_a_document (path : string) : string :=
  ("Value for argument " +:+ quoted "documentPath"
   +:+ " must point to a document, but was " +:+ quoted path
   +:+ ". Your path does not contain an even number of components.")%string.

(** The error [db.collection(c).doc(path)] throws, if it throws: the path
    must be a non-empty string without two slashes in a row, and with the
    collection before it must have an even number of segments. *)
Definition path_error (path : string) : option string :=
  if String.eqb path "" then Some (not_a_resource_path "Path must be a non-empty string.")
  else if has_double_slash path then Some (not_a_resource_path "Paths must not contain //.")
  else if Nat.even (length (segments path)) then Some (not_a_document path)
  else None.

(** A reference to a document: a document of the collection, by its id, or
    a document of a sub-collection, by its path below the collection. *)
Inductive reference : Type :=
  | Doc (id : string)
  | SubDoc (path : list string).

(** The path of the document below the collection. *)
Definition name (r : reference) : string :=
  match r with
  | Doc id => id
  | SubDoc path => String.concat "/" path
  end.

(** [db.collection(c).doc(id)]. *)
Definition doc_ref (id : jsval) : M reference :=
  match id with
  | JStr path =>
      match path_error path with
      | Some msg => throw msg
      | None =>
          ret (match segments path with
               | [id] => Doc id
               | path => SubDoc path
               end)
      end
  | _ => throw (not_a_resource_path "Path must be a non-empty string.")
  end.

(** [ref.get()]: [None] when [doc.exists] is false, [Some (doc.data())]
    otherwise.  No document of a sub-collection exists. *)
Definition db_get (c : collection) (r : reference) : M (option (gmap string jsval)) :=
  record (CallGet c (name r)) ;;;
  may_fail c OpGet ;;;
  m <- read c ;;
  ret (match r with
       | Doc id => m !! id
       | SubDoc _ => None
       end).

(** [db.collection(c).add(data)]: the store generates the id and creates the
    document, which fails when a document of that id exists. *)
Definition db_add (c : collection) (data : gmap string jsval) : M string :=
  record (CallAdd c data) ;;;
  may_fail c OpAdd ;;;
  e <- ask ;;
  m <- read c ;;
  match m !! auto_id e c with
  | Some _ => throw "Document already exists"
  | None =>
      write c (<[auto_id e c := resolve (now e) <$> data]> m) ;;;
      ret (auto_id e c)
  end.

(** The message of the error [ref.update(patch)] throws for a patch
    without fields: the library puts a reminder of its usage before the
    reason. *)
Definition update_usage : string :=
  ("Update() requires either a single JavaScript object or an alternating list "
   +:+ "of field/value pairs that can be followed by an optional precondition.")%string.

Definition no_field_to_update : string :=
  (update_usage +:+ " At least one field must be updated.")%string.

(** [ref.update(patch)]: sets the fields of the patch and keeps the others.
    The client library refuses a patch without fields; the store fails when
    the document does not exist. *)
Definition db_update (c : collection) (r : reference) (patch : gmap string jsval) : M unit :=
  record (CallUpdate c (name r) patch) ;;;
  (if bool_decide (patch = ∅) then throw no_field_to_update
   else ret ()) ;;;
  may_fail c OpUpdate ;;;
  e <- ask ;;
  m <- read c ;;
  match r with
  | Doc id =>
      match m !! id with
      | None => throw "No document to update"
      | Some old => write c (<[id := spread old (resolve (now e) <$> patch)]> m)
      end
  | SubDoc _ => throw "No document to update"
  end.

(** [ref.delete()]: succeeds whether or not the document exists. *)
Definition db_delete (c : collection) (r : reference) : M unit :=
  record (CallDelete c (name r)) ;;;
  may_fail c OpDelete ;;;
  m <- read c ;;
  match r with
  | Doc id => write c (delete id m)
  | SubDoc _ => ret ()
  end.

(** A document satisfies an equality filter when it has the field with
    that value, and a membership filter when it has the field with one of
    the values. *)
Definition satisfies (d : gmap string jsval) (f : filter) : bool :=
  match f with
  | WhereEq k v => bool_decide (d !! k = Some v)
  | WhereIn k vs =>
      match d !! k with
      | Some x => bool_decide (x ∈ vs)
      | None => false
      end
  end.

(** Filters the client library refuses: a comparison with [undefined] and a
    membership filter over an empty array. *)
Definition rejected (f : filter) : bool :=
  match f with
  | WhereEq _ JUndefined => true
  | WhereIn _ [] => true
  | _ => false
  end.

(** Documents without the ordering field are not part of an ordered
    result. *)
Definition has_order_field (order_by : option string) (d : gmap string jsval) : bool :=
  match order_by with
  | Some k => bool_decide (is_Some (d !! k))
  | None => true
  end.

Definition selected (filters : list filter) (order_by : option string)
    (x : string * gmap string jsval) : bool :=
  forallb (satisfies x.2) filters && has_order_field order_by x.2.

(** Result order: ascending by the ordering field, ties (and unordered
    queries) by document id. *)
Definition entry_leb (leb : jsval → jsval → bool) (order_by : option string)
    (x y : string * gmap string jsval) : bool :=
  match order_by with
  | None => String.leb x.1 y.1
  | Some k =>
      if leb (field x.2 k) (field y.2 k)
      then (if leb (field y.2 k) (field x.2 k) then String.leb x.1 y.1 else true)
      else false
  end.

Definition entry_le (leb : jsval → jsval → bool) (order_by : option string) :
    relation (string * gmap string jsval) :=
  λ x y, entry_leb leb order_by x y = true.

#[global] Instance entry_le_dec leb order_by x y :
  Decision (entry_le leb order_by x y).
Proof. unfold entry_le. apply _. Defined.

Definition run_query (leb : jsval → jsval → bool) (filters : list filter)
    (order_by : option string) (m : gmap string (gmap string jsval)) :
    list (string * gmap string jsval) :=
  merge_sort (entry_le leb order_by)
    (List.filter (selected filters order_by) (map_to_list m)).

(** [db.collection(c).where(...)....orderBy(k, 'asc').get()]: the
    [snapshot.docs], each with its [id] and [data()]. *)
Definition db_query (c : collection) (filters : list filter)
    (order_by : option string) : M (list (string * gmap string jsval)) :=
  record (CallQuery c filters order_by) ;;;
  (if existsb rejected filters then throw "Invalid query" else ret ()) ;;;
  may_fail c OpQuery ;;;
  e <- ask ;;
  m <- read c ;;
  ret (run_query (value_leb e) filters order_by m).

(** An order on values in the manner of the store's: by type first, then by
    value within booleans, numbers, timestamps and strings. *)
Definition type_rank (v : jsval) : nat :=
  match v with
  | JNull => 0
  | JBool _ => 1
  | JNum _ => 2
  | JTimestamp _ => 3
  | JStr _ => 4
  | JArr _ => 5
  | JObj _ => 6
  | JUndefined => 7
  | JServerTimestamp => 8
  end.

Definition firestore_leb (a b : jsval) : bool :=
  match a, b with
  | JBool x, JBool y => implb x y
  | JNum x, JNum y => (integer x <=? integer y)%Z
  | JTimestamp x, JTimestamp y => (x <=? y)%Z
  | JStr x, JStr y => String.leb x y
  | _, _ => Nat.leb (type_rank a) (type_rank b)
  end.

(** The template literals of the messages written to the console: each
    value is converted to a string, which throws when a conversion does. *)
Definition interpolate (vs : list jsval) : M unit :=
  if forallb (λ v, bool_decide (is_Some (to_string v))) vs then ret ()
  else throw cannot_convert.

(** HTTP responses: [res.status(status).json(body)]. *)
Record response : Type := Response {
  status : nat;
  body : jsval
}.

(** A route handler: from the environment and the world before the request
    to the response and the world after it. *)
Definition handler : Type := env → world → response * world.

(** A handler that answers without touching the store. *)
Definition reply (r : response) : handler := λ _ w, (r, w).

(** The outermost [try { ... } catch (error) { res.status(500)... }] of a
    route. *)
Definition guarded (m : M response) (on_error : string → response) : handler :=
  λ e w, match m e w with
         | (Ok r, w') => (r, w')
         | (Throw msg, w') => (on_error msg, w')
         end.

End Firestore.

Export Firestore.

#[local] Open Scope fs_scope.

(** ** The service with audit logging ([src/server.js], lines 164-446) *)

Module Server.

(** The [logEntry] object of [logChange] (lines 231-240). *)
Definition logEntry (action userId userName entity entityId entityName details : jsval) :
    gmap string jsval :=
  obj [
    ("timestamp", JServerTimestamp);
    ("action", action);
    ("userId", js_or userId (JStr "unknown"));
    ("userName", userName);
    ("entity", entity);
    ("entityId", entityId);
    ("entityName", js_or entityName (JStr "N/A"));
    ("details", details)
  ].

(** [logChange(action, userId, entity, entityId, entityName, details = {})]
    (lines 218-246).  Of the console output only the template literals of
    lines 228 and 242 are kept, for the exception their evaluation can
    throw. *)
Definition logChange (action userId entity entityId entityName details : jsval) : M unit :=
  let details := match details with JUndefined => JObj ∅ | _ => details end in
  try_catch
    (userName <-
       try_catch
         (ref <- doc_ref userId ;;
          userDoc <- db_get Users ref ;;
          match userDoc with
          | Some d => ret (js_or (field d "name") (JStr "Unnamed User"))
          | None => ret (JStr "Unknown")
          end)
         (λ _, interpolate [userId] ;;; ret (JStr "Unknown")) ;;
     db_add Logs (logEntry action userId userName entity entityId entityName details) ;;;
     interpolate [action; entity; entityId; entityName; userId; userName] ;;;
     ret ())
    (λ _, ret ()).

(** [GET /api/reminders/all] (lines 256-284), [organizationId] being
    [req.query.organizationId]. *)
Definition listByOrganization (organizationId : jsval) : handler :=
  guarded
    (patientsSnapshot <-
       db_query Users [WhereEq "organizationId" organizationId;
                       WhereEq "role" (JStr "user")] None ;;
     match patientsSnapshot with
     | [] => ret (Response 200 (JArr []))
     | _ :: _ =>
         let patientIds := (λ d, JStr d.1) <$> patientsSnapshot in
         remindersSnapshot <-
           db_query Reminders
             [WhereIn "userId"
                (if (0 <? length patientIds)%nat then patientIds else [JStr "none"])]
             (Some "datetime") ;;
         let reminders :=
           (λ d, JObj (spread (obj [("id", JStr d.1)]) d.2)) <$> remindersSnapshot in
         ret (Response 200 (JArr reminders))
     end)
    (λ _, Response 500 (JArr [])).

(** The [reminderData] object of [POST /reminders] (lines 304-311, and
    48-55 in the first program). *)
Definition reminderData (userId title description datetime : jsval) : gmap string jsval :=
  obj [
    ("userId", userId);
    ("title", title);
    ("description", js_or description (JStr ""));
    ("datetime", datetime);
    ("completed", JBool false);
    ("createdAt", JServerTimestamp)
  ].

(** [POST /reminders] (lines 295-323), [body] being [req.body]. *)
Definition createReminder (body : gmap string jsval) : handler :=
  let userId := field body "userId" in
  let title := field body "title" in
  let description := field body "description" in
  let datetime := field body "datetime" in
  if negb (truthy userId) || negb (truthy title) || negb (truthy datetime)
  then reply (Response 400
         (JObj (obj [("error", JStr "User ID, title, and datetime are required")])))
  else
    guarded
      (let data := reminderData userId title description datetime in
       docRef <- db_add Reminders data ;;
       let newReminder := spread (obj [("reminderId", JStr docRef)]) data in
       logChange (JStr "CREATE") userId (JStr "Reminder") (JStr docRef) title
         (JObj (obj [("data", JObj data)])) ;;;
       ret (Response 201
              (JObj (obj [("message", JStr "Reminder created successfully");
                          ("reminder", JObj newReminder)]))))
      (λ msg, Response 500
         (JObj (obj [("error", JStr "Failed to create reminder");
                     ("details", JStr msg)]))).

(** [GET /reminders/:userId] (lines 330-355). *)
Definition listByUser (userId : string) : handler :=
  guarded
    (snapshot <-
       db_query Reminders [WhereEq "userId" (JStr userId)] (Some "datetime") ;;
     match snapshot with
     | [] =>
         ret (Response 200
                (JObj (obj [("userId", JStr userId); ("reminders", JArr [])])))
     | _ :: _ =>
         let reminders :=
           (λ d, JObj (spread (obj [("reminderId", JStr d.1)]) d.2)) <$> snapshot in
         ret (Response 200
                (JObj (obj [("userId", JStr userId); ("reminders", JArr reminders)])))
     end)
    (λ msg, Response 500
       (JObj (obj [("error", JStr "Failed to fetch reminders");
                   ("details", JStr msg)]))).

(** The [updates] object of [PUT /reminders/:reminderId] (lines 385-389,
    and 113-117 in the first program). *)
Definition build_updates (title description datetime completed : jsval) : gmap string jsval :=
  let updates : gmap string jsval := ∅ in
  let updates := if truthy title then <["title" := title]> updates else updates in
  let updates := if defined description then <["description" := description]> updates else updates in
  let updates := if truthy datetime then <["datetime" := datetime]> updates else updates in
  let updates := if defined completed then <["completed" := completed]> updates else updates in
  updates.

Definition not_found_or_unauthorized : response :=
  Response 404 (JObj (obj [("error", JStr "Reminder not found or unauthorized")])).

Definition user_id_required : response :=
  Response 400 (JObj (obj [("error", JStr "User ID is required")])).

(** [PUT /reminders/:reminderId] (lines 367-401). *)
Definition updateReminder (reminderId : string) (body : gmap string jsval) : handler :=
  let userId := field body "userId" in
  let title := field body "title" in
  let description := field body "description" in
  let datetime := field body "datetime" in
  let completed := field body "completed" in
  if negb (truthy userId) then reply user_id_required
  else
    guarded
      (reminderRef <- doc_ref (JStr reminderId) ;;
       doc <- db_get Reminders reminderRef ;;
       match doc with
       | None => ret not_found_or_unauthorized
       | Some oldData =>
           if negb (strict_eq (field oldData "userId") userId)
           then ret not_found_or_unauthorized
           else
             let updates := build_updates title description datetime completed in
             db_update Reminders reminderRef updates ;;;
             let updatedReminder :=
               spread (spread (obj [("reminderId", JStr reminderId)]) oldData) updates in
             logChange (JStr "UPDATE") userId (JStr "Reminder") (JStr reminderId)
               (js_or title (field oldData "title"))
               (JObj (obj [("oldData", JObj oldData); ("newData", JObj updates)])) ;;;
             ret (Response 200
                    (JObj (obj [("message", JStr "Reminder updated successfully");
                                ("reminder", JObj updatedReminder)])))
       end)
      (λ msg, Response 500
         (JObj (obj [("error", JStr "Failed to update reminder");
                     ("details", JStr msg)]))).

(** [DELETE /reminders/:reminderId] (lines 409-436). *)
Definition deleteReminder (reminderId : string) (body : gmap string jsval) : handler :=
  let userId := field body "userId" in
  if negb (truthy userId) then reply user_id_required
  else
    guarded
      (reminderRef <- doc_ref (JStr reminderId) ;;
       doc <- db_get Reminders reminderRef ;;
       match doc with
       | None => ret not_found_or_unauthorized
       | Some data =>
           if negb (strict_eq (field data "userId") userId)
           then ret not_found_or_unauthorized
           else
             logChange (JStr "DELETE") userId (JStr "Reminder") (JStr reminderId)
               (field data "title") (JObj (obj [("data", JObj data)])) ;;;
             db_delete Reminders reminderRef ;;;
             ret (Response 200
                    (JObj (obj [("message", JStr "Reminder deleted successfully")])))
       end)
      (λ msg, Response 500
         (JObj (obj [("error", JStr "Failed to delete reminder");
                     ("details", JStr msg)]))).

(** [GET /health] (lines 439-441). *)
Definition health : handler :=
  reply (Response 200 (JObj (obj [("status", JStr "Reminder Service is running")]))).

End Server.

(** ** The service without audit logging ([src/server.js], lines 1-163) *)

Module Legacy.

(** [POST /reminders] (lines 40-66). *)
Definition createReminder (body : gmap string jsval) : handler :=
  let userId := field body "userId" in
  let title := field body "title" in
  let description := field body "description" in
  let datetime := field body "datetime" in
  if negb (truthy userId) || negb (truthy title) || negb (truthy datetime)
  then reply (Response 400
         (JObj (obj [("error", JStr "User ID, title, and datetime are required")])))
  else
    guarded
      (let data := Server.reminderData userId title description datetime in
       docRef <- db_add Reminders data ;;
       let newReminder := spread (obj [("reminderId", JStr docRef)]) data in
       ret (Response 201
              (JObj (obj [("message", JStr "Reminder created successfully");
                          ("reminder", JObj newReminder)]))))
      (λ msg, Response 500
         (JObj (obj [("error", JStr "Failed to create reminder");
                     ("details", JStr msg)]))).

(** [GET /reminders/:userId] (lines 69-94): the same text as in the later
    program. *)
Definition listByUser (userId : string) : handler := Server.listByUser userId.

(** [PUT /reminders/:reminderId] (lines 97-128). *)
Definition updateReminder (reminderId : string) (body : gmap string jsval) : handler :=
  let userId := field body "userId" in
  let title := field body "title" in
  let description := field body "description" in
  let datetime := field body "datetime" in
  let completed := field body "completed" in
  if negb (truthy userId) then reply Server.user_id_required
  else
    guarded
      (reminderRef <- doc_ref (JStr reminderId) ;;
       doc <- db_get Reminders reminderRef ;;
       match doc with
       | None => ret Server.not_found_or_unauthorized
       | Some oldData =>
           if negb (strict_eq (field oldData "userId") userId)
           then ret Server.not_found_or_unauthorized
           else
             let updates := Server.build_updates title description datetime completed in
             db_update Reminders reminderRef updates ;;;
             let updatedReminder :=
               spread (spread (obj [("reminderId", JStr reminderId)]) oldData) updates in
             ret (Response 200
                    (JObj (obj [("message", JStr "Reminder updated successfully");
                                ("reminder", JObj updatedReminder)])))
       end)
      (λ msg, Response 500
         (JObj (obj [("error", JStr "Failed to update reminder");
                     ("details", JStr msg)]))).

(** [DELETE /reminders/:reminderId] (lines 131-154). *)
Definition deleteReminder (reminderId : string) (body : gmap string jsval) : handler :=
  let userId := field body "userId" in
  if negb (truthy userId) then reply Server.user_id_required
  else
    guarded
      (reminderRef <- doc_ref (JStr reminderId) ;;
       doc <- db_get Reminders reminderRef ;;
       match doc with
       | None => ret Server.not_found_or_unauthorized
       | Some data =>
           if negb (strict_eq (field data "userId") userId)
           then ret Server.not_found_or_unauthorized
           else
             db_delete Reminders reminderRef ;;;
             ret (Response 200
                    (JObj (obj [("message", JStr "Reminder deleted successfully")])))
       end)
      (λ msg, Response 500
         (JObj (obj [("error", JStr "Failed to delete reminder");
                     ("details", JStr msg)]))).

(** [GET /health] (lines 157-159). *)
Definition health : handler :=
  reply (Response 200 (JObj (obj [("status", JStr "Reminder Service is running")]))).

End Legacy.

(** ** The in-memory service ([src/unnamed/part_000]) *)

Module Mock.

(** The own properties of the [reminders] object: for each key, the array
    of reminders stored under it. *)
Abbreviation memory := (gmap string (list (gmap string jsval))).

(** Properties every object literal inherits from [Object.prototype]. *)
Definition object_prototype_keys : list string :=
  ["constructor"; "__proto__"; "hasOwnProperty"; "isPrototypeOf";
   "propertyIsEnumerable"; "toLocaleString"; "toString"; "valueOf";
   "__defineGetter__"; "__defineSetter__"; "__lookupGetter__";
   "__lookupSetter__"].

(** What [reminders[key]] evaluates to, [key] being the property key that
    the index converts to: an array stored by the service, a member of the
    prototype (truthy, and not an array), or [undefined]. *)
Inductive slot : Type :=
  | Own (l : list (gmap string jsval))
  | Inherited
  | Missing.

Definition get_slot (reminders : memory) (key : string) : slot :=
  match reminders !! key with
  | Some l => Own l
  | None => if bool_decide (key ∈ object_prototype_keys) then Inherited else Missing
  end.

(** A handler runs synchronously; an exception it does not catch goes to
    the framework. *)
Definition handler : Type := memory → result response * memory.

(** [POST /reminders] (lines 13-29), [uuid] being the value of
    [uuidv4()]. *)
Definition createReminder (uuid : string) (body : gmap string jsval) : handler :=
  λ reminders,
  let userId := field body "userId" in
  let title := field body "title" in
  let description := field body "description" in
  let datetime := field body "datetime" in
  if negb (truthy userId) || negb (truthy title) || negb (truthy datetime)
  then (Ok (Response 400
          (JObj (obj [("error", JStr "User ID, title, and datetime are required")]))),
        reminders)
  else
    let newReminder := obj [
      ("reminderId", JStr uuid);
      ("userId", userId);
      ("title", title);
      ("description", description);
      ("datetime", datetime);
      ("completed", JBool false)
    ] in
    let created := Response 201
      (JObj (obj [("message", JStr "Reminder created successfully");
                  ("reminder", JObj newReminder)])) in
    match to_string userId with
    | None => (Throw cannot_convert, reminders)
    | Some key =>
        match get_slot reminders key with
        | Missing => (Ok created, <[key := [newReminder]]> reminders)
        | Own l => (Ok created, <[key := (l ++ [newReminder])]> reminders)
        | Inherited => (Throw "reminders[userId].push is not a function", reminders)
        end
    end.

(** [GET /reminders/:userId] (lines 32-40). *)
Definition listByUser (userId : string) : handler :=
  λ reminders,
  match get_slot reminders userId with
  | Missing =>
      (Ok (Response 404
             (JObj (obj [("message", JStr "No reminders found for this user")]))),
       reminders)
  | Own l =>
      (Ok (Response 200
             (JObj (obj [("userId", JStr userId); ("reminders", JArr (JObj <$> l))]))),
       reminders)
  | Inherited =>
      (Ok (Response 200
             (JObj (obj [("userId", JStr userId);
                         ("reminders",
                          if bool_decide (userId = "__proto__") then JObj ∅ else JUndefined)]))),
       reminders)
  end.

(** Index of the element [Array.prototype.find] returns. *)
Fixpoint find_index (reminderId : string) (l : list (gmap string jsval)) : option nat :=
  match l with
  | [] => None
  | r :: l' =>
      if strict_eq (field r "reminderId") (JStr reminderId) then Some 0
      else S <$> find_index reminderId l'
  end.

(** The assignments [PUT /reminders/:reminderId] makes to the reminder it
    found. *)
Definition assign_fields (title description datetime completed : jsval)
    (reminder : gmap string jsval) : gmap string jsval :=
  let reminder := if truthy title then <["title" := title]> reminder else reminder in
  let reminder := if truthy description then <["description" := description]> reminder else reminder in
  let reminder := if truthy datetime then <["datetime" := datetime]> reminder else reminder in
  let reminder := if defined completed then <["completed" := completed]> reminder else reminder in
  reminder.

(** [PUT /reminders/:reminderId] (lines 43-62). *)
Definition updateReminder (reminderId : string) (body : gmap string jsval) : handler :=
  λ reminders,
  let userId := field body "userId" in
  let title := field body "title" in
  let description := field body "description" in
  let datetime := field body "datetime" in
  let completed := field body "completed" in
  let user_not_found :=
    Response 404 (JObj (obj [("error", JStr "User not found")])) in
  if negb (truthy userId) then (Ok user_not_found, reminders)
  else
    match to_string userId with
    | None => (Throw cannot_convert, reminders)
    | Some key =>
        match get_slot reminders key with
        | Missing => (Ok user_not_found, reminders)
        | Inherited => (Throw "reminders[userId].find is not a function", reminders)
        | Own l =>
            match find_index reminderId l with
            | None =>
                (Ok (Response 404 (JObj (obj [("error", JStr "Reminder not found")]))),
                 reminders)
            | Some i =>
                let reminder :=
                  assign_fields title description datetime completed (default ∅ (l !! i)) in
                (Ok (Response 200
                       (JObj (obj [("message", JStr "Reminder updated successfully");
                                   ("reminder", JObj reminder)]))),
                 <[key := <[i := reminder]> l]> reminders)
            end
        end
    end.

(** [DELETE /reminders/:reminderId] (lines 65-76). *)
Definition deleteReminder (reminderId : string) (body : gmap string jsval) : handler :=
  λ reminders,
  let userId := field body "userId" in
  if negb (truthy userId)
  then (Ok (Response 404 (JObj (obj [("error", JStr "User not found")]))), reminders)
  else
    match to_string userId with
    | None => (Throw cannot_convert, reminders)
    | Some key =>
        match get_slot reminders key with
        | Missing =>
            (Ok (Response 404 (JObj (obj [("error", JStr "User not found")]))), reminders)
        | Inherited => (Throw "reminders[userId].filter is not a function", reminders)
        | Own l =>
            (Ok (Response 200
                   (JObj (obj [("message", JStr "Reminder deleted successfully")]))),
             <[key :=
                 List.filter (λ r, negb (strict_eq (field r "reminderId") (JStr reminderId))) l]>
               reminders)
        end
    end.

(** [GET /health] (lines 79-81). *)
Definition health : handler :=
  λ reminders,
  (Ok (Response 200 (JObj (obj [("status", JStr "Reminder Service is running")]))),
   reminders).

End Mock.

(** ** Closed forms

    What the store calls and the handlers compute, written without the
    monad: the responses, the stores and the stretches of trace that the
    lemmas of the next part show the handlers to produce. *)

(** The world after one more call. *)
Definition called (c : call) (w : world) : world := World (store w) (trace w ++ [c]).

(** The store accepts a document added to collection [c]: the call does not
    fail and the generated id is free. *)
Definition add_ok (c : collection) (e : env) (s : db) : bool :=
  bool_decide (faults e c OpAdd = None) && bool_decide (coll c s !! auto_id e c = None).

(** The store with [data] added to collection [c]. *)
Definition added (c : collection) (data : gmap string jsval) (e : env) (s : db) : db :=
  set_coll c (<[auto_id e c := resolve (now e) <$> data]> (coll c s)) s.

(** The store after an attempt to add [data] to collection [c]. *)
Definition try_added (c : collection) (data : gmap string jsval) (e : env) (s : db) : db :=
  if add_ok c e s then added c data e s else s.

(** The message of the error a refused addition raises. *)
Definition add_error (c : collection) (e : env) : string :=
  default "Document already exists" (faults e c OpAdd).

(** The document of a collection that a path names: the id of the
    document, when [doc(path)] does not throw and the path has one segment.
    A path without a slash names the document of that id; a slash at either
    end changes nothing. *)
Definition document_id (path : string) : option string :=
  match path_error path, segments path with
  | None, [id] => Some id
  | _, _ => None
  end.


(** The path below the collection that [doc(path)] refers to. *)
Definition relative_name (path : string) : string := String.concat "/" (segments path).

(** The store with the patch [updates] written over the reminder [oldData]
    of id [id]. *)
Definition patched (id : string) (oldData updates : gmap string jsval)
    (e : env) (s : db) : db :=
  set_coll Reminders
    (<[id := spread oldData (resolve (now e) <$> updates)]> (reminders s)) s.

(** The store without the reminder of id [id]. *)
Definition removed (id : string) (s : db) : db :=
  set_coll Reminders (delete id (reminders s)) s.

(** The error of the update of a reminder with the patch [updates], if it
    fails: the refusal of a patch without fields, or the fault of the
    store. *)
Definition update_error (e : env) (updates : gmap string jsval) : option string :=
  if bool_decide (updates = ∅) then Some no_field_to_update
  else faults e Reminders OpUpdate.

(** The value can be converted to a string. *)
Definition printable (v : jsval) : bool := bool_decide (is_Some (to_string v)).

(** The calls [logChange] makes to resolve the user's name. *)
Definition lookup_calls (userId : jsval) : list call :=
  match userId with
  | JStr u =>
      match path_error u with
      | None => [CallGet Users (relative_name u)]
      | Some _ => []
      end
  | _ => []
  end.

(** The user name [logChange] resolves to. *)
Definition resolved_name (userId : jsval) (e : env) (s : db) : jsval :=
  match userId with
  | JStr u =>
      match document_id u with
      | Some id =>
          match faults e Users OpGet, users s !! id with
          | None, Some d => js_or (field d "name") (JStr "Unnamed User")
          | _, _ => JStr "Unknown"
          end
      | None => JStr "Unknown"
      end
  | _ => JStr "Unknown"
  end.

(** The default value [{}] of the parameter [details]. *)
Definition default_details (details : jsval) : jsval :=
  match details with JUndefined => JObj ∅ | _ => details end.

(** The entry [logChange] hands to the log collection. *)
Definition audit_entry (action userId entity entityId entityName details : jsval)
    (e : env) (s : db) : gmap string jsval :=
  Server.logEntry action userId (resolved_name userId e s) entity entityId entityName
    (default_details details).

(** The store after [logChange] has run for the user [userId] with the
    entry [entry]: the entry has been handed to the log, unless the [userId]
    cannot be converted to a string. *)
Definition logged (userId : jsval) (entry : gmap string jsval) (e : env) (s : db) : db :=
  if printable userId then try_added Logs entry e s else s.

(** The calls [logChange] makes. *)
Definition log_calls (userId : jsval) (entry : gmap string jsval) : list call :=
  if printable userId then lookup_calls userId ++ [CallAdd Logs entry] else [].

(** The reminder an update or delete by [userId] may touch: the stored
    document of id [id], if its [userId] is the caller's. *)
Definition authorized (id : string) (userId : jsval) (s : db) :
    option (gmap string jsval) :=
  match reminders s !! id with
  | Some d => if strict_eq (field d "userId") userId then Some d else None
  | None => None
  end.

(** The [updates] object built from a request body. *)
Definition updates_of (body : gmap string jsval) : gmap string jsval :=
  Server.build_updates (field body "title") (field body "description")
    (field body "datetime") (field body "completed").

(** The responses of the Firestore-backed services. *)
Definition validation_error : response :=
  Response 400 (JObj (obj [("error", JStr "User ID, title, and datetime are required")])).

Definition created (docRef : string) (data : gmap string jsval) : response :=
  Response 201
    (JObj (obj [("message", JStr "Reminder created successfully");
                ("reminder", JObj (spread (obj [("reminderId", JStr docRef)]) data))])).

Definition updated (reminderId : string) (oldData updates : gmap string jsval) : response :=
  Response 200
    (JObj (obj [("message", JStr "Reminder updated successfully");
                ("reminder",
                 JObj (spread (spread (obj [("reminderId", JStr reminderId)]) oldData)
                         updates))])).

Definition deleted : response :=
  Response 200 (JObj (obj [("message", JStr "Reminder deleted successfully")])).

Definition failure (what msg : string) : response :=
  Response 500 (JObj (obj [("error", JStr what); ("details", JStr msg)])).

(** The run of an update or delete whose path names no reminder: [doc]
    throws, or the document read is one of a sub-collection, which is not
    there. *)
Definition unnamed (what path : string) (e : env) (w : world) : response * world :=
  match path_error path with
  | Some msg =>
      (failure what msg, w)
  | None =>
      (match faults e Reminders OpGet with
       | Some msg => failure what msg
       | None => Server.not_found_or_unauthorized
       end,
       World (store w) (trace w ++ [CallGet Reminders (relative_name path)]))
  end.

Definition listing (userId : string) (snapshot : list (string * gmap string jsval)) : response :=
  Response 200
    (JObj (obj [("userId", JStr userId);
                ("reminders",
                 JArr ((λ d, JObj (spread (obj [("reminderId", JStr d.1)]) d.2)) <$> snapshot))])).

Definition org_listing (snapshot : list (string * gmap string jsval)) : response :=
  Response 200 (JArr ((λ d, JObj (spread (obj [("id", JStr d.1)]) d.2)) <$> snapshot)).

(** The filters of the user-directory query of [GET /api/reminders/all]. *)
Definition user_query (organizationId : jsval) : list filter :=
  [WhereEq "organizationId" organizationId; WhereEq "role" (JStr "user")].

(** The values of the membership filter of its reminder query:
    [patientIds.length > 0 ? patientIds : ['none']]. *)
Definition membership (patients : list (string * gmap string jsval)) : list jsval :=
  let patientIds := (λ d, JStr d.1) <$> patients in
  if (0 <? length patientIds)%nat then patientIds else [JStr "none"].

(** The reminders the in-memory [DELETE /reminders/:reminderId] keeps. *)
Definition others (reminderId : string) (l : list (gmap string jsval)) :
    list (gmap string jsval) :=
  List.filter (λ r, negb (strict_eq (field r "reminderId") (JStr reminderId))) l.

(** The object the in-memory [POST /reminders] stores and returns. *)
Definition mock_reminder (uuid : string) (body : gmap string jsval) : gmap string jsval :=
  obj [("reminderId", JStr uuid); ("userId", field body "userId");
       ("title", field body "title"); ("description", field body "description");
       ("datetime", field body "datetime"); ("completed", JBool false)].

(** What the in-memory [PUT /reminders/:reminderId] answers to the user
    whose reminders are kept under [key]; the store is left as it was unless
    a reminder is found. *)
Definition mock_update_answer (reminderId : string) (body : gmap string jsval)
    (key : string) (m : Mock.memory) : response :=
  match m !! key with
  | None => Response 404 (JObj (obj [("error", JStr "User not found")]))
  | Some l =>
      match Mock.find_index reminderId l with
      | None => Response 404 (JObj (obj [("error", JStr "Reminder not found")]))
      | Some i =>
          Response 200
            (JObj (obj [("message", JStr "Reminder updated successfully");
                        ("reminder",
                         JObj (Mock.assign_fields (field body "title")
                                 (field body "description") (field body "datetime")
                                 (field body "completed") (default ∅ (l !! i))))]))
      end
  end.

(** ** Vocabulary of the properties *)

(** The reminder a response carries under the key [reminder]. *)
Definition returned_reminder (r : response) : gmap string jsval :=
  match body r with
  | JObj o => match o !! "reminder" with Some (JObj x) => x | _ => ∅ end
  | _ => ∅
  end.

(** What [POST /reminders] answers and stores when the store accepts the
    reminder. *)
Definition created_as (h : handler) (body : gmap string jsval) (e : env) (w : world) : Prop :=
  let r := fst (h e w) in
  let description := field body "description" in
  status r = 201 ∧
  returned_reminder r !! "completed" = Some (JBool false) ∧
  returned_reminder r !! "reminderId" = Some (JStr (auto_id e Reminders)) ∧
  returned_reminder r !! "description" =
    Some (if truthy description then description else JStr "") ∧
  (body !! "description" = None → returned_reminder r !! "description" = Some (JStr "")) ∧
  reminders (store (snd (h e w))) !! auto_id e Reminders =
    Some (resolve (now e) <$>
            Server.reminderData (field body "userId") (field body "title") description
              (field body "datetime")).

(** What the in-memory [POST /reminders] answers and stores for the user
    whose reminders are kept under [key]. *)
Definition mock_created_as (uuid : string) (body : gmap string jsval) (key : string)
    (m : Mock.memory) : Prop :=
  ∃ r,
    Mock.createReminder uuid body m =
      (Ok r, <[key := default [] (m !! key) ++ [mock_reminder uuid body]]> m) ∧
    status r = 201 ∧
    returned_reminder r !! "completed" = Some (JBool false) ∧
    returned_reminder r !! "reminderId" = Some (JStr uuid) ∧
    returned_reminder r !! "description" = Some (field body "description").

(** Both answers of an update or delete that is refused: the response, and
    the store left as it was. *)
Definition refused (h : handler) (e : env) (w : world) : Prop :=
  fst (h e w) = Server.not_found_or_unauthorized ∧ store (snd (h e w)) = store w.

(** What [PUT /reminders/:reminderId] does with the reminder [oldData] of
    id [id] that it is allowed to change: the patch it sends, the response,
    and the record stored afterwards. *)
Definition update_applied (h : handler) (reminderId id : string)
    (body oldData : gmap string jsval) (e : env) (w : world) : Prop :=
  let patch := updates_of body in
  let r := h e w in
  CallUpdate Reminders id patch ∈ trace (snd r) ∧
  status (fst r) = 200 ∧
  returned_reminder (fst r) =
    spread (spread (obj [("reminderId", JStr reminderId)]) oldData) patch ∧
  reminders (store (snd r)) !! id =
    Some (spread oldData (resolve (now e) <$> patch)) ∧
  (∀ k, body !! k = None →
        spread oldData (resolve (now e) <$> patch) !! k = oldData !! k).

(** What [GET /reminders/:userId] answers from the documents [snapshot];
    the store is left as it was. *)
Definition lists (h : handler) (userId : string)
    (snapshot : list (string * gmap string jsval)) (e : env) (w : world) : Prop :=
  fst (h e w) = listing userId snapshot ∧ store (snd (h e w)) = store w.

(** Ascending order of two snapshot documents on field [k]. *)
Definition ascending (leb : jsval → jsval → bool) (k : string) :
    relation (string * gmap string jsval) :=
  λ x y, leb (field x.2 k) (field y.2 k) = true.

(** The log collection of [s'] is that of [s] with one new entry, for
    [action] on the reminder [entityId]. *)
Definition one_entry_appended (action entityId : string) (s s' : db) : Prop :=
  ∃ id entry,
    logs s !! id = None ∧
    logs s' = <[id := entry]> (logs s) ∧
    entry !! "action" = Some (JStr action) ∧
    entry !! "entityId" = Some (JStr entityId).

(** The store accepts an entry added to the log collection. *)
Definition append_accepted (e : env) (s : db) : Prop :=
  faults e Logs OpAdd = None ∧ logs s !! auto_id e Logs = None.

(** From [s] to [s'] the log grows by at most one entry, and by one when
    the store accepts it. *)
Definition audited (action entityId : string) (e : env) (s s' : db) : Prop :=
  (logs s' = logs s ∨ one_entry_appended action entityId s s') ∧
  (append_accepted e s → one_entry_appended action entityId s s').


(** The look-up of the acting user in the user directory fails: the id is
    no document path, or the read itself fails. *)
Definition lookup_fails (userId : jsval) (e : env) : Prop :=
  (∀ u, userId = JStr u → is_Some (path_error u)) ∨ is_Some (faults e Users OpGet).

(** A query with a membership filter over no value at all. *)
Definition empty_membership (c : call) : bool :=
  match c with
  | CallQuery _ filters _ =>
      existsb (λ f, match f with WhereIn _ [] => true | _ => false end) filters
  | _ => false
  end.

(** Every stored reminder has a [datetime]. *)
Definition dated (s : db) : Prop :=
  ∀ id d, reminders s !! id = Some d → is_Some (d !! "datetime").

(** ** Requests, environments and stores of the examples *)

(** An environment in which no store call fails. *)
Definition quiet : env :=
  Env (λ _ _, None)
      (λ c, match c with Reminders => "r1" | Users => "u0" | Logs => "l1" end)
      1704096000 firestore_leb.

(** The same a minute later, with other ids to hand out. *)
Definition quiet2 : env :=
  Env (λ _ _, None)
      (λ c, match c with Reminders => "r2" | Users => "u0" | Logs => "l2" end)
      1704096060 firestore_leb.

(** An environment in which the log collection is out of reach. *)
Definition log_down : env :=
  Env (λ c o, match c with Logs => Some "UNAVAILABLE" | _ => None end)
      (λ c, match c with Reminders => "r1" | Users => "u0" | Logs => "l1" end)
      1704096000 firestore_leb.



(** An environment in which every store call fails. *)
Definition store_down : env :=
  Env (λ _ _, Some "UNAVAILABLE")
      (λ c, match c with Reminders => "r1" | Users => "u0" | Logs => "l1" end)
      1704096000 firestore_leb.

(** The store before any request. *)
Definition empty_world : world := World (Db ∅ ∅ ∅) [].

(** The Create request of the specification's example. *)
Definition aspirin : gmap string jsval :=
  obj [("userId", JStr "u1"); ("title", JStr "Take aspirin");
       ("datetime", JStr "2024-01-01T08:00:00Z")].

(** The reminder stored for it. *)
Definition aspirin_stored : gmap string jsval :=
  obj [("userId", JStr "u1"); ("title", JStr "Take aspirin"); ("description", JStr "");
       ("datetime", JStr "2024-01-01T08:00:00Z"); ("completed", JBool false);
       ("createdAt", JTimestamp 1704096000)].

(** A world in which it is the one reminder. *)
Definition aspirin_world : world := World (Db {[ "r1" := aspirin_stored ]} ∅ ∅) [].

(** A request that gives the user and nothing else. *)
Definition as_user (u : string) : gmap string jsval := obj [("userId", JStr u)].

(** The Update request of the specification's example. *)
Definition complete_it : gmap string jsval :=
  obj [("userId", JStr "u1"); ("completed", JBool true)].

(** An Update request with an empty description. *)
Definition blank_description : gmap string jsval :=
  obj [("userId", JStr "u1"); ("description", JStr "")].

(** A Create request whose title is empty. *)
Definition untitled : gmap string jsval :=
  obj [("userId", JStr "u1"); ("title", JStr "");
       ("datetime", JStr "2024-01-01T08:00:00Z")].

(** A Create request whose [userId] is an object with a property
    [toString]. *)
Definition unprintable : gmap string jsval :=
  obj [("userId", JObj (obj [("toString", JBool true)])); ("title", JStr "Take aspirin");
       ("datetime", JStr "2024-01-01T08:00:00Z")].

(** A request whose [userId] is the number 0. *)
Definition as_zero : gmap string jsval := obj [("userId", JNum (Number 0 I))].

(** A Create request for the user whose id is the string of the digit 0,
    and the store of the in-memory service after it. *)
Definition for_zero : gmap string jsval :=
  obj [("userId", JStr "0"); ("title", JStr "Take aspirin");
       ("datetime", JStr "2024-01-01T08:00:00Z")].

Definition zero_memory : gmap string (list (gmap string jsval)) :=
  snd (Mock.createReminder "a" for_zero ∅).

(** A reminder of the in-memory service, and a store that holds it. *)
Definition walk : gmap string jsval :=
  obj [("reminderId", JStr "a"); ("userId", JStr "u1"); ("title", JStr "Walk");
       ("description", JStr "round the block"); ("datetime", JStr "2024-01-02T09:00:00Z");
       ("completed", JBool false)].

Definition walk_memory : Mock.memory := {[ "u1" := [walk] ]}.

(** ** Vocabulary of the further properties *)

(** A patient of the organization: a document of the user directory with
    that [organizationId] and the role [user]. *)
Definition patient_of (organizationId : jsval) (s : db) (p : string) : Prop :=
  ∃ u, users s !! p = Some u ∧
       u !! "organizationId" = Some organizationId ∧
       u !! "role" = Some (JStr "user").

(** The documents [GET /api/reminders/all] answers from: none when the
    organization has no patient, and otherwise the result of the reminder
    query for the ids of its patients. *)
Definition org_snapshot (organizationId : jsval) (e : env) (s : db) :
    list (string * gmap string jsval) :=
  match run_query (value_leb e) (user_query organizationId) None (users s) with
  | [] => []
  | p :: ps =>
      run_query (value_leb e) [WhereIn "userId" (membership (p :: ps))] (Some "datetime")
        (reminders s)
  end.

(** A call on the reminders collection. *)
Definition on_reminders (c : call) : bool :=
  match c with
  | CallGet Reminders _ => true
  | CallAdd Reminders _ => true
  | CallUpdate Reminders _ _ => true
  | CallDelete Reminders _ => true
  | CallQuery Reminders _ _ => true
  | _ => false
  end.

(** Two handlers give the same answer, leave the same reminders and users,
    and make the same calls on the reminders collection. *)
Definition same_service (h h' : handler) (e : env) (w : world) : Prop :=
  fst (h e w) = fst (h' e w) ∧
  reminders (store (snd (h e w))) = reminders (store (snd (h' e w))) ∧
  users (store (snd (h e w))) = users (store (snd (h' e w))) ∧
  List.filter on_reminders (trace (snd (h e w))) =
    List.filter on_reminders (trace (snd (h' e w))).

(** The fields [PUT /reminders/:reminderId] can write. *)
Definition updatable : list string := ["title"; "description"; "datetime"; "completed"].

(** From [s] to [s'], a reminder that is still stored has kept every field
    that is not [updatable]. *)
Definition identity_kept (s s' : db) : Prop :=
  ∀ id d d', reminders s !! id = Some d → reminders s' !! id = Some d' →
    ∀ k, k ∉ updatable → d' !! k = d !! k.

(** From [s] to [s'], every reminder other than the one that the path
    [reminderId] names and that [userId] may touch is as it was, and no
    other has appeared. *)
Definition untouched_elsewhere (reminderId : string) (userId : jsval) (s s' : db) : Prop :=
  ∀ id, document_id reminderId ≠ Some id ∨ authorized id userId s = None →
    reminders s' !! id = reminders s !! id.

(** The calls the services make that can change the store: additions to the
    reminders and to the log, updates and deletions of reminders.  Reads
    and queries change nothing. *)
Definition permitted (c : call) : bool :=
  match c with
  | CallGet _ _ | CallQuery _ _ _ => true
  | CallAdd Reminders _ | CallAdd Logs _ => true
  | CallUpdate Reminders _ _ | CallDelete Reminders _ => true
  | _ => false
  end.

(** A call that only reads. *)
Definition reads (c : call) : bool :=
  match c with
  | CallGet _ _ | CallQuery _ _ _ => true
  | _ => false
  end.

(** What a run of a handler does to the log and to the user directory: the
    directory is as it was, the entries of the log are all kept, and every
    call made is a permitted one. *)
Definition keeps_the_books (h : handler) (e : env) (w : world) : Prop :=
  users (store (snd (h e w))) = users (store w) ∧
  logs (store w) ⊆ logs (store (snd (h e w))) ∧
  ∃ calls, trace (snd (h e w)) = trace w ++ calls ∧ forallb permitted calls = true.

(** A run of a handler that only reads: the store is as it was and every
    call made is a read or a query. *)
Definition only_reads (h : handler) (e : env) (w : world) : Prop :=
  store (snd (h e w)) = store w ∧
  ∃ calls, trace (snd (h e w)) = trace w ++ calls ∧ forallb reads calls = true.

(** The answer of a Create and the store after it: 201 only when the new
    reminder has been stored under the generated id, which was free; any
    other answer, and the store is as it was. *)
Definition create_outcome (h : handler) (body : gmap string jsval) (e : env) (w : world) : Prop :=
  let r := h e w in
  let data := Server.reminderData (field body "userId") (field body "title")
                (field body "description") (field body "datetime") in
  (status (fst r) = 201 →
   reminders (store w) !! auto_id e Reminders = None ∧
   reminders (store (snd r)) =
     <[auto_id e Reminders := resolve (now e) <$> data]> (reminders (store w))) ∧
  (status (fst r) ≠ 201 → store (snd r) = store w).

(** The answer of an Update and the store after it: 200 only when the
    path names a reminder stored under the caller's [userId] and the patch
    is not empty, and then the patch has been written over the reminder; any
    other answer, and the store is as it was. *)
Definition update_outcome (h : handler) (reminderId : string) (body : gmap string jsval)
    (e : env) (w : world) : Prop :=
  let r := h e w in
  (status (fst r) = 200 →
   ∃ id oldData,
     document_id reminderId = Some id ∧
     authorized id (field body "userId") (store w) = Some oldData ∧
     updates_of body ≠ ∅ ∧
     reminders (store (snd r)) =
       <[id := spread oldData (resolve (now e) <$> updates_of body)]>
         (reminders (store w))) ∧
  (status (fst r) ≠ 200 → store (snd r) = store w).

(** The answer of a Delete and the reminders after it: 200 only when the
    path names a reminder stored under the caller's [userId], and then the
    reminder has been removed; any other answer, and the reminders are as
    they were. *)
Definition delete_outcome (h : handler) (reminderId : string) (body : gmap string jsval)
    (e : env) (w : world) : Prop :=
  let r := h e w in
  (status (fst r) = 200 →
   ∃ id data,
     document_id reminderId = Some id ∧
     authorized id (field body "userId") (store w) = Some data ∧
     reminders (store (snd r)) = delete id (reminders (store w))) ∧
  (status (fst r) ≠ 200 → reminders (store (snd r)) = reminders (store w)).

(** The log of [s'] is the log of [s] with one more entry, under the id the
    store generated, with these fields and the user's name as [logChange]
    resolves it; the store has put the time of the write in the place of the
    timestamp sentinels. *)
Definition logged_as (action : string) (userId : jsval) (entityId : string)
    (entityName details : jsval) (e : env) (s s' : db) : Prop :=
  ∃ entry,
    logs s !! auto_id e Logs = None ∧
    logs s' = <[auto_id e Logs := entry]> (logs s) ∧
    entry !! "timestamp" = Some (JTimestamp (now e)) ∧
    entry !! "action" = Some (JStr action) ∧
    entry !! "userId" = Some (resolve (now e) userId) ∧
    entry !! "userName" = Some (resolve (now e) (resolved_name userId e s)) ∧
    entry !! "entity" = Some (JStr "Reminder") ∧
    entry !! "entityId" = Some (JStr entityId) ∧
    entry !! "entityName" = Some (resolve (now e) entityName) ∧
    entry !! "details" = Some (resolve (now e) details).

(** The array a response carries under the key [reminders]. *)
Definition listed (r : response) : list jsval :=
  match body r with
  | JObj o => match o !! "reminders" with Some (JArr l) => l | _ => [] end
  | _ => []
  end.

(** The array [GET /api/reminders/all] answers with. *)
Definition org_listed (r : response) : list jsval :=
  match body r with
  | JArr l => l
  | _ => []
  end.

(** Arrays and objects: the values that [===] compares by reference. *)
Definition is_reference (v : jsval) : bool :=
  match v with
  | JArr _ | JObj _ => true
  | _ => false
  end.

(** The reminder of id [id] is not in the world [w]: it is not stored,
    every Update and Delete of it (by whatever path [reminderId] names it)
    whose read the store answers is refused as not found, and no ListByUser
    returns it. *)
Definition gone (id : string) (w : world) : Prop :=
  reminders (store w) !! id = None ∧
  (∀ reminderId body e,
     document_id reminderId = Some id →
     truthy (field body "userId") = true →
     faults e Reminders OpGet = None →
     fst (Server.updateReminder reminderId body e w) = Server.not_found_or_unauthorized ∧
     fst (Server.deleteReminder reminderId body e w) = Server.not_found_or_unauthorized ∧
     fst (Legacy.updateReminder reminderId body e w) = Server.not_found_or_unauthorized ∧
     fst (Legacy.deleteReminder reminderId body e w) = Server.not_found_or_unauthorized) ∧
  (∀ userId e,
     faults e Reminders OpQuery = None →
     ∃ snapshot,
       fst (Server.listByUser userId e w) = listing userId snapshot ∧
       id ∉ snapshot.*1).

(** The answers of the in-memory service. *)
Definition mock_created (reminder : gmap string jsval) : response :=
  Response 201
    (JObj (obj [("message", JStr "Reminder created successfully");
                ("reminder", JObj reminder)])).

Definition mock_listing (userId : string) (l : list (gmap string jsval)) : response :=
  Response 200 (JObj (obj [("userId", JStr userId); ("reminders", JArr (JObj <$> l))])).

Definition mock_updated (reminder : gmap string jsval) : response :=
  Response 200
    (JObj (obj [("message", JStr "Reminder updated successfully");
                ("reminder", JObj reminder)])).

Definition reminder_not_found : response :=
  Response 404 (JObj (obj [("error", JStr "Reminder not found")])).

(** The reminder has the id [reminderId]. *)
Definition has_id (reminderId : string) (r : gmap string jsval) : bool :=
  strict_eq (field r "reminderId") (JStr reminderId).

(** What holds of every store the in-memory service builds: no key is a
    name of [Object.prototype], and a reminder kept under a key has a
    [userId] that converts to that key, and a string as [reminderId]. *)
Definition mock_wf (m : Mock.memory) : Prop :=
  (∀ k, k ∈ Mock.object_prototype_keys → m !! k = None) ∧
  (∀ k l r, m !! k = Some l → r ∈ l →
     truthy (field r "userId") = true ∧
     to_string (field r "userId") = Some k ∧
     ∃ id, r !! "reminderId" = Some (JStr id)).

(** A step of the in-memory service on behalf of the user of id [userId]:
    the store stays well formed, no user's entry is dropped, and every entry
    but the one under the key that [userId] converts to is as it was (every
    entry, when it converts to none). *)
Definition mock_step (userId : jsval) (m m' : Mock.memory) : Prop :=
  (mock_wf m → mock_wf m') ∧
  (∀ k, is_Some (m !! k) → is_Some (m' !! k)) ∧
  (∀ k, to_string userId ≠ Some k → m' !! k = m !! k).

(** The fields of a reminder as [POST /reminders] stores it. *)
Definition reminder_fields : gset string :=
  list_to_set ["userId"; "title"; "description"; "datetime"; "completed"; "createdAt"].

(** Every stored reminder has the six fields and no other, and its
    [userId], [title] and [datetime] are not empty. *)
Definition complete (s : db) : Prop :=
  ∀ id d, reminders s !! id = Some d →
    dom d = reminder_fields ∧
    truthy (field d "userId") = true ∧
    truthy (field d "title") = true ∧
    truthy (field d "datetime") = true.

(** A request, as the router hands it to a route of the service with audit
    logging: the route, with the parameters of the path or of the query
    string and the parsed body. *)
Inductive request : Type :=
  | GetAllReminders (organizationId : jsval)
  | PostReminder (body : gmap string jsval)
  | GetReminders (userId : string)
  | PutReminder (reminderId : string) (body : gmap string jsval)
  | DeleteReminder (reminderId : string) (body : gmap string jsval)
  | GetHealth.

(** The routes of the service with audit logging ([src/server.js], lines
    256, 295, 330, 367, 409 and 439). *)
Definition serve (q : request) : handler :=
  match q with
  | GetAllReminders organizationId => Server.listByOrganization organizationId
  | PostReminder body => Server.createReminder body
  | GetReminders userId => Server.listByUser userId
  | PutReminder reminderId body => Server.updateReminder reminderId body
  | DeleteReminder reminderId body => Server.deleteReminder reminderId body
  | GetHealth => Server.health
  end.

(** The world after the requests [qs], served one after the other, each in
    its own environment. *)
Fixpoint serve_all (qs : list (request * env)) (w : world) : world :=
  match qs with
  | [] => w
  | (q, e) :: qs => serve_all qs (snd (serve q e w))
  end.

(** The fields of a log entry. *)
Definition log_fields : gset string :=
  list_to_set ["timestamp"; "action"; "userId"; "userName"; "entity"; "entityId";
               "entityName"; "details"].

(** A log entry as [logChange] writes it for the routes: the eight fields,
    a time as [timestamp], one of the three actions, the entity [Reminder],
    a string as [entityId], and a [userId], a [userName] and an [entityName]
    that are not empty. *)
Definition log_entry_ok (entry : gmap string jsval) : Prop :=
  dom entry = log_fields ∧
  (∃ t, entry !! "timestamp" = Some (JTimestamp t)) ∧
  (entry !! "action" = Some (JStr "CREATE") ∨
   entry !! "action" = Some (JStr "UPDATE") ∨
   entry !! "action" = Some (JStr "DELETE")) ∧
  entry !! "entity" = Some (JStr "Reminder") ∧
  (∃ id, entry !! "entityId" = Some (JStr id)) ∧
  truthy (field entry "userId") = true ∧
  truthy (field entry "userName") = true ∧
  truthy (field entry "entityName") = true.

(** Every entry of the log is such an entry. *)
Definition logs_ok (s : db) : Prop :=
  ∀ id entry, logs s !! id = Some entry → log_entry_ok entry.

(** A request, as the router hands it to a route of the in-memory service;
    a Create comes with the value [uuidv4()] gives it. *)
Inductive mock_request : Type :=
  | MockPostReminder (uuid : string) (body : gmap string jsval)
  | MockGetReminders (userId : string)
  | MockPutReminder (reminderId : string) (body : gmap string jsval)
  | MockDeleteReminder (reminderId : string) (body : gmap string jsval)
  | MockGetHealth.

(** The routes of the in-memory service ([src/unnamed/part_000], lines 13,
    32, 43, 65 and 79). *)
Definition mock_serve (q : mock_request) : Mock.handler :=
  match q with
  | MockPostReminder uuid body => Mock.createReminder uuid body
  | MockGetReminders userId => Mock.listByUser userId
  | MockPutReminder reminderId body => Mock.updateReminder reminderId body
  | MockDeleteReminder reminderId body => Mock.deleteReminder reminderId body
  | MockGetHealth => Mock.health
  end.

(** The store after the requests [qs], served one after the other. *)
Fixpoint mock_serve_all (qs : list mock_request) (m : Mock.memory) : Mock.memory :=
  match qs with
  | [] => m
  | q :: qs => mock_serve_all qs (snd (mock_serve q m))
  end.

(** The values [uuidv4()] gives to the Creates among the requests. *)
Fixpoint handed_out (qs : list mock_request) : list string :=
  match qs with
  | [] => []
  | MockPostReminder uuid _ :: qs => uuid :: handed_out qs
  | _ :: qs => handed_out qs
  end.

(** The ids of the reminders of a list, in its order. *)
Definition ids (l : list (gmap string jsval)) : list jsval :=
  (λ r, field r "reminderId") <$> l.

(** Some reminder of the store has the id [reminderId]. *)
Definition holds (reminderId : string) (m : Mock.memory) : Prop :=
  ∃ k l, m !! k = Some l ∧ JStr reminderId ∈ ids l.

(** No two reminders of the store have the same [reminderId], be they of
    one user or of two. *)
Definition unique_ids (m : Mock.memory) : Prop :=
  (∀ k l, m !! k = Some l → NoDup (ids l)) ∧
  (∀ k k' l l' x,
     m !! k = Some l → m !! k' = Some l' → x ∈ ids l → x ∈ ids l' → k = k').

(** ** Requests, environments and stores of the further examples *)

(** An environment in which the store refuses to delete a reminder. *)
Definition delete_refused : env :=
  Env (λ c o, match c, o with
              | Reminders, OpDelete => Some "UNAVAILABLE"
              | _, _ => None
              end)
      (λ c, match c with Reminders => "r2" | Users => "u0" | Logs => "l2" end)
      1704096060 firestore_leb.

(** A store with one organization's directory: a patient who has the
    reminder of the examples, and a doctor. *)
Definition clinic_world : world :=
  World (Db {[ "r1" := aspirin_stored ]}
            {[ "u1" := obj [("name", JStr "Ann"); ("organizationId", JStr "org1");
                            ("role", JStr "user")];
               "d1" := obj [("name", JStr "Bob"); ("organizationId", JStr "org1");
                            ("role", JStr "doctor")] ]}
            ∅) [].

(** A Create request whose [userId] is an array. *)
Definition shared : gmap string jsval :=
  obj [("userId", JArr [JStr "u1"; JStr "u2"]); ("title", JStr "Take aspirin");
       ("datetime", JStr "2024-01-01T08:00:00Z")].


(** A request by the user whose id is the one-element array of ["u1"]. *)
Definition as_array_user : gmap string jsval := obj [("userId", JArr [JStr "u1"])].

(** Requests of the examples to the in-memory service. *)
Definition morning : list mock_request :=
  [MockPostReminder "a" aspirin; MockGetReminders "u1";
   MockPostReminder "b" aspirin; MockPutReminder "a" complete_it;
   MockDeleteReminder "b" (as_user "u1")].

(** Requests of the examples to the service with audit logging. *)
Definition day : list (request * env) :=
  [(PostReminder aspirin, quiet); (GetReminders "u1", quiet);
   (PutReminder "r1" complete_it, quiet2); (DeleteReminder "r1" (as_user "u1"), log_down)].

(** ** Facts about the values *)

Lemma strict_eq_eq a b : strict_eq a b = true → a = b.
Proof.
  destruct a, b; simpl; try discriminate; try done;
    intros H%bool_decide_eq_true; by subst.
Qed.

Lemma field_lookup o k v : o !! k = Some v → field o k = v.
Proof. unfold field. by intros ->. Qed.

Lemma field_missing o k : o !! k = None → field o k = JUndefined.
Proof. unfold field. by intros ->. Qed.

Lemma lookup_spread a b k :
  spread a b !! k = match b !! k with Some v => Some v | None => a !! k end.
Proof.
  unfold spread. rewrite lookup_union.
  destruct (b !! k), (a !! k); done.
Qed.

Lemma spread_empty a : spread a ∅ = a.
Proof. unfold spread. apply (left_id_L ∅ (∪)). Qed.

Lemma js_or_truthy a b : truthy a = true → js_or a b = a.
Proof. unfold js_or. by intros ->. Qed.

Lemma js_or_falsy a b : truthy a = false → js_or a b = b.
Proof. unfold js_or. by intros ->. Qed.

Lemma truthy_defined v : truthy v = true → defined v = true.
Proof. by destruct v. Qed.

(** ** The store calls in closed form *)

Lemma document_id_Some path id :
  document_id path = Some id → path_error path = None ∧ segments path = [id].
Proof.
  unfold document_id. destruct (path_error path); [done|].
  destruct (segments path) as [|x [|y l]]; [done| |done]. by intros [= ->].
Qed.

Lemma document_id_name path id : document_id path = Some id → relative_name path = id.
Proof. intros [_ H]%document_id_Some. unfold relative_name. by rewrite H. Qed.

Lemma document_id_None path :
  document_id path = None → path_error path = None →
  (match segments path with [id] => Doc id | segs => SubDoc segs end)
    = SubDoc (segments path).
Proof.
  unfold document_id. intros H Hp. rewrite Hp in H.
  by destruct (segments path) as [|x [|y l]].
Qed.

Lemma doc_ref_run path id e w :
  document_id path = Some id → doc_ref (JStr path) e w = (Ok (Doc id), w).
Proof. intros [H1 H2]%document_id_Some. unfold doc_ref. by rewrite H1, H2. Qed.

Lemma doc_ref_elsewhere path e w :
  document_id path = None → path_error path = None →
  doc_ref (JStr path) e w = (Ok (SubDoc (segments path)), w).
Proof.
  intros H1 H2. unfold doc_ref. rewrite H2. by rewrite (document_id_None _ H1 H2).
Qed.

Lemma doc_ref_error path msg e w :
  path_error path = Some msg → doc_ref (JStr path) e w = (Throw msg, w).
Proof. intros H. unfold doc_ref. by rewrite H. Qed.




Lemma db_get_run c r e w :
  db_get c r e w =
    (match faults e c OpGet with
     | Some msg => Throw msg
     | None => Ok (match r with
                   | Doc id => coll c (store w) !! id
                   | SubDoc _ => None
                   end)
     end, called (CallGet c (name r)) w).
Proof.
  unfold db_get, bind, record, may_fail, read, ret, called. simpl.
  destruct (faults e c OpGet); reflexivity.
Qed.

Lemma add_ok_true c e s :
  faults e c OpAdd = None → coll c s !! auto_id e c = None → add_ok c e s = true.
Proof.
  intros H1 H2. unfold add_ok. by rewrite !bool_decide_eq_true_2.
Qed.

Lemma db_add_run c data e w :
  db_add c data e w =
    if add_ok c e (store w)
    then (Ok (auto_id e c), World (added c data e (store w)) (trace w ++ [CallAdd c data]))
    else (Throw (default "Document already exists" (faults e c OpAdd)),
          called (CallAdd c data) w).
Proof.
  unfold db_add, add_ok, added, bind, record, may_fail, read, write, ask, ret, throw, called.
  simpl. destruct (faults e c OpAdd); simpl; [done|].
  destruct (coll c (store w) !! auto_id e c); done.
Qed.

Lemma db_update_run c id patch e w :
  db_update c (Doc id) patch e w =
    if bool_decide (patch = ∅)
    then (Throw no_field_to_update, called (CallUpdate c id patch) w)
    else
      match faults e c OpUpdate, coll c (store w) !! id with
      | Some msg, _ => (Throw msg, called (CallUpdate c id patch) w)
      | None, None => (Throw "No document to update", called (CallUpdate c id patch) w)
      | None, Some old =>
          (Ok (),
           World (set_coll c (<[id := spread old (resolve (now e) <$> patch)]> (coll c (store w)))
                    (store w))
                 (trace w ++ [CallUpdate c id patch]))
      end.
Proof.
  unfold db_update, bind, record, may_fail, read, write, ask, ret, throw, called.
  simpl. case_bool_decide; simpl; [done|].
  destruct (faults e c OpUpdate); simpl; [done|].
  destruct (coll c (store w) !! id); done.
Qed.

Lemma db_delete_run c id e w :
  db_delete c (Doc id) e w =
    match faults e c OpDelete with
    | Some msg => (Throw msg, called (CallDelete c id) w)
    | None =>
        (Ok (),
         World (set_coll c (delete id (coll c (store w))) (store w))
               (trace w ++ [CallDelete c id]))
    end.
Proof.
  unfold db_delete, bind, record, may_fail, read, write, ret, called.
  simpl. destruct (faults e c OpDelete); done.
Qed.

Lemma db_query_run c filters order_by e w :
  db_query c filters order_by e w =
    (if existsb rejected filters then Throw "Invalid query"
     else match faults e c OpQuery with
          | Some msg => Throw msg
          | None => Ok (run_query (value_leb e) filters order_by (coll c (store w)))
          end,
     called (CallQuery c filters order_by) w).
Proof.
  unfold db_query, bind, record, may_fail, read, ask, ret, throw, called.
  simpl. destruct (existsb rejected filters); simpl; [done|].
  destruct (faults e c OpQuery); done.
Qed.

Lemma elem_of_run_query leb filters order_by (m : gmap string (gmap string jsval)) id d :
  (id, d) ∈ run_query leb filters order_by m ↔
    m !! id = Some d ∧ forallb (satisfies d) filters = true ∧ has_order_field order_by d = true.
Proof.
  unfold run_query. rewrite merge_sort_Permutation.
  rewrite list_elem_of_In, filter_In, <- list_elem_of_In, elem_of_map_to_list.
  unfold selected. cbn [fst snd]. rewrite andb_true_iff. tauto.
Qed.

Lemma NoDup_run_query leb filters order_by (m : gmap string (gmap string jsval)) :
  NoDup (run_query leb filters order_by m).*1.
Proof.
  unfold run_query. rewrite merge_sort_Permutation.
  pose proof (NoDup_fst_map_to_list m) as H.
  revert H. generalize (map_to_list m). intros l.
  induction l as [|y l IH]; intros H; cbn [List.filter].
  - constructor.
  - rewrite fmap_cons in H. apply NoDup_cons in H as [Hy Hl].
    destruct (selected filters order_by y); [|by apply IH].
    rewrite fmap_cons. apply NoDup_cons. split; [|by apply IH].
    intros Hin. apply Hy. apply list_elem_of_fmap in Hin as [z [-> Hz]].
    apply list_elem_of_fmap. exists z. split; [done|].
    apply list_elem_of_In in Hz. apply filter_In in Hz as [Hz _].
    by apply list_elem_of_In.
Qed.

Lemma entry_le_total leb order_by :
  (∀ a b, leb a b = true ∨ leb b a = true) → Total (entry_le leb order_by).
Proof.
  intros Htot x y. unfold entry_le, entry_leb.
  destruct order_by as [k|]; [|apply String.leb_total].
  destruct (Htot (field x.2 k) (field y.2 k)) as [H|H]; rewrite H;
    destruct (leb (field y.2 k) (field x.2 k)) eqn:H1;
    destruct (leb (field x.2 k) (field y.2 k)) eqn:H2;
    try discriminate; auto using String.leb_total.
Qed.

Lemma Sorted_weaken {A} (R R' : relation A) l :
  (∀ x y, R x y → R' x y) → Sorted R l → Sorted R' l.
Proof.
  intros HR. induction 1 as [|x l Hl IH Hhd]; constructor; [done|].
  destruct Hhd; constructor; auto.
Qed.

Lemma Sorted_run_query leb filters k (m : gmap string (gmap string jsval)) :
  (∀ a b, leb a b = true ∨ leb b a = true) →
  Sorted (ascending leb k) (run_query leb filters (Some k) m).
Proof.
  intros Htot. apply (Sorted_weaken (entry_le leb (Some k))).
  - intros x y. unfold entry_le, entry_leb, ascending.
    destruct (leb (field x.2 k) (field y.2 k)); done.
  - apply Sorted_merge_sort. by apply entry_le_total.
Qed.

Lemma Z_leb_total (x y : Z) : (x <=? y)%Z = true ∨ (y <=? x)%Z = true.
Proof. rewrite !Z.leb_le. lia. Qed.

Lemma firestore_leb_total a b : firestore_leb a b = true ∨ firestore_leb b a = true.
Proof.
  destruct a as [| |x|x|x|x|x| |x], b as [| |y|y|y|y|y| |y]; cbn;
    auto using String.leb_total, Z_leb_total.
  destruct x, y; auto.
Qed.


(** ** Conversions to a string *)

Lemma printable_Some v s : to_string v = Some s → printable v = true.
Proof. intros H. unfold printable. rewrite H. by apply bool_decide_eq_true_2. Qed.

Lemma printable_string s : printable (JStr s) = true.
Proof. done. Qed.

Lemma to_string_cons x xs :
  to_string (JArr (x :: xs)) =
    match (match x with
           | JUndefined | JNull => Some ""
           | _ => to_string x
           end) with
    | None => None
    | Some sx =>
        match xs with
        | [] => Some sx
        | _ :: _ =>
            match to_string (JArr xs) with
            | None => None
            | Some rest => Some (sx +:+ "," +:+ rest)%string
            end
        end
    end.
Proof. done. Qed.

(** An array that holds an object with a property [toString] cannot be
    converted. *)
Lemma to_string_array xs o :
  JObj o ∈ xs → is_Some (o !! "toString") → to_string (JArr xs) = None.
Proof.
  intros Hin Ho. induction xs as [|x xs IH]; [by apply elem_of_nil in Hin|].
  rewrite to_string_cons. apply elem_of_cons in Hin as [<-|Hin].
  - cbn [to_string]. by rewrite bool_decide_eq_true_2.
  - rewrite (IH Hin). destruct xs as [|y ys]; [by apply elem_of_nil in Hin|].
    by destruct (match x with JUndefined | JNull => Some "" | _ => to_string x end).
Qed.

(** What [===] finds equal to another value is a primitive value, and can
    be converted. *)
Lemma strict_eq_printable a b : strict_eq a b = true → printable b = true.
Proof.
  destruct a, b; try discriminate; intros _; try done.
  unfold printable. cbn. by destruct b.
Qed.

(** ** [logChange] in closed form *)

Lemma swallowed (m : M unit) e w : try_catch m (λ _, ret ()) e w = (Ok (), snd (m e w)).
Proof. unfold try_catch, ret. by destruct (m e w) as [[[]|msg] w']. Qed.

Lemma interpolate_one v e w :
  interpolate [v] e w = (if printable v then Ok () else Throw cannot_convert, w).
Proof.
  unfold interpolate, printable. cbn [forallb]. rewrite andb_true_r.
  by destruct (bool_decide (is_Some (to_string v))).
Qed.

Lemma appended_world entry vs e w :
  snd ((db_add Logs entry ;;; interpolate vs ;;; ret ()) e w)
  = World (try_added Logs entry e (store w)) (trace w ++ [CallAdd Logs entry]).
Proof.
  unfold bind. rewrite db_add_run. unfold try_added, called.
  destruct (add_ok Logs e (store w)); [|done].
  unfold interpolate. by destruct (forallb _ vs).
Qed.

(** The look-up of the user's name, with its [catch]. *)
Lemma lookup_run userId e w :
  try_catch
    (ref <- doc_ref userId ;;
     userDoc <- db_get Users ref ;;
     match userDoc with
     | Some d => ret (js_or (field d "name") (JStr "Unnamed User"))
     | None => ret (JStr "Unknown")
     end)
    (λ _, interpolate [userId] ;;; ret (JStr "Unknown")) e w
  = if printable userId
    then (Ok (resolved_name userId e (store w)),
          World (store w) (trace w ++ lookup_calls userId))
    else (Throw cannot_convert, w).
Proof.
  assert (∀ w', (interpolate [userId] ;;; ret (JStr "Unknown")) e w'
                = (if printable userId then Ok (JStr "Unknown") else Throw cannot_convert, w'))
    as Hcatch.
  { intros w'. unfold bind. rewrite interpolate_one. by destruct (printable userId). }
  unfold try_catch. unfold bind at 1.
  destruct userId as [| |b|n|u|xs|o| |t];
    try (cbn [doc_ref throw]; rewrite Hcatch; cbn [resolved_name lookup_calls];
         rewrite app_nil_r; destruct (printable _); by destruct w).
  change (printable (JStr u)) with true. cbn [resolved_name lookup_calls].
  destruct (document_id u) as [id|] eqn:Hid.
  - rewrite (doc_ref_run _ _ _ _ Hid). unfold bind at 1. rewrite db_get_run. cbn [name coll].
    destruct (document_id_Some _ _ Hid) as [-> _]. rewrite (document_id_name _ _ Hid).
    destruct (faults e Users OpGet) as [msg|]; cbv beta iota; [by rewrite Hcatch|].
    by destruct (users (store w) !! id).
  - destruct (path_error u) as [msg|] eqn:Hpath.
    + rewrite (doc_ref_error _ _ _ _ Hpath), Hcatch. rewrite app_nil_r. by destruct w.
    + rewrite (doc_ref_elsewhere _ _ _ Hid Hpath). unfold bind at 1. rewrite db_get_run.
      cbn [name]. fold (relative_name u).
      destruct (faults e Users OpGet) as [msg|]; cbv beta iota; [by rewrite Hcatch|done].
Qed.

Lemma logChange_run action userId entity entityId entityName details e w :
  Server.logChange action userId entity entityId entityName details e w =
    (Ok (),
     let entry := audit_entry action userId entity entityId entityName details e (store w) in
     World (logged userId entry e (store w)) (trace w ++ log_calls userId entry)).
Proof.
  unfold Server.logChange. fold (default_details details). cbv zeta.
  rewrite swallowed. f_equal. unfold bind at 1. rewrite lookup_run.
  unfold logged, log_calls, audit_entry.
  destruct (printable userId); cbn [snd].
  - rewrite appended_world. cbn [store trace]. by rewrite <- app_assoc.
  - rewrite app_nil_r. by destruct w.
Qed.

Lemma resolved_name_unknown userId e s :
  lookup_fails userId e → resolved_name userId e s = JStr "Unknown".
Proof.
  intros [H|[msg H]]; unfold resolved_name; destruct userId as [| | | |u| | | |]; try done.
  - destruct (H u eq_refl) as [msg Hmsg]. unfold document_id. by rewrite Hmsg.
  - rewrite H. by destruct (document_id u).
Qed.

Lemma audit_entry_action action userId entity entityId entityName details e s t :
  (resolve t <$> audit_entry (JStr action) userId entity (JStr entityId) entityName details e s)
    !! "action" = Some (JStr action).
Proof. done. Qed.

Lemma audit_entry_entityId action userId entity entityId entityName details e s t :
  (resolve t <$> audit_entry (JStr action) userId entity (JStr entityId) entityName details e s)
    !! "entityId" = Some (JStr entityId).
Proof. done. Qed.

Lemma try_added_audited action userId entity entityId entityName details e s0 s :
  logs s = logs s0 →
  audited action entityId e s0
    (try_added Logs
       (audit_entry (JStr action) userId entity (JStr entityId) entityName details e s) e s).
Proof.
  intros Hlogs. unfold audited, try_added, append_accepted, add_ok. cbn [coll].
  rewrite Hlogs.
  assert (faults e Logs OpAdd = None → logs s0 !! auto_id e Logs = None →
    one_entry_appended action entityId s0
      (added Logs (audit_entry (JStr action) userId entity (JStr entityId) entityName
                     details e s) e s)) as Hone.
  { intros Hf Hfresh. eexists _, _. split; [exact Hfresh|].
    unfold added. cbn [set_coll coll logs]. rewrite Hlogs.
    split; [reflexivity|]. split; [apply audit_entry_action|apply audit_entry_entityId]. }
  split.
  - case_bool_decide as Hf; [|by left]. case_bool_decide as Hfresh; [|by left].
    right. by apply Hone.
  - intros [Hf Hfresh]. rewrite !bool_decide_eq_true_2 by done. by apply Hone.
Qed.

(** ** The handlers of the Firestore-backed services in closed form *)

Lemma authorized_None reminderId userId s :
  (reminders s !! reminderId = None ∨
   ∃ d, reminders s !! reminderId = Some d ∧ strict_eq (field d "userId") userId = false) →
  authorized reminderId userId s = None.
Proof.
  unfold authorized. intros [-> | (d & -> & ->)]; done.
Qed.

Lemma authorized_Some reminderId userId s d :
  reminders s !! reminderId = Some d → strict_eq (field d "userId") userId = true →
  authorized reminderId userId s = Some d.
Proof. unfold authorized. by intros -> ->. Qed.

Lemma server_create_invalid body e w :
  truthy (field body "userId") && truthy (field body "title")
    && truthy (field body "datetime") = false →
  Server.createReminder body e w = (validation_error, w).
Proof.
  intros H. unfold Server.createReminder. cbv zeta.
  destruct (truthy (field body "userId")), (truthy (field body "title")),
    (truthy (field body "datetime")); done.
Qed.

Lemma server_create_run body e w :
  let userId := field body "userId" in
  let title := field body "title" in
  let data := Server.reminderData userId title (field body "description") (field body "datetime") in
  truthy userId = true → truthy title = true → truthy (field body "datetime") = true →
  Server.createReminder body e w =
    if add_ok Reminders e (store w)
    then
      let s1 := added Reminders data e (store w) in
      let entry := audit_entry (JStr "CREATE") userId (JStr "Reminder")
                     (JStr (auto_id e Reminders)) title
                     (JObj (obj [("data", JObj data)])) e s1 in
      (created (auto_id e Reminders) data,
       World (logged userId entry e s1)
             (trace w ++ [CallAdd Reminders data] ++ log_calls userId entry))
    else (failure "Failed to create reminder" (add_error Reminders e),
          called (CallAdd Reminders data) w).
Proof.
  intros userId title data Hu Ht Hd.
  unfold Server.createReminder. cbv zeta.
  fold userId title data. rewrite Hu, Ht, Hd. cbn [negb orb].
  unfold guarded, bind; cbv beta. rewrite db_add_run.
  destruct (add_ok Reminders e (store w)); [|done].
  rewrite logChange_run. cbv zeta. simpl store. simpl trace.
  unfold created, ret. by rewrite <- !app_assoc.
Qed.

Lemma legacy_create_run body e w :
  let userId := field body "userId" in
  let title := field body "title" in
  let data := Server.reminderData userId title (field body "description") (field body "datetime") in
  truthy userId = true → truthy title = true → truthy (field body "datetime") = true →
  Legacy.createReminder body e w =
    if add_ok Reminders e (store w)
    then (created (auto_id e Reminders) data,
          World (added Reminders data e (store w)) (trace w ++ [CallAdd Reminders data]))
    else (failure "Failed to create reminder" (add_error Reminders e),
          called (CallAdd Reminders data) w).
Proof.
  intros userId title data Hu Ht Hd.
  unfold Legacy.createReminder. cbv zeta.
  fold userId title data. rewrite Hu, Ht, Hd. cbn [negb orb].
  unfold guarded, bind; cbv beta. rewrite db_add_run.
  destruct (add_ok Reminders e (store w)); done.
Qed.

Lemma created_reminder_fields docRef userId title description datetime :
  let rem := returned_reminder
       (created docRef (Server.reminderData userId title description datetime)) in
  rem !! "completed" = Some (JBool false) ∧
  rem !! "reminderId" = Some (JStr docRef) ∧
  rem !! "description" = Some (js_or description (JStr "")).
Proof. done. Qed.

Lemma build_updates_title title description datetime completed :
  Server.build_updates title description datetime completed !! "title" =
    if truthy title then Some title else None.
Proof.
  unfold Server.build_updates.
  destruct (truthy title), (defined description), (truthy datetime), (defined completed);
    reflexivity.
Qed.

Lemma build_updates_description title description datetime completed :
  Server.build_updates title description datetime completed !! "description" =
    if defined description then Some description else None.
Proof.
  unfold Server.build_updates.
  destruct (truthy title), (defined description), (truthy datetime), (defined completed);
    reflexivity.
Qed.

Lemma build_updates_datetime title description datetime completed :
  Server.build_updates title description datetime completed !! "datetime" =
    if truthy datetime then Some datetime else None.
Proof.
  unfold Server.build_updates.
  destruct (truthy title), (defined description), (truthy datetime), (defined completed);
    reflexivity.
Qed.

Lemma build_updates_completed title description datetime completed :
  Server.build_updates title description datetime completed !! "completed" =
    if defined completed then Some completed else None.
Proof.
  unfold Server.build_updates.
  destruct (truthy title), (defined description), (truthy datetime), (defined completed);
    reflexivity.
Qed.

Lemma build_updates_other title description datetime completed k :
  k ≠ "title" → k ≠ "description" → k ≠ "datetime" → k ≠ "completed" →
  Server.build_updates title description datetime completed !! k = None.
Proof.
  intros. unfold Server.build_updates.
  destruct (truthy title), (defined description), (truthy datetime), (defined completed);
    by rewrite ?lookup_insert_ne, ?lookup_empty.
Qed.

Lemma build_updates_omitted body k :
  body !! k = None →
  Server.build_updates (field body "title") (field body "description")
    (field body "datetime") (field body "completed") !! k = None.
Proof.
  intros Hk.
  destruct (decide (k = "title")) as [->|];
    [by rewrite build_updates_title, (field_missing _ _ Hk)|].
  destruct (decide (k = "description")) as [->|];
    [by rewrite build_updates_description, (field_missing _ _ Hk)|].
  destruct (decide (k = "datetime")) as [->|];
    [by rewrite build_updates_datetime, (field_missing _ _ Hk)|].
  destruct (decide (k = "completed")) as [->|];
    [by rewrite build_updates_completed, (field_missing _ _ Hk)|].
  by apply build_updates_other.
Qed.

Lemma updates_of_nothing body :
  field body "title" = JUndefined → field body "description" = JUndefined →
  field body "datetime" = JUndefined → field body "completed" = JUndefined →
  updates_of body = ∅.
Proof. unfold updates_of. by intros -> -> -> ->. Qed.

Lemma omitted_field_kept body oldData t k :
  body !! k = None →
  spread oldData (resolve t <$> updates_of body) !! k = oldData !! k.
Proof.
  intros Hk. rewrite lookup_spread, lookup_fmap.
  unfold updates_of. by rewrite build_updates_omitted.
Qed.


Lemma update_error_None e updates :
  update_error e updates = None ↔ updates ≠ ∅ ∧ faults e Reminders OpUpdate = None.
Proof.
  unfold update_error. case_bool_decide as H; [|tauto].
  split; [done|]. by intros [].
Qed.


Lemma db_update_patched id oldData updates e w :
  reminders (store w) !! id = Some oldData →
  db_update Reminders (Doc id) updates e w =
    match update_error e updates with
    | Some msg => (Throw msg, called (CallUpdate Reminders id updates) w)
    | None =>
        (Ok (), World (patched id oldData updates e (store w))
                  (trace w ++ [CallUpdate Reminders id updates]))
    end.
Proof.
  intros Hold. rewrite db_update_run. unfold update_error. cbn [coll]. rewrite Hold.
  case_bool_decide; [done|]. by destruct (faults e Reminders OpUpdate).
Qed.

Lemma server_update_anonymous reminderId body e w :
  truthy (field body "userId") = false →
  Server.updateReminder reminderId body e w = (Server.user_id_required, w).
Proof. intros H. unfold Server.updateReminder. cbv zeta. by rewrite H. Qed.

(** The look-up of a path that names no reminder. *)
Ltac solve_unnamed path Hid :=
  let Hpath := fresh "Hpath" in
  unfold guarded, unnamed; unfold bind at 1;
  destruct (path_error path) as [?|] eqn:Hpath;
  [ by rewrite (doc_ref_error _ _ _ _ Hpath)
  | rewrite (doc_ref_elsewhere _ _ _ Hid Hpath); unfold bind at 1; rewrite db_get_run;
    cbn [name]; fold (relative_name path);
    by destruct (faults _ Reminders OpGet) ].

Lemma server_update_unnamed reminderId body e w :
  truthy (field body "userId") = true → document_id reminderId = None →
  Server.updateReminder reminderId body e w =
    unnamed "Failed to update reminder" reminderId e w.
Proof.
  intros Hu Hid. unfold Server.updateReminder. cbv zeta. rewrite Hu. cbn [negb].
  solve_unnamed reminderId Hid.
Qed.

Lemma server_update_run reminderId id body e w :
  let userId := field body "userId" in
  let title := field body "title" in
  let updates := Server.build_updates title (field body "description")
                   (field body "datetime") (field body "completed") in
  let w1 := called (CallGet Reminders id) w in
  truthy userId = true → document_id reminderId = Some id →
  Server.updateReminder reminderId body e w =
    match faults e Reminders OpGet with
    | Some msg => (failure "Failed to update reminder" msg, w1)
    | None =>
        match authorized id userId (store w) with
        | None => (Server.not_found_or_unauthorized, w1)
        | Some oldData =>
            match update_error e updates with
            | Some msg =>
                (failure "Failed to update reminder" msg,
                 called (CallUpdate Reminders id updates) w1)
            | None =>
                let s1 := patched id oldData updates e (store w) in
                let entry :=
                  audit_entry (JStr "UPDATE") userId (JStr "Reminder") (JStr reminderId)
                    (js_or title (field oldData "title"))
                    (JObj (obj [("oldData", JObj oldData); ("newData", JObj updates)]))
                    e s1 in
                (updated reminderId oldData updates,
                 World (try_added Logs entry e s1)
                   (trace w ++ [CallGet Reminders id; CallUpdate Reminders id updates]
                      ++ lookup_calls userId ++ [CallAdd Logs entry]))
            end
        end
    end.
Proof.
  intros userId title updates w1 Hu Hid.
  unfold Server.updateReminder. cbv zeta. fold userId title updates.
  rewrite Hu. cbn [negb].
  unfold guarded, bind; cbv beta. rewrite (doc_ref_run _ _ _ _ Hid).
  rewrite db_get_run. cbn [name]. fold w1. unfold authorized. cbn [coll].
  destruct (faults e Reminders OpGet) as [msg|]; [done|].
  destruct (reminders (store w) !! id) as [oldData|] eqn:Hl; [|done].
  destruct (strict_eq (field oldData "userId") userId) eqn:Hown; cbn [negb]; [|done].
  rewrite (db_update_patched id oldData) by done.
  destruct (update_error e updates) as [msg|]; [done|].
  rewrite logChange_run. cbv zeta. cbn [store trace].
  unfold logged, log_calls. rewrite (strict_eq_printable _ _ Hown).
  unfold updated, ret. subst w1. unfold called. cbn [store trace].
  by rewrite <- !app_assoc.
Qed.

Lemma legacy_update_unnamed reminderId body e w :
  truthy (field body "userId") = true → document_id reminderId = None →
  Legacy.updateReminder reminderId body e w =
    unnamed "Failed to update reminder" reminderId e w.
Proof.
  intros Hu Hid. unfold Legacy.updateReminder. cbv zeta. rewrite Hu. cbn [negb].
  solve_unnamed reminderId Hid.
Qed.

Lemma legacy_update_run reminderId id body e w :
  let userId := field body "userId" in
  let updates := Server.build_updates (field body "title") (field body "description")
                   (field body "datetime") (field body "completed") in
  let w1 := called (CallGet Reminders id) w in
  truthy userId = true → document_id reminderId = Some id →
  Legacy.updateReminder reminderId body e w =
    match faults e Reminders OpGet with
    | Some msg => (failure "Failed to update reminder" msg, w1)
    | None =>
        match authorized id userId (store w) with
        | None => (Server.not_found_or_unauthorized, w1)
        | Some oldData =>
            match update_error e updates with
            | Some msg =>
                (failure "Failed to update reminder" msg,
                 called (CallUpdate Reminders id updates) w1)
            | None =>
                (updated reminderId oldData updates,
                 World (patched id oldData updates e (store w))
                   (trace w ++ [CallGet Reminders id; CallUpdate Reminders id updates]))
            end
        end
    end.
Proof.
  intros userId updates w1 Hu Hid.
  unfold Legacy.updateReminder. cbv zeta. fold userId updates.
  rewrite Hu. cbn [negb].
  unfold guarded, bind; cbv beta. rewrite (doc_ref_run _ _ _ _ Hid).
  rewrite db_get_run. cbn [name]. fold w1. unfold authorized. cbn [coll].
  destruct (faults e Reminders OpGet) as [msg|]; [done|].
  destruct (reminders (store w) !! id) as [oldData|] eqn:Hl; [|done].
  destruct (strict_eq (field oldData "userId") userId); cbn [negb]; [|done].
  rewrite (db_update_patched id oldData) by done.
  destruct (update_error e updates) as [msg|]; [done|].
  unfold updated, ret. subst w1. unfold called. cbn [store trace].
  by rewrite <- !app_assoc.
Qed.

Lemma server_delete_anonymous reminderId body e w :
  truthy (field body "userId") = false →
  Server.deleteReminder reminderId body e w = (Server.user_id_required, w).
Proof. intros H. unfold Server.deleteReminder. cbv zeta. by rewrite H. Qed.

Lemma server_delete_unnamed reminderId body e w :
  truthy (field body "userId") = true → document_id reminderId = None →
  Server.deleteReminder reminderId body e w =
    unnamed "Failed to delete reminder" reminderId e w.
Proof.
  intros Hu Hid. unfold Server.deleteReminder. cbv zeta. rewrite Hu. cbn [negb].
  solve_unnamed reminderId Hid.
Qed.

Lemma server_delete_run reminderId id body e w :
  let userId := field body "userId" in
  let w1 := called (CallGet Reminders id) w in
  truthy userId = true → document_id reminderId = Some id →
  Server.deleteReminder reminderId body e w =
    match faults e Reminders OpGet with
    | Some msg => (failure "Failed to delete reminder" msg, w1)
    | None =>
        match authorized id userId (store w) with
        | None => (Server.not_found_or_unauthorized, w1)
        | Some data =>
            let entry :=
              audit_entry (JStr "DELETE") userId (JStr "Reminder") (JStr reminderId)
                (field data "title") (JObj (obj [("data", JObj data)])) e (store w) in
            let s1 := try_added Logs entry e (store w) in
            let calls := ([CallGet Reminders id] ++ lookup_calls userId
                            ++ [CallAdd Logs entry; CallDelete Reminders id]) in
            match faults e Reminders OpDelete with
            | Some msg =>
                (failure "Failed to delete reminder" msg, World s1 (trace w ++ calls))
            | None => (deleted, World (removed id s1) (trace w ++ calls))
            end
        end
    end.
Proof.
  intros userId w1 Hu Hid.
  unfold Server.deleteReminder. cbv zeta. fold userId.
  rewrite Hu. cbn [negb].
  unfold guarded, bind; cbv beta. rewrite (doc_ref_run _ _ _ _ Hid).
  rewrite db_get_run. cbn [name]. fold w1. unfold authorized. cbn [coll].
  destruct (faults e Reminders OpGet) as [msg|]; [done|].
  destruct (reminders (store w) !! id) as [data|] eqn:Hl; [|done].
  destruct (strict_eq (field data "userId") userId) eqn:Hown; cbn [negb]; [|done].
  rewrite logChange_run. cbv zeta. rewrite db_delete_run.
  unfold logged, log_calls. rewrite (strict_eq_printable _ _ Hown).
  subst w1. cbn [called store trace coll].
  destruct (faults e Reminders OpDelete) as [msg|];
    unfold called, removed, deleted, ret; cbn [store trace];
    rewrite <- ?app_assoc; cbn [app]; rewrite <- ?app_assoc; done.
Qed.

Lemma legacy_delete_unnamed reminderId body e w :
  truthy (field body "userId") = true → document_id reminderId = None →
  Legacy.deleteReminder reminderId body e w =
    unnamed "Failed to delete reminder" reminderId e w.
Proof.
  intros Hu Hid. unfold Legacy.deleteReminder. cbv zeta. rewrite Hu. cbn [negb].
  solve_unnamed reminderId Hid.
Qed.

Lemma legacy_delete_run reminderId id body e w :
  let userId := field body "userId" in
  let w1 := called (CallGet Reminders id) w in
  truthy userId = true → document_id reminderId = Some id →
  Legacy.deleteReminder reminderId body e w =
    match faults e Reminders OpGet with
    | Some msg => (failure "Failed to delete reminder" msg, w1)
    | None =>
        match authorized id userId (store w) with
        | None => (Server.not_found_or_unauthorized, w1)
        | Some data =>
            let calls := [CallGet Reminders id; CallDelete Reminders id] in
            match faults e Reminders OpDelete with
            | Some msg =>
                (failure "Failed to delete reminder" msg, World (store w) (trace w ++ calls))
            | None => (deleted, World (removed id (store w)) (trace w ++ calls))
            end
        end
    end.
Proof.
  intros userId w1 Hu Hid.
  unfold Legacy.deleteReminder. cbv zeta. fold userId.
  rewrite Hu. cbn [negb].
  unfold guarded, bind; cbv beta. rewrite (doc_ref_run _ _ _ _ Hid).
  rewrite db_get_run. cbn [name]. fold w1. unfold authorized. cbn [coll].
  destruct (faults e Reminders OpGet) as [msg|]; [done|].
  destruct (reminders (store w) !! id) as [data|] eqn:Hl; [|done].
  destruct (strict_eq (field data "userId") userId); cbn [negb]; [|done].
  rewrite db_delete_run.
  subst w1. cbn [called store trace coll].
  destruct (faults e Reminders OpDelete) as [msg|];
    unfold called, removed, deleted, ret; cbn [store trace];
    rewrite <- ?app_assoc; done.
Qed.

Lemma server_list_run userId e w :
  Server.listByUser userId e w =
    (match faults e Reminders OpQuery with
     | Some msg => failure "Failed to fetch reminders" msg
     | None =>
         listing userId
           (run_query (value_leb e) [WhereEq "userId" (JStr userId)] (Some "datetime")
              (reminders (store w)))
     end,
     called (CallQuery Reminders [WhereEq "userId" (JStr userId)] (Some "datetime")) w).
Proof.
  unfold Server.listByUser, guarded, bind; cbv beta. rewrite db_query_run.
  cbn [existsb rejected orb coll].
  destruct (faults e Reminders OpQuery) as [msg|]; [done|].
  destruct (run_query _ _ _ _); done.
Qed.

Lemma membership_cons p ps : ∃ v vs, membership (p :: ps) = v :: vs.
Proof. unfold membership. cbn. eauto. Qed.

Lemma server_org_run organizationId e w :
  let q1 := CallQuery Users (user_query organizationId) None in
  Server.listByOrganization organizationId e w =
    match fst (db_query Users (user_query organizationId) None e w) with
    | Throw _ => (Response 500 (JArr []), called q1 w)
    | Ok [] => (Response 200 (JArr []), called q1 w)
    | Ok (p :: ps) =>
        let q2 := CallQuery Reminders [WhereIn "userId" (membership (p :: ps))]
                    (Some "datetime") in
        (match faults e Reminders OpQuery with
         | Some _ => Response 500 (JArr [])
         | None =>
             org_listing
               (run_query (value_leb e) [WhereIn "userId" (membership (p :: ps))]
                  (Some "datetime") (reminders (store w)))
         end,
         World (store w) (trace w ++ [q1; q2]))
    end.
Proof.
  intros q1.
  unfold Server.listByOrganization, guarded, bind; cbv beta.
  fold (user_query organizationId).
  rewrite db_query_run. cbn [fst]. fold q1.
  destruct (existsb rejected (user_query organizationId)); [done|].
  destruct (faults e Users OpQuery) as [msg|]; [done|].
  destruct (run_query _ _ _ _) as [|p ps]; [done|].
  rewrite db_query_run. fold (membership (p :: ps)).
  assert (existsb rejected [WhereIn "userId" (membership (p :: ps))] = false) as ->.
  { done. }
  cbn [called store trace coll].
  destruct (faults e Reminders OpQuery) as [msg|]; unfold ret, org_listing;
    unfold called; cbn [store trace]; rewrite <- ?app_assoc; done.
Qed.

(** ** The handlers of the in-memory service in closed form *)

Lemma get_slot_own (m : Mock.memory) k l : m !! k = Some l → Mock.get_slot m k = Mock.Own l.
Proof. unfold Mock.get_slot. by intros ->. Qed.

Lemma get_slot_missing (m : Mock.memory) k :
  m !! k = None → k ∉ Mock.object_prototype_keys → Mock.get_slot m k = Mock.Missing.
Proof.
  intros Hk Hp. unfold Mock.get_slot. rewrite Hk. by rewrite bool_decide_eq_false_2.
Qed.

Lemma mock_create_run uuid body key (m : Mock.memory) :
  truthy (field body "userId") = true →
  truthy (field body "title") = true →
  truthy (field body "datetime") = true →
  to_string (field body "userId") = Some key →
  key ∉ Mock.object_prototype_keys →
  mock_created_as uuid body key m.
Proof.
  intros Hu Ht Hd Hkey Hp. unfold mock_created_as.
  unfold Mock.createReminder. cbv zeta. rewrite Hu, Ht, Hd, Hkey. cbn [negb orb].
  fold (mock_reminder uuid body).
  destruct (m !! key) as [l|] eqn:Hl.
  - rewrite (get_slot_own _ _ _ Hl). eexists. split; [reflexivity|]. done.
  - rewrite (get_slot_missing _ _ Hl Hp). eexists. split; [reflexivity|]. done.
Qed.

Lemma assign_fields_title title description datetime completed old :
  Mock.assign_fields title description datetime completed old !! "title" =
    if truthy title then Some title else old !! "title".
Proof.
  unfold Mock.assign_fields.
  destruct (truthy title), (truthy description), (truthy datetime), (defined completed);
    by simplify_map_eq.
Qed.

Lemma assign_fields_description title description datetime completed old :
  Mock.assign_fields title description datetime completed old !! "description" =
    if truthy description then Some description else old !! "description".
Proof.
  unfold Mock.assign_fields.
  destruct (truthy title), (truthy description), (truthy datetime), (defined completed);
    by simplify_map_eq.
Qed.

Lemma assign_fields_datetime title description datetime completed old :
  Mock.assign_fields title description datetime completed old !! "datetime" =
    if truthy datetime then Some datetime else old !! "datetime".
Proof.
  unfold Mock.assign_fields.
  destruct (truthy title), (truthy description), (truthy datetime), (defined completed);
    by simplify_map_eq.
Qed.

Lemma assign_fields_completed title description datetime completed old :
  Mock.assign_fields title description datetime completed old !! "completed" =
    if defined completed then Some completed else old !! "completed".
Proof.
  unfold Mock.assign_fields.
  destruct (truthy title), (truthy description), (truthy datetime), (defined completed);
    by simplify_map_eq.
Qed.

Lemma mock_update_run reminderId body key (m : Mock.memory) :
  truthy (field body "userId") = true →
  to_string (field body "userId") = Some key →
  key ∉ Mock.object_prototype_keys →
  fst (Mock.updateReminder reminderId body m) = Ok (mock_update_answer reminderId body key m) ∧
  (status (mock_update_answer reminderId body key m) = 404 →
   snd (Mock.updateReminder reminderId body m) = m).
Proof.
  intros Hu Hkey Hp. unfold Mock.updateReminder, mock_update_answer. cbv zeta.
  rewrite Hu, Hkey. cbn [negb].
  destruct (m !! key) as [l|] eqn:Hl.
  - rewrite (get_slot_own _ _ _ Hl).
    destruct (Mock.find_index reminderId l); (split; [done|]); [discriminate|done].
  - rewrite (get_slot_missing _ _ Hl Hp). by split.
Qed.

Lemma others_idemp reminderId l : others reminderId (others reminderId l) = others reminderId l.
Proof.
  unfold others. induction l as [|r l IH]; [done|]. cbn [List.filter].
  destruct (negb (strict_eq (field r "reminderId") (JStr reminderId))) eqn:Hr; [|done].
  cbn [List.filter]. by rewrite Hr, IH.
Qed.

Lemma others_none reminderId l :
  Mock.find_index reminderId l = None → others reminderId l = l.
Proof.
  unfold others. induction l as [|r l IH]; [done|]. cbn [Mock.find_index List.filter].
  destruct (strict_eq (field r "reminderId") (JStr reminderId)); [done|].
  cbn [negb]. intros H. rewrite IH; [done|]. by destruct (Mock.find_index reminderId l).
Qed.

Lemma mock_delete_run reminderId body key (m : Mock.memory) l :
  truthy (field body "userId") = true →
  to_string (field body "userId") = Some key →
  m !! key = Some l →
  Mock.deleteReminder reminderId body m =
    (Ok deleted, <[key := others reminderId l]> m).
Proof.
  intros Hu Hkey Hl. unfold Mock.deleteReminder. cbv zeta. rewrite Hu, Hkey. cbn [negb].
  by rewrite (get_slot_own _ _ _ Hl).
Qed.

(** A [userId] that cannot be converted to a property key. *)
Lemma mock_unconvertible uuid reminderId body (m : Mock.memory) :
  truthy (field body "userId") = true →
  to_string (field body "userId") = None →
  (truthy (field body "title") = true →
   truthy (field body "datetime") = true →
   Mock.createReminder uuid body m = (Throw cannot_convert, m)) ∧
  Mock.updateReminder reminderId body m = (Throw cannot_convert, m) ∧
  Mock.deleteReminder reminderId body m = (Throw cannot_convert, m).
Proof.
  intros Hu Hkey. split; [|split].
  - intros Ht Hd. unfold Mock.createReminder. cbv zeta. by rewrite Hu, Ht, Hd, Hkey.
  - unfold Mock.updateReminder. cbv zeta. by rewrite Hu, Hkey.
  - unfold Mock.deleteReminder. cbv zeta. by rewrite Hu, Hkey.
Qed.

Lemma mock_list_run userId (m : Mock.memory) :
  userId ∉ Mock.object_prototype_keys →
  Mock.listByUser userId m =
    (Ok (match m !! userId with
         | None => Response 404 (JObj (obj [("message", JStr "No reminders found for this user")]))
         | Some l =>
             Response 200 (JObj (obj [("userId", JStr userId); ("reminders", JArr (JObj <$> l))]))
         end), m).
Proof.
  intros Hp. unfold Mock.listByUser.
  destruct (m !! userId) as [l|] eqn:Hl.
  - by rewrite (get_slot_own _ _ _ Hl).
  - by rewrite (get_slot_missing _ _ Hl Hp).
Qed.

(** ** The runs of a request *)

Lemma legacy_create_invalid body e w :
  truthy (field body "userId") && truthy (field body "title")
    && truthy (field body "datetime") = false →
  Legacy.createReminder body e w = (validation_error, w).
Proof.
  intros H. unfold Legacy.createReminder. cbv zeta.
  destruct (truthy (field body "userId")), (truthy (field body "title")),
    (truthy (field body "datetime")); done.
Qed.

Lemma legacy_update_anonymous reminderId body e w :
  truthy (field body "userId") = false →
  Legacy.updateReminder reminderId body e w = (Server.user_id_required, w).
Proof. intros H. unfold Legacy.updateReminder. cbv zeta. by rewrite H. Qed.

Lemma legacy_delete_anonymous reminderId body e w :
  truthy (field body "userId") = false →
  Legacy.deleteReminder reminderId body e w = (Server.user_id_required, w).
Proof. intros H. unfold Legacy.deleteReminder. cbv zeta. by rewrite H. Qed.

(** The runs of a Create: the request is turned away, or the addition is
    tried. *)
Ltac create_cases body :=
  let Hv := fresh "Hv" in
  destruct (truthy (field body "userId") && truthy (field body "title")
              && truthy (field body "datetime")) eqn:Hv;
  [ let Hd := fresh "Hd" in let Hu := fresh "Hu" in let Ht := fresh "Ht" in
    apply andb_prop in Hv as [Hv Hd]; apply andb_prop in Hv as [Hu Ht];
    rewrite ?server_create_run, ?legacy_create_run by done; cbv zeta
  | rewrite ?server_create_invalid, ?legacy_create_invalid by done ].

(** The runs of an Update or a Delete.  The path names a reminder: the read
    fails; the reminder is there for this user; it is not.  The path names
    none: [doc] throws; the read fails; the read finds nothing.  Or the
    request names no user. *)
Ltac change_cases reminderId body e w :=
  let Hu := fresh "Hu" in
  destruct (truthy (field body "userId")) eqn:Hu;
  [ let Hid := fresh "Hid" in
    let id := fresh "id" in
    destruct (document_id reminderId) as [id|] eqn:Hid;
    [ rewrite ?(server_update_run reminderId id), ?(legacy_update_run reminderId id),
        ?(server_delete_run reminderId id), ?(legacy_delete_run reminderId id) by done;
      cbv zeta;
      let Hget := fresh "Hget" in
      destruct (faults e Reminders OpGet) eqn:Hget;
      [ | let Hauth := fresh "Hauth" in
          let found := fresh "found" in
          destruct (authorized id (field body "userId") (store w))
            as [found|] eqn:Hauth ]
    | rewrite ?server_update_unnamed, ?legacy_update_unnamed,
        ?server_delete_unnamed, ?legacy_delete_unnamed by done;
      unfold unnamed;
      let Hpath := fresh "Hpath" in
      destruct (path_error reminderId) eqn:Hpath;
      [ | let Hget := fresh "Hget" in destruct (faults e Reminders OpGet) eqn:Hget ] ]
  | rewrite ?server_update_anonymous, ?legacy_update_anonymous,
      ?server_delete_anonymous, ?legacy_delete_anonymous by done ].

(** ** The log and the directory under [logChange] *)

Lemma reminders_try_added data e s : reminders (try_added Logs data e s) = reminders s.
Proof. unfold try_added, added. by destruct (add_ok Logs e s). Qed.

Lemma users_try_added data e s : users (try_added Logs data e s) = users s.
Proof. unfold try_added, added. by destruct (add_ok Logs e s). Qed.

Lemma logs_try_added data e s : logs s ⊆ logs (try_added Logs data e s).
Proof.
  unfold try_added, added, add_ok. cbn [coll].
  case_bool_decide as Hf; [|done]. case_bool_decide as Hfresh; [|done].
  cbn [andb set_coll logs]. by apply insert_subseteq.
Qed.

Lemma reminders_logged userId data e s : reminders (logged userId data e s) = reminders s.
Proof. unfold logged. destruct (printable userId); [apply reminders_try_added|done]. Qed.

Lemma users_logged userId data e s : users (logged userId data e s) = users s.
Proof. unfold logged. destruct (printable userId); [apply users_try_added|done]. Qed.

Lemma logs_logged userId data e s : logs s ⊆ logs (logged userId data e s).
Proof. unfold logged. destruct (printable userId); [apply logs_try_added|done]. Qed.

Lemma logged_printable userId data e s :
  printable userId = true → logged userId data e s = try_added Logs data e s.
Proof. unfold logged. by intros ->. Qed.

Lemma log_calls_printable userId entry :
  printable userId = true → log_calls userId entry = lookup_calls userId ++ [CallAdd Logs entry].
Proof. unfold log_calls. by intros ->. Qed.

Lemma resolved_name_users userId e s s' :
  users s' = users s → resolved_name userId e s' = resolved_name userId e s.
Proof. intros H. unfold resolved_name. by rewrite H. Qed.

Lemma audit_entry_users action userId entity entityId entityName details e s s' :
  users s' = users s →
  audit_entry action userId entity entityId entityName details e s' =
    audit_entry action userId entity entityId entityName details e s.
Proof. intros H. unfold audit_entry. by rewrite (resolved_name_users _ _ _ _ H). Qed.

Lemma filter_lookup_calls userId : List.filter on_reminders (lookup_calls userId) = [].
Proof.
  unfold lookup_calls. destruct userId as [| | | |u| | | |]; try done.
  by destruct (path_error u).
Qed.

Lemma filter_log_calls userId entry : List.filter on_reminders (log_calls userId entry) = [].
Proof.
  unfold log_calls. destruct (printable userId); [|done].
  by rewrite List.filter_app, filter_lookup_calls.
Qed.

Lemma authorized_stored id userId s d :
  authorized id userId s = Some d → reminders s !! id = Some d.
Proof.
  unfold authorized. destruct (reminders s !! id); [|done].
  by destruct (strict_eq _ _); intros [= ->].
Qed.

(** ** Further properties of the handlers *)

(** The reminder of the examples is the one a Create of the example
    request stores. *)
Lemma aspirin_world_is_created :
  store (snd (Legacy.createReminder aspirin quiet empty_world)) = store aspirin_world.
Proof. vm_compute. reflexivity. Qed.

(** The example of the specification: the Create answers 201 with the new
    reminder, its description empty and [completed] false; the Update that
    follows answers with [completed] true and the other fields as stored,
    and appends one UPDATE entry to the log. *)
Lemma specification_example :
  let r1 := Server.createReminder aspirin quiet empty_world in
  let r2 := Server.updateReminder "r1" complete_it quiet2 (snd r1) in
  status (fst r1) = 201 ∧
  returned_reminder (fst r1) =
    obj [("reminderId", JStr "r1"); ("userId", JStr "u1"); ("title", JStr "Take aspirin");
         ("description", JStr ""); ("datetime", JStr "2024-01-01T08:00:00Z");
         ("completed", JBool false); ("createdAt", JServerTimestamp)] ∧
  one_entry_appended "CREATE" "r1" (store empty_world) (store (snd r1)) ∧
  status (fst r2) = 200 ∧
  returned_reminder (fst r2) =
    obj [("reminderId", JStr "r1"); ("userId", JStr "u1"); ("title", JStr "Take aspirin");
         ("description", JStr ""); ("datetime", JStr "2024-01-01T08:00:00Z");
         ("completed", JBool true); ("createdAt", JTimestamp 1704096000)] ∧
  one_entry_appended "UPDATE" "r1" (store (snd r1)) (store (snd r2)).
Proof.
  cbv zeta.
  rewrite (server_create_run aspirin) by reflexivity. cbv zeta.
  change (add_ok Reminders quiet (store empty_world)) with true.
  rewrite logged_printable by reflexivity. cbn [fst snd store].
  rewrite (server_update_run "r1" "r1" complete_it) by reflexivity. cbv zeta.
  cbn [faults quiet2 store].
  split; [reflexivity|]. split; [reflexivity|].
  split; [apply try_added_audited; [reflexivity|]; split; reflexivity|].
  split; [reflexivity|]. split; [reflexivity|].
  apply try_added_audited; [reflexivity|]. split; reflexivity.
Qed.

(** An Update or Delete without a [userId] is refused before the store is
    touched: with 400 "User ID is required" by the Firestore-backed
    services, with 404 "User not found" by the in-memory one. *)
Theorem missing_user_id_is_refused reminderId body :
  truthy (field body "userId") = false →
  (∀ e w, Server.updateReminder reminderId body e w = (Server.user_id_required, w)) ∧
  (∀ e w, Server.deleteReminder reminderId body e w = (Server.user_id_required, w)) ∧
  (∀ e w, Legacy.updateReminder reminderId body e w = (Server.user_id_required, w)) ∧
  (∀ e w, Legacy.deleteReminder reminderId body e w = (Server.user_id_required, w)) ∧
  (∀ m, Mock.updateReminder reminderId body m =
          (Ok (Response 404 (JObj (obj [("error", JStr "User not found")]))), m)) ∧
  (∀ m, Mock.deleteReminder reminderId body m =
          (Ok (Response 404 (JObj (obj [("error", JStr "User not found")]))), m)).
Proof.
  intros H.
  repeat split; intros;
    unfold Server.updateReminder, Server.deleteReminder, Legacy.updateReminder,
      Legacy.deleteReminder, Mock.updateReminder, Mock.deleteReminder;
    cbv zeta; by rewrite H.
Qed.

Lemma missing_user_id_is_refused_witness :
  status Server.user_id_required = 400 ∧
  (∀ e w, Server.updateReminder "r1" ∅ e w = (Server.user_id_required, w)).
Proof.
  split; [reflexivity|]. apply (missing_user_id_is_refused "r1" ∅). reflexivity.
Defined.

(** A failure during the operation itself is reported to the caller: 500
    with the error's message as [details]; nothing is stored and nothing is
    logged.  This holds of a Create whose addition fails, of an Update or
    Delete whose path the client library refuses (no read is made then) or
    whose read fails, and of a list whose query fails. *)
Theorem store_failure_is_reported msg :
  (∀ body e w,
     truthy (field body "userId") = true →
     truthy (field body "title") = true →
     truthy (field body "datetime") = true →
     faults e Reminders OpAdd = Some msg →
     fst (Server.createReminder body e w) = failure "Failed to create reminder" msg ∧
     store (snd (Server.createReminder body e w)) = store w) ∧
  (∀ reminderId body e w,
     truthy (field body "userId") = true →
     path_error reminderId = Some msg →
     Server.updateReminder reminderId body e w =
       (failure "Failed to update reminder" msg, w) ∧
     Server.deleteReminder reminderId body e w =
       (failure "Failed to delete reminder" msg, w)) ∧
  (∀ reminderId body e w,
     truthy (field body "userId") = true →
     path_error reminderId = None →
     faults e Reminders OpGet = Some msg →
     Server.updateReminder reminderId body e w =
       (failure "Failed to update reminder" msg,
        called (CallGet Reminders (relative_name reminderId)) w) ∧
     Server.deleteReminder reminderId body e w =
       (failure "Failed to delete reminder" msg,
        called (CallGet Reminders (relative_name reminderId)) w)) ∧
  (∀ userId e w,
     faults e Reminders OpQuery = Some msg →
     fst (Server.listByUser userId e w) = failure "Failed to fetch reminders" msg ∧
     store (snd (Server.listByUser userId e w)) = store w).
Proof.
  split; [|split; [|split]].
  - intros body e w Hu Ht Hd Hf. rewrite server_create_run by done. cbv zeta.
    unfold add_ok, add_error. rewrite Hf. by rewrite bool_decide_eq_false_2.
  - intros reminderId body e w Hu Hpath.
    assert (document_id reminderId = None) as Hid.
    { unfold document_id. by rewrite Hpath. }
    rewrite server_update_unnamed, server_delete_unnamed by done.
    unfold unnamed. by rewrite Hpath.
  - intros reminderId body e w Hu Hpath Hf.
    destruct (document_id reminderId) as [id|] eqn:Hid.
    + rewrite (server_update_run reminderId id), (server_delete_run reminderId id) by done.
      cbv zeta. by rewrite Hf, (document_id_name _ _ Hid).
    + rewrite server_update_unnamed, server_delete_unnamed by done.
      unfold unnamed. by rewrite Hpath, Hf.
  - intros userId e w Hf. rewrite server_list_run. by rewrite Hf.
Qed.

Lemma store_failure_is_reported_witness :
  fst (Server.listByUser "u1" store_down aspirin_world)
    = failure "Failed to fetch reminders" "UNAVAILABLE" ∧
  store (snd (Server.listByUser "u1" store_down aspirin_world)) = store aspirin_world.
Proof.
  apply (store_failure_is_reported "UNAVAILABLE"). reflexivity.
Defined.

Lemma dated_reminders s s' : reminders s' = reminders s → dated s → dated s'.
Proof. intros Heq H id d. rewrite Heq. apply H. Qed.

Lemma dated_try_added data e s : dated s → dated (try_added Logs data e s).
Proof. apply dated_reminders, reminders_try_added. Qed.

Lemma dated_logged userId data e s : dated s → dated (logged userId data e s).
Proof. apply dated_reminders, reminders_logged. Qed.

Lemma dated_added body e s :
  dated s →
  dated (added Reminders
           (Server.reminderData (field body "userId") (field body "title")
              (field body "description") (field body "datetime")) e s).
Proof.
  intros Hs id d. unfold added. cbn [set_coll reminders coll].
  rewrite lookup_insert. case_decide as Hid; [|apply Hs].
  intros [= <-]. rewrite lookup_fmap. unfold Server.reminderData. by eexists.
Qed.

Lemma dated_patched key oldData updates e s :
  dated s → reminders s !! key = Some oldData →
  dated (patched key oldData updates e s).
Proof.
  intros Hs Hold id d. unfold patched. cbn [set_coll reminders].
  rewrite lookup_insert. case_decide as Hid; [|apply Hs].
  intros [= <-]. rewrite lookup_spread, lookup_fmap.
  destruct (updates !! "datetime"); [by eexists|]. cbn. by apply (Hs key).
Qed.

Lemma dated_removed reminderId s : dated s → dated (removed reminderId s).
Proof.
  intros Hs id d. unfold removed. cbn [set_coll reminders].
  intros Hd%lookup_delete_Some. apply (Hs id). apply Hd.
Qed.

(** Every reminder the service with audit logging stores has a [datetime]:
    the property holds of the empty store and each handler keeps it. *)
Theorem stored_reminders_keep_a_datetime e w :
  dated (store empty_world) ∧
  (dated (store w) →
   (∀ body, dated (store (snd (Server.createReminder body e w)))) ∧
   (∀ reminderId body, dated (store (snd (Server.updateReminder reminderId body e w)))) ∧
   (∀ reminderId body, dated (store (snd (Server.deleteReminder reminderId body e w)))) ∧
   (∀ userId, dated (store (snd (Server.listByUser userId e w)))) ∧
   (∀ organizationId,
      dated (store (snd (Server.listByOrganization organizationId e w))))).
Proof.
  split; [by intros id d|]. intros Hw.
  split; [|split; [|split; [|split]]].
  - intros body. create_cases body; [|done].
    destruct (add_ok Reminders e (store w)); [|done]. cbn [snd store].
    by apply dated_logged, dated_added.
  - intros reminderId body. change_cases reminderId body e w; try done.
    destruct (update_error e _); [done|]. cbn [snd store].
    apply dated_try_added, dated_patched; [done|]. by eapply authorized_stored.
  - intros reminderId body. change_cases reminderId body e w; try done.
    destruct (faults e Reminders OpDelete); cbn [snd store].
    + by apply dated_try_added.
    + by apply dated_removed, dated_try_added.
  - intros userId. by rewrite server_list_run.
  - intros organizationId. rewrite server_org_run. cbv zeta.
    by destruct (fst (db_query Users (user_query organizationId) None e w)) as [[|p ps]|msg].
Qed.

Lemma stored_reminders_keep_a_datetime_witness :
  dated (store (snd (Server.createReminder aspirin quiet empty_world))).
Proof.
  destruct (stored_reminders_keep_a_datetime quiet empty_world) as [H0 H].
  exact (proj1 (H H0) aspirin).
Defined.

(** What [logChange] writes.  Called for a [userId] that can be converted
    to a string, and with the store accepting the entry, it appends one entry
    to the log, under the id the store generates, and that entry is the one
    it handed to the store with the time of the write as [timestamp].  In
    the entry a falsy [userId] is written as "unknown" and a falsy
    [entityName] as "N/A"; [details] that are not given are the empty
    object; the action, the entity and its id are the arguments; the user's
    name is the [name] of the document that the [userId] names in the
    directory, "Unnamed User" when that is falsy, and "Unknown" when there
    is no such document or the look-up fails.  The reminders and the
    directory are as they were. *)
Theorem log_entry_is_normalised action userId entity entityId entityName details e w :
  printable userId = true →
  append_accepted e (store w) →
  let w' := snd (Server.logChange action userId entity entityId entityName details e w) in
  reminders (store w') = reminders (store w) ∧
  users (store w') = users (store w) ∧
  ∃ entry,
    trace w' = trace w ++ lookup_calls userId ++ [CallAdd Logs entry] ∧
    logs (store w) !! auto_id e Logs = None ∧
    logs (store w') = <[auto_id e Logs := resolve (now e) <$> entry]> (logs (store w)) ∧
    (resolve (now e) <$> entry) !! "timestamp" = Some (JTimestamp (now e)) ∧
    entry !! "action" = Some action ∧
    entry !! "userId" = Some (if truthy userId then userId else JStr "unknown") ∧
    entry !! "entity" = Some entity ∧
    entry !! "entityId" = Some entityId ∧
    entry !! "entityName" = Some (if truthy entityName then entityName else JStr "N/A") ∧
    entry !! "details" = Some (match details with JUndefined => JObj ∅ | _ => details end) ∧
    (∀ u id, userId = JStr u → document_id u = Some id → faults e Users OpGet = None →
       entry !! "userName" =
         Some (match users (store w) !! id with
               | Some d => if truthy (field d "name") then field d "name"
                           else JStr "Unnamed User"
               | None => JStr "Unknown"
               end)) ∧
    (lookup_fails userId e → entry !! "userName" = Some (JStr "Unknown")).
Proof.
  intros Hp [Hf Hfresh] w'. subst w'. rewrite logChange_run. cbv zeta. cbn [snd store trace].
  rewrite logged_printable, log_calls_printable by done.
  rewrite reminders_try_added, users_try_added.
  split; [done|]. split; [done|].
  eexists. split; [reflexivity|]. split; [done|]. split.
  { unfold try_added. by rewrite add_ok_true. }
  split; [done|]. split; [done|]. split; [done|]. split; [done|]. split; [done|].
  split; [done|]. split; [done|]. split.
  - intros u id -> Hid Hget. unfold audit_entry, Server.logEntry, resolved_name.
    rewrite Hid, Hget. cbn. unfold js_or. by destruct (users (store w) !! id).
  - intros Hfail. unfold audit_entry. by rewrite resolved_name_unknown.
Qed.

Lemma log_entry_is_normalised_witness :
  let w' := snd (Server.logChange (JStr "DELETE") (JStr "u1") (JStr "Reminder") (JStr "r1")
                   JUndefined JUndefined quiet clinic_world) in
  ∃ entry,
    logs (store w') = <["l1" := resolve (now quiet) <$> entry]> (logs (store clinic_world)) ∧
    entry !! "entityName" = Some (JStr "N/A") ∧
    entry !! "details" = Some (JObj ∅) ∧
    entry !! "userName" = Some (JStr "Ann").
Proof.
  destruct (log_entry_is_normalised (JStr "DELETE") (JStr "u1") (JStr "Reminder") (JStr "r1")
              JUndefined JUndefined quiet clinic_world)
    as (_ & _ & entry & _ & _ & Hlogs & _ & _ & _ & _ & _ & Hname & Hdetails & Huser & _);
    [reflexivity|split; reflexivity|].
  exists entry. split; [exact Hlogs|]. split; [exact Hname|]. split; [exact Hdetails|].
  exact (Huser "u1" "u1" eq_refl eq_refl eq_refl).
Defined.

(** ** The patients' reminders *)

Lemma membership_patients p ps : membership (p :: ps) = (λ d, JStr d.1) <$> (p :: ps).
Proof. done. Qed.

Lemma elem_of_patients leb organizationId (m : gmap string (gmap string jsval)) p u :
  (p, u) ∈ run_query leb (user_query organizationId) None m ↔
    m !! p = Some u ∧ u !! "organizationId" = Some organizationId ∧
    u !! "role" = Some (JStr "user").
Proof.
  rewrite elem_of_run_query. unfold user_query. cbn [forallb satisfies has_order_field].
  rewrite andb_true_r, andb_true_iff, !bool_decide_eq_true. tauto.
Qed.

Lemma elem_of_patient_ids leb organizationId s x :
  x ∈ (λ d : string * gmap string jsval, JStr d.1)
        <$> run_query leb (user_query organizationId) None (users s) ↔
    ∃ p, x = JStr p ∧ patient_of organizationId s p.
Proof.
  rewrite list_elem_of_fmap. split.
  - intros ([p u] & -> & Hin). apply elem_of_patients in Hin.
    exists p. split; [done|]. by exists u.
  - intros (p & -> & u & Hu). exists (p, u). split; [done|]. by apply elem_of_patients.
Qed.

Lemma user_query_rejected organizationId :
  existsb rejected (user_query organizationId) = negb (defined organizationId).
Proof. by destruct organizationId. Qed.

Lemma server_org_answer organizationId e w :
  defined organizationId = true →
  faults e Users OpQuery = None →
  faults e Reminders OpQuery = None →
  fst (Server.listByOrganization organizationId e w)
    = org_listing (org_snapshot organizationId e (store w)) ∧
  store (snd (Server.listByOrganization organizationId e w)) = store w.
Proof.
  intros Hdef Hu Hr. unfold org_snapshot.
  rewrite server_org_run. cbv zeta. rewrite db_query_run. cbn [fst coll].
  rewrite user_query_rejected, Hdef, Hu. cbn [negb].
  destruct (run_query (value_leb e) (user_query organizationId) None (users (store w)))
    as [|p ps]; [done|].
  by rewrite Hr.
Qed.

Lemma elem_of_org_snapshot organizationId e s id d :
  (id, d) ∈ org_snapshot organizationId e s ↔
    reminders s !! id = Some d ∧
    (∃ p, d !! "userId" = Some (JStr p) ∧ patient_of organizationId s p) ∧
    is_Some (d !! "datetime").
Proof.
  unfold org_snapshot.
  destruct (run_query (value_leb e) (user_query organizationId) None (users s))
    as [|p ps] eqn:Hpat.
  - split; [by intros ?%elem_of_nil|].
    intros (_ & (q & _ & u & Hq) & _).
    apply (elem_of_patients (value_leb e)) in Hq. rewrite Hpat in Hq.
    by apply elem_of_nil in Hq.
  - rewrite elem_of_run_query. cbn [forallb satisfies has_order_field].
    rewrite andb_true_r, bool_decide_eq_true, membership_patients, <- Hpat.
    split.
    + intros (Hd & Hin & Hdt). split; [done|]. split; [|done].
      destruct (d !! "userId") as [x|]; [|done].
      apply bool_decide_eq_true in Hin. apply elem_of_patient_ids in Hin as (q & -> & Hq).
      by exists q.
    + intros (Hd & (q & Hq & Hpq) & Hdt). split; [done|]. split; [|done].
      rewrite Hq. apply bool_decide_eq_true. apply elem_of_patient_ids. by exists q.
Qed.

(** What [GET /api/reminders/all] answers when the store answers its
    queries: the stored reminders that have a [datetime] and whose [userId]
    is the id of a patient of the organization, each once, by ascending
    [datetime], each with the document id under [id]; the store is left as
    it was. *)
Theorem listByOrganization_returns_the_patients_reminders organizationId e w :
  defined organizationId = true →
  faults e Users OpQuery = None →
  faults e Reminders OpQuery = None →
  (∀ a b, value_leb e a b = true ∨ value_leb e b a = true) →
  ∃ snapshot,
    fst (Server.listByOrganization organizationId e w) = org_listing snapshot ∧
    store (snd (Server.listByOrganization organizationId e w)) = store w ∧
    NoDup snapshot.*1 ∧
    (∀ id d, (id, d) ∈ snapshot ↔
       reminders (store w) !! id = Some d ∧
       (∃ p, d !! "userId" = Some (JStr p) ∧ patient_of organizationId (store w) p) ∧
       is_Some (d !! "datetime")) ∧
    Sorted (ascending (value_leb e) "datetime") snapshot.
Proof.
  intros Hdef Hu Hr Htot.
  destruct (server_org_answer organizationId e w Hdef Hu Hr) as [Hans Hstore].
  exists (org_snapshot organizationId e (store w)).
  split; [done|]. split; [done|]. split; [|split].
  - unfold org_snapshot. destruct (run_query _ (user_query organizationId) _ _);
      [constructor|apply NoDup_run_query].
  - intros id d. apply elem_of_org_snapshot.
  - unfold org_snapshot. destruct (run_query _ (user_query organizationId) _ _);
      [constructor|by apply Sorted_run_query].
Qed.

Lemma listByOrganization_returns_the_patients_reminders_witness :
  ∃ snapshot,
    fst (Server.listByOrganization (JStr "org1") quiet clinic_world) = org_listing snapshot ∧
    store (snd (Server.listByOrganization (JStr "org1") quiet clinic_world))
      = store clinic_world ∧
    (∀ id d, (id, d) ∈ snapshot ↔
       reminders (store clinic_world) !! id = Some d ∧
       (∃ p, d !! "userId" = Some (JStr p) ∧ patient_of (JStr "org1") (store clinic_world) p) ∧
       is_Some (d !! "datetime")).
Proof.
  destruct (listByOrganization_returns_the_patients_reminders (JStr "org1") quiet clinic_world)
    as (snapshot & H1 & H2 & _ & H4 & _).
  - reflexivity.
  - reflexivity.
  - reflexivity.
  - apply firestore_leb_total.
  - exists snapshot. auto.
Defined.

(** A failure of [GET /api/reminders/all] is answered with the status 500
    and an empty array, without the error's message: when the request names
    no organization, when the query of the user directory fails, and when the
    query of the reminders of the patients fails.  The store is left as it
    was. *)
Theorem listByOrganization_fails_with_an_empty_array organizationId e w :
  let r := Server.listByOrganization organizationId e w in
  (organizationId = JUndefined ∨ is_Some (faults e Users OpQuery) ∨
   (is_Some (faults e Reminders OpQuery) ∧ ∃ p, patient_of organizationId (store w) p)) →
  fst r = Response 500 (JArr []) ∧ store (snd r) = store w.
Proof.
  intros r Hwhy. subst r. rewrite server_org_run. cbv zeta. rewrite db_query_run.
  cbn [fst coll]. rewrite user_query_rejected.
  destruct (defined organizationId) eqn:Hdef; cbn [negb]; [|done].
  destruct (faults e Users OpQuery) as [msg|] eqn:Hu; [done|].
  destruct Hwhy as [-> | [[msg Hmsg] | [[msg Hr] (p & u & Hp)]]]; [done..|].
  apply (elem_of_patients (value_leb e)) in Hp.
  destruct (run_query (value_leb e) (user_query organizationId) None (users (store w)))
    as [|q qs]; [by apply elem_of_nil in Hp|].
  by rewrite Hr.
Qed.

Lemma listByOrganization_fails_with_an_empty_array_witness :
  fst (Server.listByOrganization JUndefined quiet clinic_world) = Response 500 (JArr []) ∧
  store (snd (Server.listByOrganization JUndefined quiet clinic_world)) = store clinic_world.
Proof.
  apply (listByOrganization_fails_with_an_empty_array JUndefined quiet clinic_world).
  by left.
Defined.

(** ** The two Firestore-backed services side by side *)

Lemma same_service_refl h e w : same_service h h e w.
Proof. by repeat split. Qed.

(** Audit logging changes nothing else: on every request, in every
    environment and store, the service with audit logging gives the answer
    of the service without it, leaves the same reminders and the same user
    directory, and makes the same calls on the reminders collection, in the
    same order. *)
Theorem audit_logging_changes_no_answer e w :
  (∀ body, same_service (Server.createReminder body) (Legacy.createReminder body) e w) ∧
  (∀ userId, same_service (Server.listByUser userId) (Legacy.listByUser userId) e w) ∧
  (∀ reminderId body,
     same_service (Server.updateReminder reminderId body)
       (Legacy.updateReminder reminderId body) e w) ∧
  (∀ reminderId body,
     same_service (Server.deleteReminder reminderId body)
       (Legacy.deleteReminder reminderId body) e w) ∧
  same_service Server.health Legacy.health e w.
Proof.
  split; [|split; [|split; [|split]]].
  - intros body. unfold same_service. create_cases body; [|done].
    destruct (add_ok Reminders e (store w)); [|done]. cbn [fst snd store trace].
    rewrite reminders_logged, users_logged.
    split; [done|]. split; [done|]. split; [done|].
    rewrite !List.filter_app, filter_log_calls. cbn. by rewrite ?app_nil_r.
  - intros userId. apply same_service_refl.
  - intros reminderId body. unfold same_service.
    change_cases reminderId body e w; try done.
    destruct (update_error e _); [done|]. cbn [fst snd store trace].
    rewrite reminders_try_added, users_try_added.
    split; [done|]. split; [done|]. split; [done|].
    rewrite !List.filter_app, filter_lookup_calls. cbn. by rewrite ?app_nil_r.
  - intros reminderId body. unfold same_service.
    change_cases reminderId body e w; try done.
    destruct (faults e Reminders OpDelete); cbn [fst snd store trace];
      unfold removed; cbn [set_coll reminders users];
      rewrite ?reminders_try_added, ?users_try_added;
      (split; [done|]; split; [done|]; split; [done|]);
      rewrite !List.filter_app, filter_lookup_calls; cbn; done.
  - apply same_service_refl.
Qed.

(** ** Who can change which reminder *)

Lemma untouched_elsewhere_refl reminderId userId s : untouched_elsewhere reminderId userId s s.
Proof. by intros id _. Qed.

Lemma untouched_patched reminderId id userId oldData updates e s :
  document_id reminderId = Some id →
  authorized id userId s = Some oldData →
  untouched_elsewhere reminderId userId s (patched id oldData updates e s).
Proof.
  intros Hid Hauth id' [Hne|Hno]; unfold patched; cbn [set_coll reminders].
  - rewrite lookup_insert_ne; [done|]. congruence.
  - destruct (decide (id' = id)) as [->|Hne]; [congruence|].
    by rewrite lookup_insert_ne.
Qed.

Lemma untouched_removed reminderId id userId data s :
  document_id reminderId = Some id →
  authorized id userId s = Some data →
  untouched_elsewhere reminderId userId s (removed id s).
Proof.
  intros Hid Hauth id' [Hne|Hno]; unfold removed; cbn [set_coll reminders].
  - rewrite lookup_delete_ne; [done|]. congruence.
  - destruct (decide (id' = id)) as [->|Hne]; [congruence|].
    by rewrite lookup_delete_ne.
Qed.

Lemma untouched_reminders reminderId userId s s1 s2 :
  reminders s2 = reminders s1 →
  untouched_elsewhere reminderId userId s s1 → untouched_elsewhere reminderId userId s s2.
Proof. intros Heq H id Hid. rewrite Heq. by apply H. Qed.

Lemma untouched_try_added reminderId userId data e s s' :
  untouched_elsewhere reminderId userId s s' →
  untouched_elsewhere reminderId userId s (try_added Logs data e s').
Proof. apply untouched_reminders, reminders_try_added. Qed.

Lemma reminders_removed_try_added id data e s :
  reminders (removed id (try_added Logs data e s)) = reminders (removed id s).
Proof. unfold removed. cbn [set_coll reminders]. by rewrite reminders_try_added. Qed.

(** An Update or a Delete, in either Firestore-backed service, changes at
    most one reminder: the one that the path given as [reminderId] names,
    and that one only when it is stored under the [userId] the request
    gives.  Every other reminder is afterwards as it was, and no reminder
    has appeared, whatever the answer and whatever the store did. *)
Theorem update_and_delete_touch_only_the_callers_reminder reminderId body e w :
  let userId := field body "userId" in
  untouched_elsewhere reminderId userId (store w)
    (store (snd (Server.updateReminder reminderId body e w))) ∧
  untouched_elsewhere reminderId userId (store w)
    (store (snd (Server.deleteReminder reminderId body e w))) ∧
  untouched_elsewhere reminderId userId (store w)
    (store (snd (Legacy.updateReminder reminderId body e w))) ∧
  untouched_elsewhere reminderId userId (store w)
    (store (snd (Legacy.deleteReminder reminderId body e w))).
Proof.
  cbv zeta. split; [|split; [|split]].
  - change_cases reminderId body e w; try apply untouched_elsewhere_refl.
    destruct (update_error e _); [apply untouched_elsewhere_refl|].
    cbn [snd store]. by apply untouched_try_added, untouched_patched.
  - change_cases reminderId body e w; try apply untouched_elsewhere_refl.
    destruct (faults e Reminders OpDelete); cbn [snd store].
    + apply untouched_try_added, untouched_elsewhere_refl.
    + eapply untouched_reminders; [apply reminders_removed_try_added|].
      by eapply untouched_removed.
  - change_cases reminderId body e w; try apply untouched_elsewhere_refl.
    destruct (update_error e _); [apply untouched_elsewhere_refl|].
    cbn [snd store]. by apply untouched_patched.
  - change_cases reminderId body e w; try apply untouched_elsewhere_refl.
    destruct (faults e Reminders OpDelete); [apply untouched_elsewhere_refl|].
    cbn [snd store]. by eapply untouched_removed.
Qed.

(** ** The fields that never change *)

Lemma identity_kept_refl s : identity_kept s s.
Proof. intros id d d' H1 H2. by simplify_eq. Qed.

Lemma identity_kept_reminders s s1 s2 :
  reminders s2 = reminders s1 → identity_kept s s1 → identity_kept s s2.
Proof. intros Heq H id d d' H1 H2. rewrite Heq in H2. by apply (H id). Qed.

Lemma not_updatable k :
  k ∉ updatable → k ≠ "title" ∧ k ≠ "description" ∧ k ≠ "datetime" ∧ k ≠ "completed".
Proof.
  unfold updatable. rewrite !not_elem_of_cons. tauto.
Qed.

Lemma identity_kept_added data e s :
  add_ok Reminders e s = true → identity_kept s (added Reminders data e s).
Proof.
  intros Hok id d d' H1 H2 k _. unfold added in H2. cbn [set_coll reminders coll] in H2.
  apply andb_prop in Hok as [_ Hfresh%bool_decide_eq_true]. cbn [coll] in Hfresh.
  rewrite lookup_insert_ne in H2 by congruence. by simplify_eq.
Qed.

Lemma identity_kept_patched key userId oldData body e s :
  authorized key userId s = Some oldData →
  identity_kept s (patched key oldData (updates_of body) e s).
Proof.
  intros Hauth%authorized_stored id d d' H1 H2 k Hk.
  unfold patched in H2. cbn [set_coll reminders] in H2.
  destruct (decide (id = key)) as [->|Hne].
  - rewrite lookup_insert_eq in H2. simplify_eq.
    apply not_updatable in Hk as (? & ? & ? & ?).
    rewrite lookup_spread, lookup_fmap. unfold updates_of.
    by rewrite build_updates_other.
  - rewrite lookup_insert_ne in H2 by done. by simplify_eq.
Qed.

Lemma identity_kept_removed key s : identity_kept s (removed key s).
Proof.
  intros id d d' H1 H2 k _. unfold removed in H2. cbn [set_coll reminders] in H2.
  apply lookup_delete_Some in H2 as [_ H2]. by simplify_eq.
Qed.

(** No request changes the owner or the creation time of a reminder: a
    reminder that is stored before and after a request, in either
    Firestore-backed service, has afterwards every field it had before, with
    the same value, but for [title], [description], [datetime] and
    [completed]; and a Create writes over no reminder. *)
Theorem owner_and_creation_time_never_change e w :
  (∀ body,
     identity_kept (store w) (store (snd (Server.createReminder body e w))) ∧
     identity_kept (store w) (store (snd (Legacy.createReminder body e w))) ∧
     reminders (store w) ⊆ reminders (store (snd (Server.createReminder body e w))) ∧
     reminders (store w) ⊆ reminders (store (snd (Legacy.createReminder body e w)))) ∧
  (∀ reminderId body,
     identity_kept (store w) (store (snd (Server.updateReminder reminderId body e w))) ∧
     identity_kept (store w) (store (snd (Legacy.updateReminder reminderId body e w))) ∧
     identity_kept (store w) (store (snd (Server.deleteReminder reminderId body e w))) ∧
     identity_kept (store w) (store (snd (Legacy.deleteReminder reminderId body e w)))) ∧
  (∀ userId, identity_kept (store w) (store (snd (Server.listByUser userId e w)))) ∧
  (∀ organizationId,
     identity_kept (store w) (store (snd (Server.listByOrganization organizationId e w)))).
Proof.
  split; [|split; [|split]].
  - intros body. create_cases body.
    2:{ by repeat split; try apply identity_kept_refl. }
    destruct (add_ok Reminders e (store w)) eqn:Hok; cbn [snd store].
    2:{ by repeat split; try apply identity_kept_refl. }
    assert (reminders (store w) ⊆
            reminders (added Reminders
              (Server.reminderData (field body "userId") (field body "title")
                 (field body "description") (field body "datetime")) e (store w))) as Hsub.
    { unfold added. cbn [set_coll reminders coll]. apply insert_subseteq.
      by apply andb_prop in Hok as [_ Hfresh%bool_decide_eq_true]. }
    split; [|split; [|split]].
    + eapply identity_kept_reminders; [apply reminders_logged|].
      by apply identity_kept_added.
    + by apply identity_kept_added.
    + by rewrite reminders_logged.
    + done.
  - intros reminderId body. split; [|split; [|split]].
    + change_cases reminderId body e w; try apply identity_kept_refl.
      destruct (update_error e _); [apply identity_kept_refl|].
      cbn [snd store]. eapply identity_kept_reminders; [apply reminders_try_added|].
      by eapply identity_kept_patched.
    + change_cases reminderId body e w; try apply identity_kept_refl.
      destruct (update_error e _); [apply identity_kept_refl|].
      cbn [snd store]. by eapply identity_kept_patched.
    + change_cases reminderId body e w; try apply identity_kept_refl.
      destruct (faults e Reminders OpDelete); cbn [snd store].
      * eapply identity_kept_reminders; [apply reminders_try_added|].
        apply identity_kept_refl.
      * eapply identity_kept_reminders; [apply reminders_removed_try_added|].
        apply identity_kept_removed.
    + change_cases reminderId body e w; try apply identity_kept_refl.
      destruct (faults e Reminders OpDelete); [apply identity_kept_refl|].
      cbn [snd store]. apply identity_kept_removed.
  - intros userId. rewrite server_list_run. apply identity_kept_refl.
  - intros organizationId. rewrite server_org_run. cbv zeta.
    destruct (fst (db_query Users (user_query organizationId) None e w)) as [[|p ps]|msg];
      apply identity_kept_refl.
Qed.

(** ** What the answer says about the store *)

(** The status of the answer tells what has been written, in either
    Firestore-backed service.  A Create answers 201 only when the new
    reminder has been stored under the generated id, which was free.  An
    Update or a Delete answers 200 only to the user under whose [userId] the
    reminder is stored, and then the patch has been written over the
    reminder, or the reminder has been removed.  After any other answer to a
    Create or an Update the store is as it was, the log included; after any
    other answer to a Delete the reminders are as they were. *)
Theorem answer_tells_what_was_written e w :
  (∀ body,
     create_outcome (Server.createReminder body) body e w ∧
     create_outcome (Legacy.createReminder body) body e w) ∧
  (∀ reminderId body,
     update_outcome (Server.updateReminder reminderId body) reminderId body e w ∧
     update_outcome (Legacy.updateReminder reminderId body) reminderId body e w ∧
     delete_outcome (Server.deleteReminder reminderId body) reminderId body e w ∧
     delete_outcome (Legacy.deleteReminder reminderId body) reminderId body e w).
Proof.
  split.
  - intros body. unfold create_outcome. cbv zeta.
    create_cases body; [|by repeat split].
    destruct (add_ok Reminders e (store w)) eqn:Hok; cbn [fst snd store]; [|by repeat split].
    apply andb_prop in Hok as [_ Hfresh%bool_decide_eq_true]. cbn [coll] in Hfresh.
    rewrite reminders_logged. by repeat split.
  - intros reminderId body. unfold update_outcome, delete_outcome. cbv zeta.
    split; [|split; [|split]].
    + change_cases reminderId body e w; try by repeat split.
      destruct (update_error e _) eqn:Hupd; cbn [fst snd store]; [by repeat split|].
      rewrite reminders_try_added. split; [|done]. intros _.
      apply update_error_None in Hupd as [Hne _]. by eexists _, _.
    + change_cases reminderId body e w; try by repeat split.
      destruct (update_error e _) eqn:Hupd; cbn [fst snd store]; [by repeat split|].
      split; [|done]. intros _.
      apply update_error_None in Hupd as [Hne _]. by eexists _, _.
    + change_cases reminderId body e w; try by repeat split.
      destruct (faults e Reminders OpDelete); cbn [fst snd store].
      * rewrite reminders_try_added. by repeat split.
      * rewrite reminders_removed_try_added.
        split; [|done]. intros _. by eexists _, _.
    + change_cases reminderId body e w; try by repeat split.
      destruct (faults e Reminders OpDelete); cbn [fst snd store]; [by repeat split|].
      split; [|done]. intros _. by eexists _, _.
Qed.

Lemma answer_tells_what_was_written_witness :
  reminders (store empty_world) !! "r1" = None ∧
  reminders (store (snd (Server.createReminder aspirin quiet empty_world))) =
    <["r1" := aspirin_stored]> (reminders (store empty_world)) ∧
  reminders (store (snd (Server.deleteReminder "r1" (as_user "u2") quiet2 aspirin_world))) =
    reminders (store aspirin_world).
Proof.
  destruct (answer_tells_what_was_written quiet empty_world) as [Hcreate _].
  destruct (answer_tells_what_was_written quiet2 aspirin_world) as [_ Hchange].
  split; [|split].
  - apply (proj1 (proj1 (Hcreate aspirin))). reflexivity.
  - apply (proj1 (proj1 (Hcreate aspirin))). reflexivity.
  - apply (proj2 (proj1 (proj2 (proj2 (Hchange "r1" (as_user "u2")))))). discriminate.
Defined.

(** ** What the log records *)

Lemma append_accepted_add_ok e s s' :
  logs s' = logs s → append_accepted e s → add_ok Logs e s' = true.
Proof.
  intros Hl [Hf Hfresh]. apply add_ok_true; [done|]. cbn [coll]. by rewrite Hl.
Qed.

Lemma logged_as_try_added action userId entityId entityName name details e s0 s :
  truthy userId = true →
  js_or entityName (JStr "N/A") = name →
  logs s = logs s0 → users s = users s0 →
  append_accepted e s0 →
  logged_as action userId entityId name (JObj details) e s0
    (try_added Logs
       (audit_entry (JStr action) userId (JStr "Reminder") (JStr entityId) entityName
          (JObj details) e s) e s).
Proof.
  intros Hu <- Hl Hus Ha. unfold try_added.
  rewrite (append_accepted_add_ok _ _ _ Hl Ha).
  rewrite (audit_entry_users _ _ _ _ _ _ _ _ _ Hus).
  destruct Ha as [_ Hfresh].
  eexists. split; [exact Hfresh|].
  split; [unfold added; cbn [set_coll logs coll]; rewrite Hl; reflexivity|].
  unfold audit_entry, Server.logEntry, default_details.
  rewrite (js_or_truthy userId) by done.
  repeat split; reflexivity.
Qed.

(** When the store accepts the entry, the log tells what a successful
    request did.  The entry of a Create carries the data sent to the store;
    it is written when the [userId] can be converted to a string, as every
    string, number and boolean can, and no entry is written when it cannot
    (an object with a property [toString]).  The entry of an Update carries
    the record as it was and the patch written over it, and is named after
    the new title, or after the old one when the title is not changed; the
    entry of a Delete carries the record as it was.  Each entry has the
    action, the acting user and that user's name as the directory gives it,
    the [reminderId] of the request, and the time of the write. *)
Theorem log_entries_describe_the_change e w :
  append_accepted e (store w) →
  (∀ body,
     let r := Server.createReminder body e w in
     status (fst r) = 201 →
     (printable (field body "userId") = true →
      logged_as "CREATE" (field body "userId") (auto_id e Reminders) (field body "title")
        (JObj (obj [("data",
                     JObj (Server.reminderData (field body "userId") (field body "title")
                             (field body "description") (field body "datetime")))]))
        e (store w) (store (snd r))) ∧
     (printable (field body "userId") = false →
      logs (store (snd r)) = logs (store w))) ∧
  (∀ reminderId body,
     let r := Server.updateReminder reminderId body e w in
     status (fst r) = 200 →
     ∃ id oldData,
       document_id reminderId = Some id ∧
       reminders (store w) !! id = Some oldData ∧
       reminders (store (snd r)) !! id =
         Some (spread oldData (resolve (now e) <$> updates_of body)) ∧
       logged_as "UPDATE" (field body "userId") reminderId
         (js_or (js_or (field body "title") (field oldData "title")) (JStr "N/A"))
         (JObj (obj [("oldData", JObj oldData); ("newData", JObj (updates_of body))]))
         e (store w) (store (snd r))) ∧
  (∀ reminderId body,
     let r := Server.deleteReminder reminderId body e w in
     status (fst r) = 200 →
     ∃ id data,
       document_id reminderId = Some id ∧
       reminders (store w) !! id = Some data ∧
       logged_as "DELETE" (field body "userId") reminderId
         (js_or (field data "title") (JStr "N/A"))
         (JObj (obj [("data", JObj data)]))
         e (store w) (store (snd r))).
Proof.
  intros Ha. split; [|split].
  - intros body r. subst r. create_cases body; [|done].
    destruct (add_ok Reminders e (store w)); [|done]. cbn [fst snd store]. intros _.
    split; intros Hp.
    + rewrite logged_printable by done.
      apply logged_as_try_added; by rewrite ?js_or_truthy.
    + unfold logged. by rewrite Hp.
  - intros reminderId body r. subst r. change_cases reminderId body e w; try done.
    destruct (update_error e _); [done|]. cbn [fst snd store]. intros _.
    eexists _, _. split; [done|]. split; [by eapply authorized_stored|].
    split.
    + rewrite reminders_try_added. unfold patched. cbn [set_coll reminders].
      by rewrite lookup_insert_eq.
    + by apply logged_as_try_added.
  - intros reminderId body r. subst r. change_cases reminderId body e w; try done.
    destruct (faults e Reminders OpDelete); [done|]. cbn [fst snd store]. intros _.
    eexists _, _. split; [done|]. split; [by eapply authorized_stored|].
    destruct (logged_as_try_added "DELETE" (field body "userId") reminderId
                (field found "title") (js_or (field found "title") (JStr "N/A"))
                (obj [("data", JObj found)]) e (store w) (store w))
      as (entry & H1 & H2 & H3); [done..|].
    exists entry. split; [done|]. split; [|done].
    unfold removed. cbn [set_coll logs]. exact H2.
Qed.

Lemma log_entries_describe_the_change_witness :
  ∃ id oldData,
    document_id "r1" = Some id ∧
    reminders (store aspirin_world) !! id = Some oldData ∧
    reminders (store (snd (Server.updateReminder "r1" complete_it quiet2 aspirin_world)))
      !! id = Some (spread oldData (resolve (now quiet2) <$> updates_of complete_it)) ∧
    logged_as "UPDATE" (field complete_it "userId") "r1"
      (js_or (js_or (field complete_it "title") (field oldData "title")) (JStr "N/A"))
      (JObj (obj [("oldData", JObj oldData); ("newData", JObj (updates_of complete_it))]))
      quiet2 (store aspirin_world)
      (store (snd (Server.updateReminder "r1" complete_it quiet2 aspirin_world))).
Proof.
  assert (append_accepted quiet2 (store aspirin_world)) as Ha by (split; reflexivity).
  destruct (log_entries_describe_the_change quiet2 aspirin_world Ha) as (_ & Hupdate & _).
  apply (Hupdate "r1" complete_it). reflexivity.
Defined.

(** A Delete that fails at the removal has been logged all the same: the
    entry is handed to the log before the store is asked to remove the
    record, so when the removal fails the request is answered with 500, the
    record is still stored, and the log has a DELETE entry for it whenever
    the store accepted the entry. *)
Theorem failed_delete_is_logged_all_the_same reminderId id body data msg e w :
  truthy (field body "userId") = true →
  document_id reminderId = Some id →
  faults e Reminders OpGet = None →
  reminders (store w) !! id = Some data →
  strict_eq (field data "userId") (field body "userId") = true →
  faults e Reminders OpDelete = Some msg →
  let r := Server.deleteReminder reminderId body e w in
  fst r = failure "Failed to delete reminder" msg ∧
  reminders (store (snd r)) = reminders (store w) ∧
  (append_accepted e (store w) →
   logged_as "DELETE" (field body "userId") reminderId
     (js_or (field data "title") (JStr "N/A")) (JObj (obj [("data", JObj data)]))
     e (store w) (store (snd r))).
Proof.
  intros Hu Hr Hget Hdata Hown Hdel r. subst r.
  rewrite (server_delete_run reminderId id) by done. cbv zeta.
  rewrite Hget, (authorized_Some _ _ _ _ Hdata Hown), Hdel. cbn [fst snd store].
  split; [done|]. split; [apply reminders_try_added|].
  intros Ha. by apply logged_as_try_added.
Qed.

Lemma failed_delete_is_logged_all_the_same_witness :
  let r := Server.deleteReminder "r1" (as_user "u1") delete_refused aspirin_world in
  fst r = failure "Failed to delete reminder" "UNAVAILABLE" ∧
  reminders (store (snd r)) = reminders (store aspirin_world) ∧
  logged_as "DELETE" (JStr "u1") "r1" (JStr "Take aspirin")
    (JObj (obj [("data", JObj aspirin_stored)]))
    delete_refused (store aspirin_world) (store (snd r)).
Proof.
  destruct (failed_delete_is_logged_all_the_same "r1" "r1" (as_user "u1") aspirin_stored
              "UNAVAILABLE" delete_refused aspirin_world) as (H1 & H2 & H3);
    try reflexivity.
  cbv zeta. split; [exact H1|]. split; [exact H2|].
  apply H3. split; reflexivity.
Defined.

(** ** What the handlers never do *)

Lemma permitted_lookup_calls userId : forallb permitted (lookup_calls userId) = true.
Proof.
  unfold lookup_calls. destruct userId as [| | | |u| | | |]; try done.
  by destruct (path_error u).
Qed.

Lemma permitted_log_calls userId entry : forallb permitted (log_calls userId entry) = true.
Proof.
  unfold log_calls. destruct (printable userId); [|done].
  by rewrite forallb_app, permitted_lookup_calls.
Qed.

Lemma only_reads_keeps_the_books h e w : only_reads h e w → keeps_the_books h e w.
Proof.
  intros [Hs (calls & Ht & Hc)]. unfold keeps_the_books. rewrite Hs.
  split; [done|]. split; [done|]. exists calls. split; [done|].
  apply forallb_forall. intros c Hin.
  rewrite ->forallb_forall in Hc. specialize (Hc c Hin). by destruct c.
Qed.

Lemma only_reads_listByUser userId e w : only_reads (Server.listByUser userId) e w.
Proof.
  unfold only_reads. rewrite server_list_run. split; [done|]. by eexists [_].
Qed.

Lemma only_reads_listByOrganization organizationId e w :
  only_reads (Server.listByOrganization organizationId) e w.
Proof.
  unfold only_reads. rewrite server_org_run. cbv zeta.
  destruct (fst (db_query Users (user_query organizationId) None e w)) as [[|p ps]|msg];
    (split; [done|]); cbn [snd trace called]; by eexists.
Qed.

(** The reading routes only read: ListByUser, ListByOrganization and the
    health check leave the store as it was, whatever the store answers, and
    make no call on it but reads and queries. *)
Theorem reading_routes_only_read e w :
  (∀ userId, only_reads (Server.listByUser userId) e w) ∧
  (∀ userId, only_reads (Legacy.listByUser userId) e w) ∧
  (∀ organizationId, only_reads (Server.listByOrganization organizationId) e w) ∧
  only_reads Server.health e w ∧
  only_reads Legacy.health e w.
Proof.
  split; [intros; apply only_reads_listByUser|].
  split; [intros; apply only_reads_listByUser|].
  split; [intros; apply only_reads_listByOrganization|].
  split; (split; [done|]); exists []; by rewrite app_nil_r.
Qed.

(** The three parts of [keeps_the_books], once the run is known. *)
Ltac solve_books :=
  unfold called; cbn [fst snd store trace]; unfold removed; cbn [set_coll users logs];
  rewrite ?users_try_added, ?users_logged, <- ?app_assoc;
  split; [done|];
  split; [first [done | (etrans; [|apply logs_try_added]); reflexivity
                | (etrans; [|apply logs_logged]); reflexivity]|];
  first [ by (exists []; rewrite app_nil_r)
        | eexists; split; [reflexivity|];
          rewrite ?forallb_app, ?permitted_lookup_calls, ?permitted_log_calls; done ].

(** The user directory is never written and the log only grows: after any
    request, in either Firestore-backed service, the directory is as it was
    and every entry of the log is still there; the only calls made that can
    change the store are additions, updates and deletions of reminders and
    additions to the log.  The service without audit logging leaves the log
    as it was. *)
Theorem directory_is_never_written_and_log_only_grows e w :
  (∀ body,
     keeps_the_books (Server.createReminder body) e w ∧
     keeps_the_books (Legacy.createReminder body) e w ∧
     logs (store (snd (Legacy.createReminder body e w))) = logs (store w)) ∧
  (∀ reminderId body,
     keeps_the_books (Server.updateReminder reminderId body) e w ∧
     keeps_the_books (Legacy.updateReminder reminderId body) e w ∧
     logs (store (snd (Legacy.updateReminder reminderId body e w))) = logs (store w)) ∧
  (∀ reminderId body,
     keeps_the_books (Server.deleteReminder reminderId body) e w ∧
     keeps_the_books (Legacy.deleteReminder reminderId body) e w ∧
     logs (store (snd (Legacy.deleteReminder reminderId body e w))) = logs (store w)) ∧
  (∀ userId, keeps_the_books (Server.listByUser userId) e w) ∧
  (∀ organizationId, keeps_the_books (Server.listByOrganization organizationId) e w).
Proof.
  split; [|split; [|split; [|split]]].
  - intros body. unfold keeps_the_books. create_cases body;
      [destruct (add_ok Reminders e (store w))|];
      (split; [solve_books|split; [solve_books|done]]).
  - intros reminderId body. unfold keeps_the_books.
    change_cases reminderId body e w; try destruct (update_error e _);
      (split; [solve_books|split; [solve_books|done]]).
  - intros reminderId body. unfold keeps_the_books.
    change_cases reminderId body e w; try destruct (faults e Reminders OpDelete);
      (split; [solve_books|split; [solve_books|done]]).
  - intros userId. apply only_reads_keeps_the_books, only_reads_listByUser.
  - intros organizationId.
    apply only_reads_keeps_the_books, only_reads_listByOrganization.
Qed.

(** ** One request after another *)

Lemma listed_listing userId snapshot :
  listed (listing userId snapshot) =
    (λ d, JObj (spread (obj [("reminderId", JStr d.1)]) d.2)) <$> snapshot.
Proof. done. Qed.

Lemma elem_of_user_query leb userId (m : gmap string (gmap string jsval)) id d :
  (id, d) ∈ run_query leb [WhereEq "userId" (JStr userId)] (Some "datetime") m ↔
    m !! id = Some d ∧ d !! "userId" = Some (JStr userId) ∧ is_Some (d !! "datetime").
Proof.
  rewrite elem_of_run_query. cbn [forallb satisfies has_order_field].
  by rewrite andb_true_r, !bool_decide_eq_true.
Qed.

Lemma stored_after_create body e w :
  truthy (field body "userId") = true →
  truthy (field body "title") = true →
  truthy (field body "datetime") = true →
  add_ok Reminders e (store w) = true →
  let data := Server.reminderData (field body "userId") (field body "title")
                (field body "description") (field body "datetime") in
  fst (Server.createReminder body e w) = created (auto_id e Reminders) data ∧
  fst (Legacy.createReminder body e w) = created (auto_id e Reminders) data ∧
  reminders (store (snd (Server.createReminder body e w))) =
    <[auto_id e Reminders := resolve (now e) <$> data]> (reminders (store w)) ∧
  reminders (store (snd (Legacy.createReminder body e w))) =
    <[auto_id e Reminders := resolve (now e) <$> data]> (reminders (store w)).
Proof.
  intros Hu Ht Hd Hok. cbv zeta.
  rewrite server_create_run, legacy_create_run by done. cbv zeta. rewrite Hok.
  cbn [fst snd store]. by rewrite reminders_logged.
Qed.

(** A reminder that has been created is listed: after a Create that the
    store accepted for the user [u], ListByUser for [u], when the store
    answers its query, returns among the reminders the one the Create
    returned, with the time of the write as [createdAt]. *)
Theorem created_reminder_is_listed body u e w e' :
  field body "userId" = JStr u →
  truthy (field body "userId") = true →
  truthy (field body "title") = true →
  truthy (field body "datetime") = true →
  faults e Reminders OpAdd = None →
  reminders (store w) !! auto_id e Reminders = None →
  faults e' Reminders OpQuery = None →
  let made := Server.createReminder body e w in
  let made' := Legacy.createReminder body e w in
  status (fst made) = 201 ∧
  JObj (resolve (now e) <$> returned_reminder (fst made))
    ∈ listed (fst (Server.listByUser u e' (snd made))) ∧
  status (fst made') = 201 ∧
  JObj (resolve (now e) <$> returned_reminder (fst made'))
    ∈ listed (fst (Legacy.listByUser u e' (snd made'))).
Proof.
  intros Hus Hu Ht Hd Hf Hfresh Hq made made'. subst made made'.
  destruct (stored_after_create body e w Hu Ht Hd (add_ok_true _ _ _ Hf Hfresh))
    as (-> & -> & Hs & Hl).
  unfold Legacy.listByUser. rewrite !server_list_run, Hq. cbn [fst].
  rewrite Hs, Hl, listed_listing.
  assert (JObj (resolve (now e) <$>
            returned_reminder
              (created (auto_id e Reminders)
                 (Server.reminderData (field body "userId") (field body "title")
                    (field body "description") (field body "datetime"))))
          ∈ (λ d : string * gmap string jsval,
               JObj (spread (obj [("reminderId", JStr d.1)]) d.2))
              <$> run_query (value_leb e') [WhereEq "userId" (JStr u)] (Some "datetime")
                    (<[auto_id e Reminders :=
                         resolve (now e) <$>
                           Server.reminderData (field body "userId") (field body "title")
                             (field body "description") (field body "datetime")]>
                       (reminders (store w)))) as Hin.
  { apply list_elem_of_fmap.
    exists (auto_id e Reminders,
            resolve (now e) <$>
              Server.reminderData (field body "userId") (field body "title")
                (field body "description") (field body "datetime")).
    split.
    - cbn [fst snd]. f_equal.
    - apply elem_of_user_query. split; [apply lookup_insert_eq|].
      rewrite !lookup_fmap. unfold Server.reminderData. rewrite Hus.
      split; [done|by eexists]. }
  done.
Qed.

Lemma created_reminder_is_listed_witness :
  JObj (resolve (now quiet) <$> returned_reminder (fst (Server.createReminder aspirin quiet empty_world)))
    ∈ listed (fst (Server.listByUser "u1" quiet2
                     (snd (Server.createReminder aspirin quiet empty_world)))).
Proof.
  apply (created_reminder_is_listed aspirin "u1" quiet empty_world quiet2); reflexivity.
Defined.

(** ** Reminders out of reach *)

Lemma strict_eq_reference a b : is_reference a = true → strict_eq a b = false.
Proof. by destruct a. Qed.

Lemma is_reference_resolve t v : is_reference (resolve t v) = is_reference v.
Proof. by destruct v. Qed.

Lemma resolve_string t v u : resolve t v = JStr u → v = JStr u.
Proof. by destruct v. Qed.

Lemma stored_userId t userId title description datetime :
  field (resolve t <$> Server.reminderData userId title description datetime) "userId"
    = resolve t userId.
Proof. done. Qed.

Lemma unauthorized_change reminderId id body e w :
  document_id reminderId = Some id →
  authorized id (field body "userId") (store w) = None →
  status (fst (Server.updateReminder reminderId body e w)) ≠ 200 ∧
  status (fst (Server.deleteReminder reminderId body e w)) ≠ 200 ∧
  reminders (store (snd (Server.updateReminder reminderId body e w))) = reminders (store w) ∧
  reminders (store (snd (Server.deleteReminder reminderId body e w))) = reminders (store w).
Proof.
  intros Hid' Hnone. change_cases reminderId body e w; try done; congruence.
Qed.

(** Create does not ask that the [userId] be a string.  A reminder created
    for a [userId] that is not a string (a number, an array, an object) is
    stored, and no ListByUser returns it, since the route's [userId] is a
    string.  When the [userId] is an array or an object the reminder
    can be neither updated nor deleted: no such request, by whatever path it
    names the reminder, is answered with 200, and the reminder stays as it
    is. *)
Theorem reminder_of_a_non_string_user_is_out_of_reach body e w :
  truthy (field body "userId") = true →
  truthy (field body "title") = true →
  truthy (field body "datetime") = true →
  faults e Reminders OpAdd = None →
  reminders (store w) !! auto_id e Reminders = None →
  let made := Server.createReminder body e w in
  let id := auto_id e Reminders in
  status (fst made) = 201 ∧
  is_Some (reminders (store (snd made)) !! id) ∧
  ((∀ u, field body "userId" ≠ JStr u) →
   ∀ u e',
     faults e' Reminders OpQuery = None →
     ∃ snapshot,
       fst (Server.listByUser u e' (snd made)) = listing u snapshot ∧
       id ∉ snapshot.*1) ∧
  (is_reference (field body "userId") = true →
   ∀ reminderId body' e',
     document_id reminderId = Some id →
     let change := Server.updateReminder reminderId body' e' (snd made) in
     let deletion := Server.deleteReminder reminderId body' e' (snd made) in
     status (fst change) ≠ 200 ∧
     status (fst deletion) ≠ 200 ∧
     reminders (store (snd change)) = reminders (store (snd made)) ∧
     reminders (store (snd deletion)) = reminders (store (snd made))).
Proof.
  intros Hu Ht Hd Hf Hfresh made id. subst made id.
  destruct (stored_after_create body e w Hu Ht Hd (add_ok_true _ _ _ Hf Hfresh))
    as (Hr & _ & Hs & _). cbv zeta in *.
  rewrite Hr. split; [done|]. split; [rewrite Hs, lookup_insert_eq; by eexists|].
  split.
  - intros Hns u e' Hq. rewrite server_list_run, Hq. cbn [fst].
    eexists. split; [reflexivity|].
    intros ([id d] & Hid & Hin)%list_elem_of_fmap. cbn [fst] in Hid. subst id.
    apply elem_of_user_query in Hin as (Hd' & Hu' & _).
    rewrite Hs, lookup_insert_eq in Hd'. injection Hd' as <-.
    apply field_lookup in Hu'. rewrite stored_userId in Hu'.
    apply resolve_string in Hu'. by apply (Hns u).
  - intros Href reminderId body' e' Hid. cbv zeta.
    assert (authorized (auto_id e Reminders) (field body' "userId")
              (store (snd (Server.createReminder body e w))) = None) as Hnone.
    { apply authorized_None. right. eexists. split.
      - rewrite Hs. apply lookup_insert_eq.
      - apply strict_eq_reference. by rewrite stored_userId, is_reference_resolve. }
    exact (unauthorized_change _ _ _ _ _ Hid Hnone).
Qed.

Lemma reminder_of_a_non_string_user_is_out_of_reach_witness :
  status (fst (Server.createReminder shared quiet empty_world)) = 201 ∧
  status (fst (Server.deleteReminder "r1" shared quiet2
                 (snd (Server.createReminder shared quiet empty_world)))) ≠ 200.
Proof.
  destruct (reminder_of_a_non_string_user_is_out_of_reach shared quiet empty_world)
    as (H1 & _ & _ & H4); try reflexivity.
  split; [exact H1|]. apply (H4 eq_refl "r1" shared quiet2 eq_refl).
Defined.

(** ** After a Delete *)

Lemma gone_intro id w : reminders (store w) !! id = None → gone id w.
Proof.
  intros Hnone. split; [done|]. split.
  - intros reminderId body e Hid Hu Hget.
    rewrite (server_update_run reminderId id), (server_delete_run reminderId id),
      (legacy_update_run reminderId id), (legacy_delete_run reminderId id) by done.
    cbv zeta. rewrite Hget, authorized_None by (by left). done.
  - intros userId e Hq. rewrite server_list_run, Hq. cbn [fst].
    eexists. split; [reflexivity|].
    intros ([id' d] & Hid & Hin)%list_elem_of_fmap. cbn [fst] in Hid. subst id'.
    apply elem_of_user_query in Hin as (Hd & _). congruence.
Qed.

(** A deleted reminder is gone, in either Firestore-backed service: after a
    Delete answered with 200 the reminder that the path named is not stored,
    a second Delete of it and any Update of it are refused with 404 (when
    the store answers the read), and no list returns it. *)
Theorem deleted_reminder_is_gone reminderId body e w :
  (status (fst (Server.deleteReminder reminderId body e w)) = 200 →
   ∃ id, document_id reminderId = Some id ∧
         is_Some (reminders (store w) !! id) ∧
         gone id (snd (Server.deleteReminder reminderId body e w))) ∧
  (status (fst (Legacy.deleteReminder reminderId body e w)) = 200 →
   ∃ id, document_id reminderId = Some id ∧
         is_Some (reminders (store w) !! id) ∧
         gone id (snd (Legacy.deleteReminder reminderId body e w))).
Proof.
  split.
  - change_cases reminderId body e w; try done.
    destruct (faults e Reminders OpDelete); [done|]. cbn [fst snd]. intros _.
    exists id. split; [done|]. split; [eexists; by eapply authorized_stored|].
    apply gone_intro. cbn [store]. rewrite reminders_removed_try_added.
    unfold removed. cbn [set_coll reminders]. apply lookup_delete_eq.
  - change_cases reminderId body e w; try done.
    destruct (faults e Reminders OpDelete); [done|]. cbn [fst snd]. intros _.
    exists id. split; [done|]. split; [eexists; by eapply authorized_stored|].
    apply gone_intro. cbn [store].
    unfold removed. cbn [set_coll reminders]. apply lookup_delete_eq.
Qed.

Lemma deleted_reminder_is_gone_witness :
  ∃ id, document_id "r1" = Some id ∧
        is_Some (reminders (store aspirin_world) !! id) ∧
        gone id (snd (Server.deleteReminder "r1" (as_user "u1") quiet2 aspirin_world)).
Proof.
  apply (proj1 (deleted_reminder_is_gone "r1" (as_user "u1") quiet2 aspirin_world)).
  reflexivity.
Defined.

(** ** An Update made twice *)

Lemma spread_again (old p : gmap string jsval) (f g : jsval → jsval) :
  spread (spread old (f <$> p)) (g <$> p) = spread old (g <$> p).
Proof.
  apply map_eq. intros k. rewrite !lookup_spread, !lookup_fmap.
  by destruct (p !! k).
Qed.

Lemma spread_over (x old p : gmap string jsval) (f : jsval → jsval) :
  spread (spread x (spread old (f <$> p))) p = spread (spread x old) p.
Proof.
  apply map_eq. intros k. rewrite !lookup_spread, !lookup_fmap.
  by destruct (p !! k).
Qed.

Lemma authorized_patched key body oldData e s :
  authorized key (field body "userId") s = Some oldData →
  authorized key (field body "userId")
    (patched key oldData (updates_of body) e s)
  = Some (spread oldData (resolve (now e) <$> updates_of body)).
Proof.
  intros Hauth. unfold authorized, patched. cbn [set_coll reminders].
  rewrite lookup_insert_eq.
  assert (field (spread oldData (resolve (now e) <$> updates_of body)) "userId"
          = field oldData "userId") as ->.
  { unfold field. rewrite lookup_spread, lookup_fmap. unfold updates_of.
    by rewrite build_updates_other. }
  unfold authorized in Hauth. destruct (reminders s !! key) as [d|]; [|done].
  destruct (strict_eq (field d "userId") (field body "userId")) eqn:Heq; [|done].
  injection Hauth as ->. by rewrite Heq.
Qed.

Lemma authorized_reminders key userId s s' :
  reminders s' = reminders s → authorized key userId s' = authorized key userId s.
Proof. intros H. unfold authorized. by rewrite H. Qed.

(** An Update is idempotent, in either Firestore-backed service: when an
    Update has been answered with 200, the same request made again (the
    store accepting it) is given the same answer, and leaves the reminders
    as the second request alone would have left them; they are as the first
    left them when the two writes bear the same time. *)
Theorem update_twice_is_update_once reminderId body e e' w :
  faults e' Reminders OpGet = None →
  faults e' Reminders OpUpdate = None →
  (let once := Server.updateReminder reminderId body e w in
   let twice := Server.updateReminder reminderId body e' (snd once) in
   let alone := Server.updateReminder reminderId body e' w in
   status (fst once) = 200 →
   fst twice = fst once ∧
   reminders (store (snd twice)) = reminders (store (snd alone)) ∧
   (now e' = now e → reminders (store (snd twice)) = reminders (store (snd once)))) ∧
  (let once := Legacy.updateReminder reminderId body e w in
   let twice := Legacy.updateReminder reminderId body e' (snd once) in
   let alone := Legacy.updateReminder reminderId body e' w in
   status (fst once) = 200 →
   fst twice = fst once ∧
   reminders (store (snd twice)) = reminders (store (snd alone)) ∧
   (now e' = now e → reminders (store (snd twice)) = reminders (store (snd once)))).
Proof.
  intros Hget' Hupd'. split; cbv zeta.
  - change_cases reminderId body e w; try done.
    destruct (update_error e _) eqn:Hupd; [done|]. cbn [fst snd]. intros _.
    apply update_error_None in Hupd as [Hne _].
    assert (update_error e' (updates_of body) = None) as Hupd''
      by (by apply update_error_None).
    unfold updates_of in Hupd''.
    rewrite Hget', Hupd''. cbn [store].
    rewrite (authorized_reminders _ _ _ _ (reminders_try_added _ _ _)).
    fold (updates_of body). rewrite (authorized_patched _ _ _ _ _ Hauth).
    cbn [fst snd store]. rewrite !reminders_try_added.
    unfold updated, patched. cbn [set_coll reminders].
    rewrite reminders_try_added. cbn [reminders].
    rewrite spread_over, spread_again, insert_insert_eq.
    split; [done|]. split; [done|]. by intros ->.
  - change_cases reminderId body e w; try done.
    destruct (update_error e _) eqn:Hupd; [done|]. cbn [fst snd]. intros _.
    apply update_error_None in Hupd as [Hne _].
    assert (update_error e' (updates_of body) = None) as Hupd''
      by (by apply update_error_None).
    unfold updates_of in Hupd''.
    rewrite Hget', Hupd''. cbn [store].
    fold (updates_of body). rewrite (authorized_patched _ _ _ _ _ Hauth).
    cbn [fst snd store].
    unfold updated, patched. cbn [set_coll reminders].
    rewrite spread_over, spread_again, insert_insert_eq.
    split; [done|]. split; [done|]. by intros ->.
Qed.

Lemma update_twice_is_update_once_witness :
  let once := Server.updateReminder "r1" complete_it quiet2 aspirin_world in
  let twice := Server.updateReminder "r1" complete_it quiet (snd once) in
  fst twice = fst once.
Proof.
  destruct (update_twice_is_update_once "r1" complete_it quiet2 quiet aspirin_world)
    as [H _]; [reflexivity..|].
  apply H. reflexivity.
Defined.

(** ** The in-memory service, one request after another *)

Lemma mock_create_eq uuid body key (m : Mock.memory) :
  truthy (field body "userId") = true →
  truthy (field body "title") = true →
  truthy (field body "datetime") = true →
  to_string (field body "userId") = Some key →
  key ∉ Mock.object_prototype_keys →
  Mock.createReminder uuid body m =
    (Ok (mock_created (mock_reminder uuid body)),
     <[key := default [] (m !! key) ++ [mock_reminder uuid body]]> m).
Proof.
  intros Hu Ht Hd Hkey Hp.
  unfold Mock.createReminder. cbv zeta. rewrite Hu, Ht, Hd, Hkey. cbn [negb orb].
  fold (mock_reminder uuid body).
  destruct (m !! key) as [l|] eqn:Hl.
  - by rewrite (get_slot_own _ _ _ Hl).
  - by rewrite (get_slot_missing _ _ Hl Hp).
Qed.

(** In the in-memory service a reminder that has been created is listed,
    after those the user had: the list of the user is the one before the
    Create with the reminder the Create returned at its end; the reminders
    of the other users are as they were.  The user's entry is kept under
    the key that the [userId] converts to, which is to be no name of
    [Object.prototype]. *)
Theorem mock_created_reminder_is_listed_last uuid body key (m : Mock.memory) :
  truthy (field body "userId") = true →
  truthy (field body "title") = true →
  truthy (field body "datetime") = true →
  to_string (field body "userId") = Some key →
  key ∉ Mock.object_prototype_keys →
  let made := Mock.createReminder uuid body m in
  ∃ r,
    fst made = Ok r ∧
    status r = 201 ∧
    returned_reminder r !! "reminderId" = Some (JStr uuid) ∧
    Mock.listByUser key (snd made) =
      (Ok (mock_listing key (default [] (m !! key) ++ [returned_reminder r])), snd made) ∧
    (∀ k, k ≠ key → snd made !! k = m !! k).
Proof.
  intros Hu Ht Hd Hkey Hp made. subst made.
  rewrite (mock_create_eq uuid body key m Hu Ht Hd Hkey Hp). cbn [fst snd].
  eexists. split; [reflexivity|]. split; [done|]. split; [done|]. split.
  - rewrite (mock_list_run _ _ Hp), lookup_insert_eq. done.
  - intros k Hk. by rewrite lookup_insert_ne.
Qed.

Lemma mock_created_reminder_is_listed_last_witness :
  ∃ r,
    fst (Mock.createReminder "b" aspirin walk_memory) = Ok r ∧
    Mock.listByUser "u1" (snd (Mock.createReminder "b" aspirin walk_memory)) =
      (Ok (mock_listing "u1" ([walk] ++ [returned_reminder r])),
       snd (Mock.createReminder "b" aspirin walk_memory)).
Proof.
  destruct (mock_created_reminder_is_listed_last "b" aspirin "u1" walk_memory)
    as (r & H1 & _ & _ & H4 & _); try reflexivity.
  - apply (bool_decide_eq_false_1 _). reflexivity.
  - exists r. split; [exact H1|exact H4].
Defined.

(** ** Finding a reminder in a user's list *)

Lemma find_index_Some reminderId l i :
  Mock.find_index reminderId l = Some i →
  ∃ old,
    l !! i = Some old ∧ has_id reminderId old = true ∧
    ∀ j r, (j < i)%nat → l !! j = Some r → has_id reminderId r = false.
Proof.
  revert i. induction l as [|x l IH]; intros i; cbn [Mock.find_index]; [done|].
  fold (has_id reminderId x). destruct (has_id reminderId x) eqn:Hx.
  - intros [= <-]. exists x. split; [done|]. split; [done|]. intros j r Hj. lia.
  - destruct (Mock.find_index reminderId l) as [i'|] eqn:Hi; [|done].
    cbn. intros [= <-]. destruct (IH i' eq_refl) as (old & Hold & Hid & Hbefore).
    exists old. split; [done|]. split; [done|].
    intros [|j] r Hj; cbn.
    + by intros [= <-].
    + apply Hbefore. lia.
Qed.

Lemma find_index_None reminderId l :
  Mock.find_index reminderId l = None ↔ ∀ r, r ∈ l → has_id reminderId r = false.
Proof.
  induction l as [|x l IH]; cbn [Mock.find_index].
  - split; [|done]. by intros _ r ?%elem_of_nil.
  - fold (has_id reminderId x). destruct (has_id reminderId x) eqn:Hx.
    + split; [done|]. intros H. specialize (H x). rewrite Hx in H.
      discriminate H. left.
    + destruct (Mock.find_index reminderId l) as [i'|] eqn:Hi; cbn.
      * split; [done|]. intros H. exfalso.
        assert (Some i' = None) as Hn; [|done].
        apply IH. intros r Hr. apply H. by right.
      * split; [|done]. intros _ r [->|Hr]%elem_of_cons; [done|].
        by apply (proj1 IH).
Qed.

Lemma elem_of_others reminderId l r :
  r ∈ others reminderId l ↔ r ∈ l ∧ has_id reminderId r = false.
Proof.
  unfold others, has_id. rewrite list_elem_of_In, filter_In, <- list_elem_of_In.
  by rewrite negb_true_iff.
Qed.

Lemma find_index_others reminderId l : Mock.find_index reminderId (others reminderId l) = None.
Proof. apply find_index_None. by intros r [_ Hr]%elem_of_others. Qed.

Lemma sublist_others reminderId l : sublist (others reminderId l) l.
Proof.
  unfold others. induction l as [|x l IH]; cbn [List.filter]; [constructor|].
  destruct (negb (strict_eq (field x "reminderId") (JStr reminderId)));
    by constructor.
Qed.

Lemma find_index_insert reminderId l i new :
  Mock.find_index reminderId l = Some i →
  has_id reminderId new = true →
  Mock.find_index reminderId (<[i := new]> l) = Some i.
Proof.
  revert i. induction l as [|x l IH]; intros i; cbn [Mock.find_index]; [done|].
  fold (has_id reminderId x). destruct (has_id reminderId x) eqn:Hx.
  - intros [= <-] Hnew. cbn. fold (has_id reminderId new). by rewrite Hnew.
  - destruct (Mock.find_index reminderId l) as [i'|] eqn:Hi; [|done].
    cbn. intros [= <-] Hnew.
    change (<[S i' := new]> (x :: l)) with (x :: <[i' := new]> l).
    cbn [Mock.find_index]. fold (has_id reminderId x). rewrite Hx.
    by rewrite (IH i' eq_refl Hnew).
Qed.

(** ** The fields the in-memory Update assigns *)

Lemma updatable_other k :
  k ≠ "title" → k ≠ "description" → k ≠ "datetime" → k ≠ "completed" → k ∉ updatable.
Proof.
  intros. unfold updatable. rewrite !not_elem_of_cons.
  repeat split; try done. apply not_elem_of_nil.
Qed.

Lemma assign_fields_other title description datetime completed old k :
  k ∉ updatable →
  Mock.assign_fields title description datetime completed old !! k = old !! k.
Proof.
  intros (? & ? & ? & ?)%not_updatable. unfold Mock.assign_fields.
  destruct (truthy title), (truthy description), (truthy datetime), (defined completed);
    by rewrite ?lookup_insert_ne.
Qed.

Lemma assign_fields_again title description datetime completed old :
  let new := Mock.assign_fields title description datetime completed old in
  Mock.assign_fields title description datetime completed new = new.
Proof.
  cbv zeta. apply map_eq. intros k.
  destruct (decide (k = "title")) as [->|];
    [rewrite !assign_fields_title; by destruct (truthy title)|].
  destruct (decide (k = "description")) as [->|];
    [rewrite !assign_fields_description; by destruct (truthy description)|].
  destruct (decide (k = "datetime")) as [->|];
    [rewrite !assign_fields_datetime; by destruct (truthy datetime)|].
  destruct (decide (k = "completed")) as [->|];
    [rewrite !assign_fields_completed; by destruct (defined completed)|].
  by rewrite !assign_fields_other by (by apply updatable_other).
Qed.

Lemma has_id_assign_fields reminderId title description datetime completed old :
  has_id reminderId (Mock.assign_fields title description datetime completed old)
    = has_id reminderId old.
Proof.
  unfold has_id, field. rewrite assign_fields_other; [done|].
  by apply updatable_other.
Qed.

Lemma mock_update_eq reminderId body key (m : Mock.memory) l i old :
  truthy (field body "userId") = true →
  to_string (field body "userId") = Some key →
  m !! key = Some l →
  Mock.find_index reminderId l = Some i →
  l !! i = Some old →
  let new := Mock.assign_fields (field body "title") (field body "description")
               (field body "datetime") (field body "completed") old in
  Mock.updateReminder reminderId body m =
    (Ok (mock_updated new), <[key := <[i := new]> l]> m).
Proof.
  intros Hu Hkey Hl Hi Hold. cbv zeta. unfold Mock.updateReminder. cbv zeta.
  rewrite Hu, Hkey. cbn [negb]. by rewrite (get_slot_own _ _ _ Hl), Hi, Hold.
Qed.

(** The in-memory Update changes one reminder, in its place: the first of
    the user's list that has the given id.  The list keeps its length and
    its order, the reminder keeps every field but [title], [description],
    [datetime] and [completed] (its [reminderId] and [userId] among those
    kept), and the other users' reminders are as they were.  The same
    request made again is given the same answer and changes nothing.  The
    user's list is the one kept under the key that the [userId] converts
    to. *)
Theorem mock_update_changes_one_reminder_in_place reminderId body key (m : Mock.memory) l i :
  truthy (field body "userId") = true →
  to_string (field body "userId") = Some key →
  m !! key = Some l →
  Mock.find_index reminderId l = Some i →
  let once := Mock.updateReminder reminderId body m in
  ∃ old new,
    l !! i = Some old ∧
    has_id reminderId old = true ∧
    (∀ j r, (j < i)%nat → l !! j = Some r → has_id reminderId r = false) ∧
    once = (Ok (mock_updated new), <[key := <[i := new]> l]> m) ∧
    (∀ k, k ∉ updatable → new !! k = old !! k) ∧
    Mock.listByUser key (snd once) = (Ok (mock_listing key (<[i := new]> l)), snd once) ∧
    Mock.updateReminder reminderId body (snd once) = once.
Proof.
  intros Hu Hkey Hl Hi once. subst once.
  destruct (find_index_Some _ _ _ Hi) as (old & Hold & Hid & Hbefore).
  rewrite (mock_update_eq _ _ _ _ _ _ _ Hu Hkey Hl Hi Hold). cbv zeta. cbn [snd].
  eexists old, _. split; [done|]. split; [done|]. split; [done|].
  split; [reflexivity|]. split; [intros k Hk; by apply assign_fields_other|].
  split.
  - unfold Mock.listByUser. by rewrite (get_slot_own _ _ _ (lookup_insert_eq _ _ _)).
  - erewrite mock_update_eq; [|done|done|apply lookup_insert_eq| |].
    + cbv zeta. rewrite assign_fields_again, list_insert_insert_eq, insert_insert_eq. done.
    + apply find_index_insert; [done|]. by rewrite has_id_assign_fields.
    + apply list_lookup_insert_eq. by eapply lookup_lt_Some.
Qed.

Lemma mock_update_changes_one_reminder_in_place_witness :
  Mock.updateReminder "a" complete_it
    (snd (Mock.updateReminder "a" complete_it walk_memory))
  = Mock.updateReminder "a" complete_it walk_memory.
Proof.
  destruct (mock_update_changes_one_reminder_in_place "a" complete_it "u1" walk_memory
              [walk] 0)
    as (old & new & _ & _ & _ & _ & _ & _ & H); [reflexivity..|].
  exact H.
Defined.

(** In the in-memory service a deleted reminder is gone: after a Delete by
    a user who has an entry, the list of that user holds the reminders it
    held, in the same order, but for those of the given id; an Update of the
    reminder is answered 404 "Reminder not found"; the other users'
    reminders are as they were.  The user's entry stays: when the last
    reminder has been deleted the list is answered with 200 and an empty
    array, not with the 404 given for a user who has no entry.  The user's
    entry is the one under the key that the [userId] converts to. *)
Theorem mock_deleted_reminder_is_gone reminderId body key (m : Mock.memory) l :
  truthy (field body "userId") = true →
  to_string (field body "userId") = Some key →
  m !! key = Some l →
  let m' := snd (Mock.deleteReminder reminderId body m) in
  (∀ r, r ∈ others reminderId l ↔ r ∈ l ∧ has_id reminderId r = false) ∧
  sublist (others reminderId l) l ∧
  Mock.listByUser key m' = (Ok (mock_listing key (others reminderId l)), m') ∧
  ((∀ r, r ∈ l → has_id reminderId r = true) →
   Mock.listByUser key m' = (Ok (mock_listing key []), m')) ∧
  (∀ body',
     truthy (field body' "userId") = true →
     to_string (field body' "userId") = Some key →
     Mock.updateReminder reminderId body' m' = (Ok reminder_not_found, m')) ∧
  (∀ k, k ≠ key → m' !! k = m !! k).
Proof.
  intros Hu Hkey Hl m'. subst m'.
  rewrite (mock_delete_run _ _ _ _ _ Hu Hkey Hl). cbn [snd].
  assert (Mock.listByUser key (<[key := others reminderId l]> m)
          = (Ok (mock_listing key (others reminderId l)),
             <[key := others reminderId l]> m)) as Hlist.
  { unfold Mock.listByUser. by rewrite (get_slot_own _ _ _ (lookup_insert_eq _ _ _)). }
  split; [intros r; apply elem_of_others|].
  split; [apply sublist_others|].
  split; [exact Hlist|]. split; [|split].
  - intros Hall. rewrite Hlist.
    assert (others reminderId l = []) as ->; [|done].
    destruct (others reminderId l) as [|r rs] eqn:Ho; [done|].
    assert (r ∈ others reminderId l) as Hr by (rewrite Ho; left).
    apply elem_of_others in Hr as [Hr Hne]. rewrite (Hall r Hr) in Hne. done.
  - intros body' Hu' Hkey'. unfold Mock.updateReminder. cbv zeta.
    rewrite Hu', Hkey'. cbn [negb].
    by rewrite (get_slot_own _ _ _ (lookup_insert_eq _ _ _)), find_index_others.
  - intros k Hk. by rewrite lookup_insert_ne.
Qed.

Lemma mock_deleted_reminder_is_gone_witness :
  Mock.listByUser "u1" (snd (Mock.deleteReminder "a" (as_user "u1") walk_memory))
  = (Ok (mock_listing "u1" []), snd (Mock.deleteReminder "a" (as_user "u1") walk_memory)).
Proof.
  destruct (mock_deleted_reminder_is_gone "a" (as_user "u1") "u1" walk_memory [walk])
    as (_ & _ & _ & H & _); [reflexivity..|].
  apply H. intros r Hr. apply list_elem_of_singleton in Hr. by subst r.
Defined.

(** ** Users named after a member of [Object.prototype] *)




(** ** Users whose id is no property key *)

(** In the in-memory service a [userId] that cannot be converted to a
    property key breaks the request: for an object that has a property
    [toString] of its own, or an array that holds one, a Create with its
    three fields, an Update and a Delete each end in the [TypeError] of the
    conversion, which the handler does not catch; the store is left as it
    was.  Such a [userId] is truthy, so the validation lets it pass. *)
Theorem mock_unconvertible_user_breaks_the_service uuid reminderId body (m : Mock.memory) :
  (∃ o, field body "userId" = JObj o ∧ is_Some (o !! "toString")) ∨
  (∃ xs o, field body "userId" = JArr xs ∧ JObj o ∈ xs ∧ is_Some (o !! "toString")) →
  truthy (field body "userId") = true ∧
  to_string (field body "userId") = None ∧
  (truthy (field body "title") = true →
   truthy (field body "datetime") = true →
   Mock.createReminder uuid body m = (Throw cannot_convert, m)) ∧
  Mock.updateReminder reminderId body m = (Throw cannot_convert, m) ∧
  Mock.deleteReminder reminderId body m = (Throw cannot_convert, m).
Proof.
  intros Hwhy.
  assert (truthy (field body "userId") = true ∧ to_string (field body "userId") = None)
    as [Hu Hkey].
  { destruct Hwhy as [(o & -> & Ho)|(xs & o & -> & Hin & Ho)].
    - split; [done|]. cbn. by rewrite bool_decide_eq_true_2.
    - split; [done|]. by eapply to_string_array. }
  split; [done|]. split; [done|]. by apply mock_unconvertible.
Qed.

Lemma mock_unconvertible_user_breaks_the_service_witness :
  Mock.createReminder "b" unprintable walk_memory = (Throw cannot_convert, walk_memory).
Proof.
  destruct (mock_unconvertible_user_breaks_the_service "b" "a" unprintable walk_memory)
    as (_ & _ & H & _).
  - left. eexists. split; [reflexivity|]. by eexists.
  - apply H; reflexivity.
Defined.

(** ** What every store of the in-memory service satisfies *)

Lemma mock_step_refl userId (m : Mock.memory) : mock_step userId m m.
Proof. unfold mock_step. split; [done|]. split; done. Qed.

Lemma mock_wf_insert key l (m : Mock.memory) :
  mock_wf m →
  key ∉ Mock.object_prototype_keys →
  (∀ r, r ∈ l →
     truthy (field r "userId") = true ∧ to_string (field r "userId") = Some key ∧
     ∃ id, r !! "reminderId" = Some (JStr id)) →
  mock_wf (<[key := l]> m).
Proof.
  intros [Hp Hr] Hkey Hl. split.
  - intros k Hk. rewrite lookup_insert_ne; [by apply Hp|]. by intros <-.
  - intros k l' r. destruct (decide (k = key)) as [->|Hne].
    + rewrite lookup_insert_eq. intros [= <-]. apply Hl.
    + rewrite lookup_insert_ne by done. apply Hr.
Qed.

Lemma mock_step_insert userId key l l' (m : Mock.memory) :
  to_string userId = Some key →
  m !! key = Some l ∨ (m !! key = None ∧ (key ∉ Mock.object_prototype_keys) ∧ l = []) →
  (∀ r, r ∈ l' →
     r ∈ l ∨
     (truthy (field r "userId") = true ∧ to_string (field r "userId") = Some key ∧
      ∃ id, r !! "reminderId" = Some (JStr id))) →
  mock_step userId m (<[key := l']> m).
Proof.
  intros Hkey Hbefore Hl'. split; [|split].
  - intros Hwf. apply mock_wf_insert; [done| |].
    + destruct Hbefore as [Hsome|(_ & Hk & _)]; [|done].
      intros Hk. destruct Hwf as [Hp _]. rewrite (Hp _ Hk) in Hsome. done.
    + intros r Hr. destruct (Hl' r Hr) as [Hin|Hnew]; [|done].
      destruct Hbefore as [Hsome|(_ & _ & ->)]; [|by apply elem_of_nil in Hin].
      destruct Hwf as [_ Hrs]. by apply (Hrs key l).
  - intros k Hk. destruct (decide (k = key)) as [->|Hne].
    + rewrite lookup_insert_eq. by eexists.
    + by rewrite lookup_insert_ne.
  - intros k Hk. rewrite lookup_insert_ne; [done|]. intros <-. by rewrite Hkey in Hk.
Qed.

Lemma mock_wf_empty : mock_wf ∅.
Proof. split; [done|]. intros k l r Hl. by rewrite lookup_empty in Hl. Qed.

Lemma mock_step_create uuid body (m : Mock.memory) :
  mock_step (field body "userId") m (snd (Mock.createReminder uuid body m)).
Proof.
  unfold Mock.createReminder. cbv zeta.
  destruct (negb (truthy (field body "userId")) || negb (truthy (field body "title"))
            || negb (truthy (field body "datetime"))) eqn:Hv; [apply mock_step_refl|].
  apply orb_false_elim in Hv as [Hv _]. apply orb_false_elim in Hv as [Hu%negb_false_iff _].
  destruct (to_string (field body "userId")) as [key|] eqn:Hkey; [|apply mock_step_refl].
  unfold Mock.get_slot.
  destruct (m !! key) as [l|] eqn:Hl; cbn [snd].
  - apply (mock_step_insert _ _ l); [done|by left|].
    intros r [Hr|Hr%list_elem_of_singleton]%elem_of_app; [by left|]. right. subst r.
    split; [done|]. split; [done|]. by eexists.
  - case_bool_decide as Hk; cbn [snd]; [apply mock_step_refl|].
    apply (mock_step_insert _ _ []); [done|by right|].
    intros r Hr%list_elem_of_singleton. right. subst r.
    split; [done|]. split; [done|]. by eexists.
Qed.

Lemma mock_step_update reminderId body (m : Mock.memory) :
  mock_step (field body "userId") m (snd (Mock.updateReminder reminderId body m)).
Proof.
  unfold Mock.updateReminder. cbv zeta.
  destruct (truthy (field body "userId")) eqn:Hu; cbn [negb snd]; [|apply mock_step_refl].
  destruct (to_string (field body "userId")) as [key|] eqn:Hkey; [|apply mock_step_refl].
  unfold Mock.get_slot.
  destruct (m !! key) as [l|] eqn:Hl.
  2:{ case_bool_decide; apply mock_step_refl. }
  destruct (Mock.find_index reminderId l) as [i|] eqn:Hi; cbn [snd];
    [|apply mock_step_refl].
  destruct (find_index_Some _ _ _ Hi) as (old & Hold & _). rewrite Hold. cbn [default].
  split; [|split].
  - intros Hwf. pose proof Hwf as [Hp Hrs].
    apply mock_wf_insert; [done| |].
    + intros Hk. rewrite (Hp _ Hk) in Hl. done.
    + intros r Hr. apply list_elem_of_lookup in Hr as [j Hj].
      destruct (decide (j = i)) as [->|Hne].
      * rewrite list_lookup_insert_eq in Hj by (by eapply lookup_lt_Some).
        injection Hj as <-.
        destruct (Hrs _ _ old Hl) as (Hou & Hok & id & Hoid);
          [by eapply list_elem_of_lookup_2|].
        unfold field in *.
        rewrite !assign_fields_other by (by apply updatable_other).
        split; [done|]. split; [done|]. by exists id.
      * rewrite list_lookup_insert_ne in Hj by done.
        apply (Hrs _ _ r Hl). by eapply list_elem_of_lookup_2.
  - intros k Hk. destruct (decide (k = key)) as [->|Hne].
    + rewrite lookup_insert_eq. by eexists.
    + by rewrite lookup_insert_ne.
  - intros k Hk. rewrite lookup_insert_ne; [done|]. intros <-. by rewrite Hkey in Hk.
Qed.

Lemma mock_step_delete reminderId body (m : Mock.memory) :
  mock_step (field body "userId") m (snd (Mock.deleteReminder reminderId body m)).
Proof.
  unfold Mock.deleteReminder. cbv zeta.
  destruct (truthy (field body "userId")) eqn:Hu; cbn [negb snd]; [|apply mock_step_refl].
  destruct (to_string (field body "userId")) as [key|] eqn:Hkey; [|apply mock_step_refl].
  unfold Mock.get_slot.
  destruct (m !! key) as [l|] eqn:Hl; cbn [snd].
  2:{ case_bool_decide; apply mock_step_refl. }
  apply (mock_step_insert _ _ l); [done|by left|].
  intros r Hr. left. fold (others reminderId l) in Hr.
  by apply elem_of_others in Hr as [Hr _].
Qed.

Lemma mock_list_leaves_the_store userId (m : Mock.memory) :
  snd (Mock.listByUser userId m) = m.
Proof. unfold Mock.listByUser. by destruct (Mock.get_slot m userId). Qed.

(** The stores of the in-memory service stay well formed, whatever the
    requests: starting from the empty store, no name of [Object.prototype]
    ever becomes a key, and every reminder is kept under the key its
    [userId] converts to, with a string as [reminderId].  A request changes
    the entry of its own user only (the entry under the key that the
    [userId] of the request converts to, and none when it converts to no
    key), and no user's entry is ever dropped: once a user has created a
    reminder, the list of that user is never again answered with 404.  The
    list and the health check change nothing. *)
Theorem mock_store_stays_well_formed (m : Mock.memory) :
  mock_wf ∅ ∧
  (∀ uuid body,
     mock_step (field body "userId") m (snd (Mock.createReminder uuid body m))) ∧
  (∀ reminderId body,
     mock_step (field body "userId") m (snd (Mock.updateReminder reminderId body m))) ∧
  (∀ reminderId body,
     mock_step (field body "userId") m (snd (Mock.deleteReminder reminderId body m))) ∧
  (∀ userId, snd (Mock.listByUser userId m) = m) ∧
  snd (Mock.health m) = m.
Proof.
  split; [apply mock_wf_empty|].
  split; [intros; apply mock_step_create|].
  split; [intros; apply mock_step_update|].
  split; [intros; apply mock_step_delete|].
  split; [intros; apply mock_list_leaves_the_store|done].
Qed.

Lemma mock_store_stays_well_formed_witness :
  mock_wf (snd (Mock.createReminder "b" aspirin ∅)).
Proof.
  destruct (mock_store_stays_well_formed ∅) as (Hempty & Hcreate & _).
  exact (proj1 (Hcreate "b" aspirin) Hempty).
Defined.

(** ** The fields of the stored reminders *)

Lemma truthy_resolve t v : truthy (resolve t v) = truthy v.
Proof. by destruct v. Qed.

Lemma dom_reminderData t userId title description datetime :
  dom (resolve t <$> Server.reminderData userId title description datetime) = reminder_fields.
Proof.
  rewrite dom_fmap_L. unfold Server.reminderData, obj. by rewrite dom_list_to_map_L.
Qed.

Lemma dom_updates_of body : dom (updates_of body) ⊆ reminder_fields.
Proof.
  intros k Hk. apply elem_of_dom in Hk as [v Hv].
  destruct (decide (k = "title")) as [->|]; [done|].
  destruct (decide (k = "description")) as [->|]; [done|].
  destruct (decide (k = "datetime")) as [->|]; [done|].
  destruct (decide (k = "completed")) as [->|]; [done|].
  unfold updates_of in Hv. by rewrite build_updates_other in Hv.
Qed.

Lemma stored_fields t userId title description datetime :
  let d := resolve t <$> Server.reminderData userId title description datetime in
  field d "userId" = resolve t userId ∧
  field d "title" = resolve t title ∧
  field d "datetime" = resolve t datetime.
Proof. done. Qed.

Lemma complete_reminders s s' : reminders s' = reminders s → complete s → complete s'.
Proof. intros Heq H id d. rewrite Heq. apply H. Qed.

Lemma complete_added body e s :
  truthy (field body "userId") = true →
  truthy (field body "title") = true →
  truthy (field body "datetime") = true →
  complete s →
  complete (added Reminders
              (Server.reminderData (field body "userId") (field body "title")
                 (field body "description") (field body "datetime")) e s).
Proof.
  intros Hu Ht Hd Hs id d. unfold added. cbn [set_coll reminders coll].
  destruct (decide (id = auto_id e Reminders)) as [->|Hne].
  - rewrite lookup_insert_eq. intros [= <-].
    split; [apply dom_reminderData|].
    destruct (stored_fields (now e) (field body "userId") (field body "title")
                (field body "description") (field body "datetime")) as (-> & -> & ->).
    by rewrite !truthy_resolve.
  - rewrite lookup_insert_ne by done. apply Hs.
Qed.

Lemma field_patched (oldData : gmap string jsval) body t k :
  field (spread oldData (resolve t <$> updates_of body)) k =
    match updates_of body !! k with
    | Some v => resolve t v
    | None => field oldData k
    end.
Proof.
  unfold field. rewrite lookup_spread, lookup_fmap.
  by destruct (updates_of body !! k).
Qed.

Lemma complete_patched key userId oldData body e s :
  authorized key userId s = Some oldData →
  complete s →
  complete (patched key oldData (updates_of body) e s).
Proof.
  intros Hauth%authorized_stored Hs id d. unfold patched. cbn [set_coll reminders].
  destruct (decide (id = key)) as [->|Hne].
  - rewrite lookup_insert_eq. intros [= <-].
    destruct (Hs _ _ Hauth) as (Hdom & Hu & Ht & Hd).
    split; [|split; [|split]].
    + unfold spread. rewrite dom_union_L, dom_fmap_L, Hdom.
      apply subseteq_union_1_L, dom_updates_of.
    + rewrite field_patched. unfold updates_of. by rewrite build_updates_other.
    + rewrite field_patched. unfold updates_of. rewrite build_updates_title.
      destruct (truthy (field body "title")) eqn:Hb; [by rewrite truthy_resolve|done].
    + rewrite field_patched. unfold updates_of. rewrite build_updates_datetime.
      destruct (truthy (field body "datetime")) eqn:Hb; [by rewrite truthy_resolve|done].
  - rewrite lookup_insert_ne by done. apply Hs.
Qed.

Lemma complete_removed key s : complete s → complete (removed key s).
Proof.
  intros Hs id d. unfold removed. cbn [set_coll reminders].
  intros [_ Hd]%lookup_delete_Some. by apply (Hs id).
Qed.

(** Every reminder the Firestore-backed services store has the six fields
    [userId], [title], [description], [datetime], [completed] and
    [createdAt] and no other, and its [userId], [title] and [datetime] are
    not empty: this holds of the empty store and every request keeps it, so
    an Update can blank neither the title nor the date.  In such a store
    each reminder ListByUser returns is a stored reminder of that user with
    its document id added as [reminderId]. *)
Theorem stored_reminders_have_the_six_fields e w :
  complete (store empty_world) ∧
  (complete (store w) →
   (∀ body,
      complete (store (snd (Server.createReminder body e w))) ∧
      complete (store (snd (Legacy.createReminder body e w)))) ∧
   (∀ reminderId body,
      complete (store (snd (Server.updateReminder reminderId body e w))) ∧
      complete (store (snd (Legacy.updateReminder reminderId body e w))) ∧
      complete (store (snd (Server.deleteReminder reminderId body e w))) ∧
      complete (store (snd (Legacy.deleteReminder reminderId body e w)))) ∧
   (∀ userId x,
      x ∈ listed (fst (Server.listByUser userId e w)) →
      ∃ id d,
        reminders (store w) !! id = Some d ∧
        d !! "userId" = Some (JStr userId) ∧
        d !! "reminderId" = None ∧
        x = JObj (<["reminderId" := JStr id]> d))).
Proof.
  split; [by intros id d|]. intros Hw. split; [|split].
  - intros body. create_cases body; [|done].
    destruct (add_ok Reminders e (store w)); [|done]. cbn [snd store].
    split; [|by apply complete_added].
    eapply complete_reminders; [apply reminders_logged|]. by apply complete_added.
  - intros reminderId body. split; [|split; [|split]].
    + change_cases reminderId body e w; try done.
      destruct (update_error e _); [done|]. cbn [snd store].
      eapply complete_reminders; [apply reminders_try_added|].
      by eapply complete_patched.
    + change_cases reminderId body e w; try done.
      destruct (update_error e _); [done|]. cbn [snd store].
      by eapply complete_patched.
    + change_cases reminderId body e w; try done.
      destruct (faults e Reminders OpDelete); cbn [snd store].
      * eapply complete_reminders; [apply reminders_try_added|done].
      * eapply complete_reminders; [apply reminders_removed_try_added|].
        by apply complete_removed.
    + change_cases reminderId body e w; try done.
      destruct (faults e Reminders OpDelete); [done|]. cbn [snd store].
      by apply complete_removed.
  - intros userId x. rewrite server_list_run.
    destruct (faults e Reminders OpQuery); cbn [fst]; [by intros ?%elem_of_nil|].
    rewrite listed_listing.
    intros ([id d] & -> & Hin)%list_elem_of_fmap. cbn [fst snd].
    apply elem_of_user_query in Hin as (Hd & Hu & _).
    destruct (Hw _ _ Hd) as (Hdom & _).
    assert (d !! "reminderId" = None) as Hnone.
    { apply not_elem_of_dom. rewrite Hdom. unfold reminder_fields.
      apply (bool_decide_eq_false_1 _). reflexivity. }
    exists id, d. split; [done|]. split; [done|]. split; [done|].
    f_equal. unfold spread.
    change (obj [("reminderId", JStr id)])
      with (<["reminderId" := JStr id]> (∅ : gmap string jsval)).
    apply map_eq. intros k. rewrite lookup_union.
    destruct (decide (k = "reminderId")) as [->|Hne].
    + by rewrite !lookup_insert_eq, Hnone.
    + rewrite !lookup_insert_ne, lookup_empty by done. by destruct (d !! k).
Qed.

Lemma stored_reminders_have_the_six_fields_witness :
  complete (store (snd (Server.updateReminder "r1" complete_it quiet2
                          (snd (Server.createReminder aspirin quiet empty_world))))).
Proof.
  destruct (stored_reminders_have_the_six_fields quiet empty_world) as [H0 H].
  destruct (stored_reminders_have_the_six_fields quiet2
              (snd (Server.createReminder aspirin quiet empty_world))) as [_ H'].
  exact (proj1 (proj1 (proj2 (H' (proj1 (proj1 (H H0) aspirin)))) "r1" complete_it)).
Defined.

(** ** The service with audit logging, request after request *)

Lemma complete_serve q e w : complete (store w) → complete (store (snd (serve q e w))).
Proof.
  intros Hw. destruct q as [organizationId|body|userId|reminderId body|reminderId body|];
    cbn [serve].
  - rewrite server_org_run. cbv zeta.
    by destruct (fst (db_query Users (user_query organizationId) None e w)) as [[|p ps]|msg].
  - create_cases body; [|done].
    destruct (add_ok Reminders e (store w)); [|done]. cbn [snd store].
    eapply complete_reminders; [apply reminders_logged|]. by apply complete_added.
  - by rewrite server_list_run.
  - change_cases reminderId body e w; try done.
    destruct (update_error e _); [done|]. cbn [snd store].
    eapply complete_reminders; [apply reminders_try_added|].
    by eapply complete_patched.
  - change_cases reminderId body e w; try done.
    destruct (faults e Reminders OpDelete); cbn [snd store].
    + eapply complete_reminders; [apply reminders_try_added|done].
    + eapply complete_reminders; [apply reminders_removed_try_added|].
      by apply complete_removed.
  - done.
Qed.

Lemma books_serve q e w : keeps_the_books (serve q) e w.
Proof.
  destruct q as [organizationId|body|userId|reminderId body|reminderId body|];
    cbn [serve].
  - apply only_reads_keeps_the_books, only_reads_listByOrganization.
  - unfold keeps_the_books. create_cases body;
      [destruct (add_ok Reminders e (store w))|]; solve_books.
  - apply only_reads_keeps_the_books, only_reads_listByUser.
  - unfold keeps_the_books.
    change_cases reminderId body e w; try destruct (update_error e _);
      solve_books.
  - unfold keeps_the_books.
    change_cases reminderId body e w; try destruct (faults e Reminders OpDelete);
      solve_books.
  - unfold keeps_the_books, Server.health, reply. solve_books.
Qed.

Lemma truthy_resolved_name userId e s : truthy (resolved_name userId e s) = true.
Proof.
  unfold resolved_name. destruct userId as [| | | |u| | | |]; try done.
  destruct (document_id u) as [id|]; [|done].
  destruct (faults e Users OpGet); [done|].
  destruct (users s !! id) as [d|]; [|done].
  unfold js_or. by destruct (truthy (field d "name")) eqn:Hn.
Qed.

Lemma truthy_js_or a b : truthy b = true → truthy (js_or a b) = true.
Proof. intros Hb. unfold js_or. by destruct (truthy a) eqn:Ha. Qed.

Lemma log_entry_ok_audit action userId entityId entityName details e s t :
  action = "CREATE" ∨ action = "UPDATE" ∨ action = "DELETE" →
  log_entry_ok
    (resolve t <$> audit_entry (JStr action) userId (JStr "Reminder") (JStr entityId)
                     entityName details e s).
Proof.
  intros Haction. unfold log_entry_ok.
  split.
  { rewrite dom_fmap_L. unfold audit_entry, Server.logEntry, obj.
    by rewrite dom_list_to_map_L. }
  split; [by exists t|].
  split; [destruct Haction as [->|[->| ->]]; auto|].
  split; [done|]. split; [by exists entityId|].
  change (field (resolve t <$> audit_entry (JStr action) userId (JStr "Reminder")
                   (JStr entityId) entityName details e s) "userId")
    with (resolve t (js_or userId (JStr "unknown"))).
  change (field (resolve t <$> audit_entry (JStr action) userId (JStr "Reminder")
                   (JStr entityId) entityName details e s) "userName")
    with (resolve t (resolved_name userId e s)).
  change (field (resolve t <$> audit_entry (JStr action) userId (JStr "Reminder")
                   (JStr entityId) entityName details e s) "entityName")
    with (resolve t (js_or entityName (JStr "N/A"))).
  rewrite !truthy_resolve, !truthy_js_or, truthy_resolved_name by done. done.
Qed.

Lemma logs_ok_logs s s' : logs s' = logs s → logs_ok s → logs_ok s'.
Proof. intros Heq H id entry. rewrite Heq. apply H. Qed.

Lemma logs_ok_try_added action userId entityId entityName details e s1 s :
  action = "CREATE" ∨ action = "UPDATE" ∨ action = "DELETE" →
  logs_ok s →
  logs_ok (try_added Logs
             (audit_entry (JStr action) userId (JStr "Reminder") (JStr entityId)
                entityName details e s1) e s).
Proof.
  intros Haction Hs. unfold try_added. destruct (add_ok Logs e s); [|done].
  intros id entry. unfold added. cbn [set_coll logs coll].
  destruct (decide (id = auto_id e Logs)) as [->|Hne].
  - rewrite lookup_insert_eq. intros [= <-]. by apply log_entry_ok_audit.
  - rewrite lookup_insert_ne by done. apply Hs.
Qed.

Lemma logs_ok_logged action userId entityId entityName details e s1 s :
  action = "CREATE" ∨ action = "UPDATE" ∨ action = "DELETE" →
  logs_ok s →
  logs_ok (logged userId
             (audit_entry (JStr action) userId (JStr "Reminder") (JStr entityId)
                entityName details e s1) e s).
Proof.
  intros Haction Hs. unfold logged.
  destruct (printable userId); [by apply logs_ok_try_added|done].
Qed.

Lemma logs_serve q e w : logs_ok (store w) → logs_ok (store (snd (serve q e w))).
Proof.
  intros Hw. destruct q as [organizationId|body|userId|reminderId body|reminderId body|];
    cbn [serve].
  - rewrite server_org_run. cbv zeta.
    by destruct (fst (db_query Users (user_query organizationId) None e w)) as [[|p ps]|msg].
  - create_cases body; [|done].
    destruct (add_ok Reminders e (store w)); [|done]. cbn [snd store].
    apply logs_ok_logged; [by left|]. by eapply logs_ok_logs.
  - by rewrite server_list_run.
  - change_cases reminderId body e w; try done.
    destruct (update_error e _); [done|]. cbn [snd store].
    apply logs_ok_try_added; [by right; left|]. by eapply logs_ok_logs.
  - change_cases reminderId body e w; try done.
    destruct (faults e Reminders OpDelete); cbn [snd store].
    + apply logs_ok_try_added; [by right; right|done].
    + eapply logs_ok_logs; [|apply logs_ok_try_added; [by right; right|exact Hw]].
      done.
  - done.
Qed.

(** Whatever the requests and whatever the store does, the service with
    audit logging keeps its store sound.  After any number of requests,
    served one after the other from a store in which every reminder has its
    six fields and every log entry is one of the service's: every reminder
    still has its six fields, with a [userId], a [title] and a [datetime]
    that are not empty; the user directory is as it was; the log has kept
    all its entries, and each of its entries has the eight fields, one of
    the actions CREATE, UPDATE and DELETE, the entity [Reminder] and a string
    as [entityId]; and every call made on the store was a read, a query, an
    addition, update or deletion of a reminder, or an addition to the
    log. *)
Theorem every_store_the_service_reaches_is_sound qs w :
  complete (store w) →
  logs_ok (store w) →
  let w' := serve_all qs w in
  complete (store w') ∧
  logs_ok (store w') ∧
  users (store w') = users (store w) ∧
  logs (store w) ⊆ logs (store w') ∧
  ∃ calls, trace w' = trace w ++ calls ∧ forallb permitted calls = true.
Proof.
  revert w. induction qs as [|[q e] qs IH]; intros w Hc Hl; cbn [serve_all].
  - split; [done|]. split; [done|]. split; [done|]. split; [done|].
    exists []. by rewrite app_nil_r.
  - destruct (IH (snd (serve q e w)) (complete_serve q e w Hc) (logs_serve q e w Hl))
      as (Hc' & Hl' & Hu' & Hs' & calls' & Ht' & Hp').
    destruct (books_serve q e w) as (Hu & Hs & calls & Ht & Hp).
    split; [done|]. split; [done|]. split; [by rewrite Hu'|].
    split; [by etrans|].
    exists (calls ++ calls'). split.
    + by rewrite Ht', Ht, app_assoc.
    + by rewrite forallb_app, Hp, Hp'.
Qed.

Lemma every_store_the_service_reaches_is_sound_witness :
  complete (store (serve_all day empty_world)) ∧
  logs_ok (store (serve_all day empty_world)).
Proof.
  destruct (every_store_the_service_reaches_is_sound day empty_world) as (H1 & H2 & _).
  - by intros id d.
  - by intros id d.
  - split; [exact H1|exact H2].
Defined.

(** ** The in-memory service, request after request *)

Lemma has_id_true reminderId r :
  has_id reminderId r = true ↔ field r "reminderId" = JStr reminderId.
Proof.
  unfold has_id. split.
  - apply strict_eq_eq.
  - intros ->. cbn. by apply bool_decide_eq_true_2.
Qed.

Lemma elem_of_ids reminderId l :
  JStr reminderId ∈ ids l ↔ ∃ r, r ∈ l ∧ has_id reminderId r = true.
Proof.
  unfold ids. rewrite list_elem_of_fmap. split.
  - intros (r & Hr & Hin). exists r. split; [done|]. by apply has_id_true.
  - intros (r & Hin & Hr%has_id_true). by exists r.
Qed.

Lemma ids_insert l i old new :
  l !! i = Some old → field new "reminderId" = field old "reminderId" →
  ids (<[i := new]> l) = ids l.
Proof.
  intros Hold Hid. unfold ids. rewrite list_fmap_insert, Hid.
  apply list_insert_id. by rewrite list_lookup_fmap, Hold.
Qed.

Lemma ids_others reminderId l : sublist (ids (others reminderId l)) (ids l).
Proof. unfold ids. apply fmap_sublist, sublist_others. Qed.

(** What a request can have made of the store. *)
Lemma mock_create_cases uuid body (m : Mock.memory) :
  snd (Mock.createReminder uuid body m) = m ∨
  ∃ key,
    snd (Mock.createReminder uuid body m) =
      <[key := default [] (m !! key) ++ [mock_reminder uuid body]]> m.
Proof.
  unfold Mock.createReminder. cbv zeta. fold (mock_reminder uuid body).
  destruct (negb (truthy (field body "userId")) || negb (truthy (field body "title"))
            || negb (truthy (field body "datetime"))); [by left|].
  destruct (to_string (field body "userId")) as [key|]; [|by left].
  unfold Mock.get_slot.
  destruct (m !! key) as [l|] eqn:Hl; [right; exists key; by rewrite Hl|].
  case_bool_decide; [by left|]. right. exists key. by rewrite Hl.
Qed.

Lemma mock_update_cases reminderId body (m : Mock.memory) :
  snd (Mock.updateReminder reminderId body m) = m ∨
  ∃ key l l', m !! key = Some l ∧ ids l' = ids l ∧
              snd (Mock.updateReminder reminderId body m) = <[key := l']> m.
Proof.
  unfold Mock.updateReminder. cbv zeta.
  destruct (truthy (field body "userId")); cbn [negb]; [|by left].
  destruct (to_string (field body "userId")) as [key|]; [|by left].
  unfold Mock.get_slot.
  destruct (m !! key) as [l|] eqn:Hl; [|case_bool_decide; by left].
  destruct (Mock.find_index reminderId l) as [i|] eqn:Hi; [|by left].
  destruct (find_index_Some _ _ _ Hi) as (old & Hold & _). rewrite Hold. cbn [default snd].
  right. eexists key, l, _. split; [done|]. split; [|reflexivity].
  apply (ids_insert _ _ old); [done|].
  unfold field. rewrite assign_fields_other; [done|]. by apply updatable_other.
Qed.

Lemma mock_delete_cases reminderId body (m : Mock.memory) :
  snd (Mock.deleteReminder reminderId body m) = m ∨
  ∃ key l, m !! key = Some l ∧
           snd (Mock.deleteReminder reminderId body m) = <[key := others reminderId l]> m.
Proof.
  unfold Mock.deleteReminder. cbv zeta.
  destruct (truthy (field body "userId")); cbn [negb]; [|by left].
  destruct (to_string (field body "userId")) as [key|]; [|by left].
  unfold Mock.get_slot.
  destruct (m !! key) as [l|] eqn:Hl; [|case_bool_decide; by left].
  right. by exists key, l.
Qed.

(** A user's list replaced by one with some of its ids, in their order. *)
Lemma lookup_shrink key l l' (m : Mock.memory) k l1 x :
  m !! key = Some l → sublist (ids l') (ids l) →
  <[key := l']> m !! k = Some l1 → x ∈ ids l1 →
  ∃ l0, m !! k = Some l0 ∧ x ∈ ids l0.
Proof.
  intros Hl Hsub Hk Hx. destruct (decide (k = key)) as [->|Hne].
  - rewrite lookup_insert_eq in Hk. injection Hk as <-.
    exists l. split; [done|]. by eapply elem_of_sublist.
  - rewrite lookup_insert_ne in Hk by done. by exists l1.
Qed.

Lemma unique_ids_shrink key l l' (m : Mock.memory) :
  m !! key = Some l → sublist (ids l') (ids l) →
  unique_ids m → unique_ids (<[key := l']> m).
Proof.
  intros Hl Hsub [Hnd Hone]. split.
  - intros k l1 Hk. destruct (decide (k = key)) as [->|Hne].
    + rewrite lookup_insert_eq in Hk. injection Hk as <-.
      apply (sublist_NoDup _ (ids l)); [by apply (Hnd key)|done].
    + rewrite lookup_insert_ne in Hk by done. by apply (Hnd k).
  - intros k k' l1 l2 x Hk Hk' Hx Hx'.
    destruct (lookup_shrink _ _ _ _ _ _ _ Hl Hsub Hk Hx) as (l0 & H0 & Hx0).
    destruct (lookup_shrink _ _ _ _ _ _ _ Hl Hsub Hk' Hx') as (l0' & H0' & Hx0').
    by apply (Hone k k' l0 l0' x).
Qed.

Lemma holds_shrink key l l' (m : Mock.memory) id :
  m !! key = Some l → sublist (ids l') (ids l) →
  holds id (<[key := l']> m) → holds id m.
Proof.
  intros Hl Hsub (k & l1 & Hk & Hx).
  destruct (lookup_shrink _ _ _ _ _ _ _ Hl Hsub Hk Hx) as (l0 & H0 & Hx0).
  by exists k, l0.
Qed.

(** A user's list with one more reminder. *)
Lemma lookup_grow key uuid new (m : Mock.memory) k l1 x :
  field new "reminderId" = JStr uuid →
  <[key := default [] (m !! key) ++ [new]]> m !! k = Some l1 → x ∈ ids l1 →
  (∃ l0, m !! k = Some l0 ∧ x ∈ ids l0) ∨ (k = key ∧ x = JStr uuid).
Proof.
  intros Hnew Hk Hx. destruct (decide (k = key)) as [->|Hne].
  - rewrite lookup_insert_eq in Hk. injection Hk as <-.
    unfold ids in Hx. rewrite fmap_app in Hx.
    apply elem_of_app in Hx as [Hx|Hx].
    + destruct (m !! key) as [l|] eqn:Hl; [|by apply elem_of_nil in Hx].
      left. by exists l.
    + right. split; [done|]. apply list_elem_of_singleton in Hx. by rewrite Hx, Hnew.
  - rewrite lookup_insert_ne in Hk by done. left. by exists l1.
Qed.

Lemma unique_ids_grow key uuid new (m : Mock.memory) :
  field new "reminderId" = JStr uuid → ¬ holds uuid m →
  unique_ids m → unique_ids (<[key := default [] (m !! key) ++ [new]]> m).
Proof.
  intros Hnew Hfresh [Hnd Hone]. split.
  - intros k l1 Hk. destruct (decide (k = key)) as [->|Hne].
    + rewrite lookup_insert_eq in Hk. injection Hk as <-.
      unfold ids. rewrite fmap_app. apply NoDup_app. split; [|split].
      * destruct (m !! key) as [l|] eqn:Hl; [by apply (Hnd key)|constructor].
      * intros x Hx Hx'. apply list_elem_of_singleton in Hx'. rewrite Hnew in Hx'. subst x.
        destruct (m !! key) as [l|] eqn:Hl; [|by apply elem_of_nil in Hx].
        apply Hfresh. by exists key, l.
      * apply NoDup_singleton.
    + rewrite lookup_insert_ne in Hk by done. by apply (Hnd k).
  - intros k k' l1 l2 x Hk Hk' Hx Hx'.
    destruct (lookup_grow _ _ _ _ _ _ _ Hnew Hk Hx) as [(l0 & H0 & Hx0)|[-> ->]];
      destruct (lookup_grow _ _ _ _ _ _ _ Hnew Hk' Hx') as [(l0' & H0' & Hx0')|[-> Heq]].
    + by apply (Hone k k' l0 l0' x).
    + subst x. exfalso. apply Hfresh. by exists k, l0.
    + exfalso. apply Hfresh. by exists k', l0'.
    + done.
Qed.

Lemma holds_grow key uuid new (m : Mock.memory) id :
  field new "reminderId" = JStr uuid →
  holds id (<[key := default [] (m !! key) ++ [new]]> m) → holds id m ∨ id = uuid.
Proof.
  intros Hnew (k & l1 & Hk & Hx).
  destruct (lookup_grow _ _ _ _ _ _ _ Hnew Hk Hx) as [(l0 & H0 & Hx0)|[_ [= ->]]].
  - left. by exists k, l0.
  - by right.
Qed.

(** One request. *)
Lemma mock_serve_unique q (m : Mock.memory) :
  unique_ids m →
  (∀ id, id ∈ handed_out [q] → ¬ holds id m) →
  unique_ids (snd (mock_serve q m)) ∧
  (∀ id, holds id (snd (mock_serve q m)) → holds id m ∨ id ∈ handed_out [q]).
Proof.
  intros Hm Hfresh. destruct q as [uuid body|userId|reminderId body|reminderId body|];
    cbn [mock_serve handed_out].
  - destruct (mock_create_cases uuid body m) as [->|[key ->]]; [by auto|].
    split.
    + apply (unique_ids_grow _ uuid); [done| |done]. apply Hfresh. cbn. left.
    + intros id [H| ->]%(holds_grow _ uuid); [by left|right; left|done].
  - rewrite mock_list_leaves_the_store. auto.
  - destruct (mock_update_cases reminderId body m) as [->|(key & l & l' & Hl & Hids & ->)];
      [by auto|].
    split.
    + eapply unique_ids_shrink; [exact Hl| |done]. by rewrite Hids.
    + intros id H. left. eapply holds_shrink; [exact Hl| |exact H]. by rewrite Hids.
  - destruct (mock_delete_cases reminderId body m) as [->|(key & l & Hl & ->)]; [by auto|].
    split.
    + eapply unique_ids_shrink; [exact Hl|apply ids_others|done].
    + intros id H. left. eapply holds_shrink; [exact Hl| |exact H]. apply ids_others.
  - auto.
Qed.

Lemma mock_serve_wf q (m : Mock.memory) : mock_wf m → mock_wf (snd (mock_serve q m)).
Proof.
  destruct q as [uuid body|userId|reminderId body|reminderId body|]; cbn [mock_serve].
  - apply mock_step_create.
  - by rewrite mock_list_leaves_the_store.
  - apply mock_step_update.
  - apply mock_step_delete.
  - done.
Qed.

Lemma handed_out_cons q qs : handed_out (q :: qs) = handed_out [q] ++ handed_out qs.
Proof. by destruct q. Qed.

Lemma mock_serve_all_unique qs (m : Mock.memory) :
  mock_wf m → unique_ids m →
  NoDup (handed_out qs) →
  (∀ id, id ∈ handed_out qs → ¬ holds id m) →
  mock_wf (mock_serve_all qs m) ∧
  unique_ids (mock_serve_all qs m) ∧
  (∀ id, holds id (mock_serve_all qs m) → holds id m ∨ id ∈ handed_out qs).
Proof.
  revert m. induction qs as [|q qs IH]; intros m Hwf Hm Hnd Hfresh; cbn [mock_serve_all].
  - split; [done|]. split; [done|]. auto.
  - rewrite handed_out_cons in Hnd, Hfresh. apply NoDup_app in Hnd as (Hq & Hdisj & Hqs).
    destruct (mock_serve_unique q m Hm) as [Hm1 Hheld].
    { intros id Hid. apply Hfresh, elem_of_app. by left. }
    destruct (IH (snd (mock_serve q m))) as (Hwf' & Hm' & Hheld'); [by apply mock_serve_wf|done..| |].
    { intros id Hid Hh. destruct (Hheld id Hh) as [Hold|Hnew].
      - apply (Hfresh id); [|done]. apply elem_of_app. by right.
      - by apply (Hdisj id). }
    split; [done|]. split; [done|].
    intros id Hh. rewrite handed_out_cons, elem_of_app.
    destruct (Hheld' id Hh) as [Hh1|Hin]; [|by auto].
    destruct (Hheld id Hh1); auto.
Qed.

Lemma unique_ids_empty : unique_ids ∅.
Proof. split; intros k; intros; by rewrite lookup_empty in *. Qed.

(** With every id in the list but once, to delete the reminders of an id
    is to delete the one found. *)
Lemma others_delete reminderId l i :
  NoDup (ids l) → Mock.find_index reminderId l = Some i → others reminderId l = delete i l.
Proof.
  revert i. induction l as [|x l IH]; intros i Hnd; cbn [Mock.find_index]; [done|].
  unfold ids in Hnd. rewrite fmap_cons in Hnd. apply NoDup_cons in Hnd as [Hx Hl].
  fold (has_id reminderId x). unfold others. cbn [List.filter].
  fold (has_id reminderId x). fold (others reminderId l).
  destruct (has_id reminderId x) eqn:Hid; cbn [negb].
  - intros [= <-]. cbn. apply others_none, find_index_None.
    intros r Hr. destruct (has_id reminderId r) eqn:Hr'; [|done].
    exfalso. apply Hx. apply has_id_true in Hid, Hr'. rewrite Hid, <- Hr'.
    apply list_elem_of_fmap. by exists r.
  - destruct (Mock.find_index reminderId l) as [i'|] eqn:Hi; [|done].
    cbn. intros [= <-]. cbn. f_equal. by apply IH.
Qed.

(** When [uuidv4()] never gives the same value twice, no two reminders of
    the in-memory service have the same id: after any number of requests,
    served one after the other from the empty store, the store is well
    formed, every [reminderId] in it is a value that was given to a Create,
    and no id occurs twice, be it in one user's list or in two.  So an
    Update changes, and a Delete removes, the one reminder of that id, and
    another user's request for the same id finds nothing. *)
Theorem mock_reminder_ids_are_unique qs :
  NoDup (handed_out qs) →
  let m := mock_serve_all qs ∅ in
  mock_wf m ∧
  unique_ids m ∧
  (∀ id, holds id m → id ∈ handed_out qs) ∧
  (∀ reminderId k l i,
     m !! k = Some l →
     Mock.find_index reminderId l = Some i →
     others reminderId l = delete i l ∧
     ∀ k' l', k' ≠ k → m !! k' = Some l' → Mock.find_index reminderId l' = None).
Proof.
  intros Hnd m. subst m.
  destruct (mock_serve_all_unique qs ∅ mock_wf_empty unique_ids_empty Hnd)
    as (Hwf & [Hone Hcross] & Hheld).
  { intros id _ (k & l & Hl & _). by rewrite lookup_empty in Hl. }
  split; [done|]. split; [done|]. split.
  - intros id Hh. destruct (Hheld id Hh) as [(k & l & Hl & _)|Hin]; [|done].
    by rewrite lookup_empty in Hl.
  - intros reminderId k l i Hl Hi. split; [apply others_delete; [by apply (Hone k)|done]|].
    intros k' l' Hne Hl'. apply find_index_None. intros r Hr.
    destruct (has_id reminderId r) eqn:Hid; [|done]. exfalso. apply Hne.
    destruct (find_index_Some _ _ _ Hi) as (old & Hold & Hold_id & _).
    apply (Hcross k' k l' l (JStr reminderId)); [done..| |].
    + apply elem_of_ids. by exists r.
    + apply elem_of_ids. exists old. split; [by eapply list_elem_of_lookup_2|done].
Qed.

Lemma mock_reminder_ids_are_unique_witness :
  unique_ids (mock_serve_all morning ∅) ∧
  (∀ id, holds id (mock_serve_all morning ∅) → id ∈ handed_out morning).
Proof.
  destruct (mock_reminder_ids_are_unique morning) as (_ & H2 & H3 & _).
  - apply (bool_decide_eq_true_1 _). reflexivity.
  - split; [exact H2|exact H3].
Defined.

(** ** Who a user is *)

(** The in-memory service tells its users apart by the property key that
    their [userId] converts to: two requests whose [userId]s convert alike
    (to the same key, as the string [u1] and the array of [u1], or the
    number 5 and the string [5]; or to none) are requests of one user, so
    that the one deletes and updates the reminders of the other, or breaks
    as the other does.  The Firestore-backed services
    compare the stored [userId] with [===]: for a given reminder at most one
    value of [userId] is authorized. *)
Theorem mock_users_are_told_apart_by_their_string reminderId body body' (m : Mock.memory) :
  truthy (field body "userId") = true →
  truthy (field body' "userId") = true →
  to_string (field body "userId") = to_string (field body' "userId") →
  Mock.deleteReminder reminderId body m = Mock.deleteReminder reminderId body' m ∧
  (field body "title" = field body' "title" →
   field body "description" = field body' "description" →
   field body "datetime" = field body' "datetime" →
   field body "completed" = field body' "completed" →
   Mock.updateReminder reminderId body m = Mock.updateReminder reminderId body' m) ∧
  (∀ id s d d',
     authorized id (field body "userId") s = Some d →
     authorized id (field body' "userId") s = Some d' →
     field body "userId" = field body' "userId").
Proof.
  intros Hu Hu' Hkey. split; [|split].
  - unfold Mock.deleteReminder. cbv zeta. by rewrite Hu, Hu', Hkey.
  - intros Ht Hd Hdt Hc. unfold Mock.updateReminder. cbv zeta.
    by rewrite Hu, Hu', Hkey, Ht, Hd, Hdt, Hc.
  - intros id s d d'. unfold authorized.
    destruct (reminders s !! id) as [x|]; [|done].
    destruct (strict_eq (field x "userId") (field body "userId")) eqn:H1; [|done].
    destruct (strict_eq (field x "userId") (field body' "userId")) eqn:H2; [|done].
    intros _ _. apply strict_eq_eq in H1, H2. congruence.
Qed.

Lemma mock_users_are_told_apart_by_their_string_witness :
  Mock.deleteReminder "a" (as_user "u1") walk_memory
  = Mock.deleteReminder "a" as_array_user walk_memory.
Proof.
  apply (mock_users_are_told_apart_by_their_string "a" (as_user "u1") as_array_user
           walk_memory); reflexivity.
Defined.

(** ** The two lists *)

Lemma insert_fresh_inj (k : string) (v v' : jsval) (d d' : gmap string jsval) :
  d !! k = None → d' !! k = None → <[k := v]> d = <[k := v']> d' → v = v' ∧ d = d'.
Proof.
  intros Hd Hd' Heq. split.
  - assert (<[k := v]> d !! k = <[k := v']> d' !! k) as H by (by rewrite Heq).
    rewrite !lookup_insert_eq in H. by injection H.
  - assert (delete k (<[k := v]> d) = delete k (<[k := v']> d')) as H by (by rewrite Heq).
    by rewrite !delete_insert_eq, !delete_id in H.
Qed.

Lemma with_key_fresh (k : string) (v : jsval) (d : gmap string jsval) :
  d !! k = None → spread (obj [(k, v)]) d = <[k := v]> d.
Proof.
  intros Hd. unfold spread.
  change (obj [(k, v)]) with (<[k := v]> (∅ : gmap string jsval)).
  apply map_eq. intros j. rewrite lookup_union.
  destruct (decide (j = k)) as [->|Hne].
  - by rewrite !lookup_insert_eq, Hd.
  - rewrite !lookup_insert_ne, lookup_empty by done. by destruct (d !! j).
Qed.

Lemma complete_fresh s id d k :
  complete s → reminders s !! id = Some d → k ∉ reminder_fields → d !! k = None.
Proof.
  intros Hs Hd Hk. destruct (Hs _ _ Hd) as (Hdom & _).
  apply not_elem_of_dom. by rewrite Hdom.
Qed.

Lemma elem_of_with_key s (k : string) (snapshot : list (string * gmap string jsval)) id d :
  complete s → k ∉ reminder_fields →
  reminders s !! id = Some d →
  (∀ id' d', (id', d') ∈ snapshot → reminders s !! id' = Some d') →
  JObj (<[k := JStr id]> d)
    ∈ (λ x : string * gmap string jsval, JObj (spread (obj [(k, JStr x.1)]) x.2)) <$> snapshot
  ↔ (id, d) ∈ snapshot.
Proof.
  intros Hs Hk Hd Hsnap. rewrite list_elem_of_fmap. split.
  - intros ([id' d'] & Heq & Hin). cbn [fst snd] in Heq.
    pose proof (Hsnap _ _ Hin) as Hd'.
    rewrite with_key_fresh in Heq by (by eapply complete_fresh).
    injection Heq as Heq.
    apply insert_fresh_inj in Heq as [[= ->] ->]; [done|by eapply complete_fresh..].
  - intros Hin. exists (id, d). split; [|done]. cbn [fst snd].
    by rewrite with_key_fresh by (by eapply complete_fresh).
Qed.

(** The list of an organization is made of the lists of its patients.  In
    a store in which every reminder has its six fields, and when the store
    answers the queries, a stored reminder is in the answer of
    [GET /api/reminders/all] (with its document id as [id]) exactly when it
    is in the answer of [GET /reminders/:userId] (with its document id as
    [reminderId]) for some patient of the organization. *)
Theorem organization_list_is_the_patients_lists organizationId e w :
  complete (store w) →
  defined organizationId = true →
  faults e Users OpQuery = None →
  faults e Reminders OpQuery = None →
  ∀ id d,
    reminders (store w) !! id = Some d →
    (JObj (<["id" := JStr id]> d)
       ∈ org_listed (fst (Server.listByOrganization organizationId e w))
     ↔ ∃ p, patient_of organizationId (store w) p ∧
            JObj (<["reminderId" := JStr id]> d)
              ∈ listed (fst (Server.listByUser p e w))).
Proof.
  intros Hs Hdef Hu Hr id d Hd.
  destruct (server_org_answer organizationId e w Hdef Hu Hr) as [-> _].
  pose proof (elem_of_org_snapshot organizationId e (store w)) as Hin.
  set (snapshot := org_snapshot organizationId e (store w)) in *.
  assert ("id" ∉ reminder_fields) as Hid by (apply (bool_decide_eq_false_1 _); reflexivity).
  assert ("reminderId" ∉ reminder_fields) as Hrid
    by (apply (bool_decide_eq_false_1 _); reflexivity).
  change (org_listed (org_listing snapshot))
    with ((λ x : string * gmap string jsval, JObj (spread (obj [("id", JStr x.1)]) x.2))
            <$> snapshot).
  rewrite (elem_of_with_key (store w) "id" snapshot id d Hs Hid Hd)
    by (intros id' d' H'; by apply Hin in H' as [? _]).
  rewrite Hin. split.
  - intros (_ & (p & Hp & Hpat) & Hdt). exists p. split; [done|].
    rewrite server_list_run, Hr. cbn [fst]. rewrite listed_listing.
    apply (elem_of_with_key (store w) "reminderId"); [done..| |].
    + intros id' d' H'. by apply elem_of_user_query in H' as [? _].
    + by apply elem_of_user_query.
  - intros (p & Hpat & Hx). rewrite server_list_run, Hr in Hx. cbn [fst] in Hx.
    rewrite listed_listing in Hx.
    apply (elem_of_with_key (store w) "reminderId") in Hx; [|done..|].
    2:{ intros id' d' H'. by apply elem_of_user_query in H' as [? _]. }
    apply elem_of_user_query in Hx as (_ & Hp & Hdt).
    split; [done|]. split; [by exists p|done].
Qed.

Lemma organization_list_is_the_patients_lists_witness :
  JObj (<["id" := JStr "r1"]> aspirin_stored)
    ∈ org_listed (fst (Server.listByOrganization (JStr "org1") quiet clinic_world)).
Proof.
  apply (organization_list_is_the_patients_lists (JStr "org1") quiet clinic_world).
  - intros id d Hd.
    change (reminders (store clinic_world))
      with ({[ "r1" := aspirin_stored ]} : gmap string (gmap string jsval)) in Hd.
    apply lookup_singleton_Some in Hd as [<- <-].
    split; [|by repeat split]. apply (bool_decide_eq_true_1 _). reflexivity.
  - reflexivity.
  - reflexivity.
  - reflexivity.
  - reflexivity.
  - exists "u1". split.
    + eexists. split; [reflexivity|]. split; reflexivity.
    + apply (bool_decide_eq_true_1 _). reflexivity.
Defined.

(** ** The claims *)




(** C2 (amended).  In the two Firestore-backed services, an Update or
    Delete with a non-empty [userId] whose [reminderId] is a document path
    and whose look-up does not fail, and which finds no reminder of that
    path, or finds one stored under another [userId], is answered in both
    cases with 404 and the one message "Reminder not found or unauthorized",
    and the store is left as it was; so is one whose path leads into a
    sub-collection, where there is no document.  The in-memory service
    leaves the store as it was too, and answers by what it finds under the
    key that the caller's [userId] converts to (one that is no name of
    [Object.prototype]): no entry, 404 "User not found" to an Update and to
    a Delete; an entry without a reminder of the given id, 404 "Reminder
    not found" to an Update and success to a Delete. *)
Theorem absent_and_foreign_reminders_refused reminderId body :
  truthy (field body "userId") = true →
  (∀ id e w,
     document_id reminderId = Some id →
     faults e Reminders OpGet = None →
     (reminders (store w) !! id = None ∨
      ∃ d, reminders (store w) !! id = Some d ∧
           strict_eq (field d "userId") (field body "userId") = false) →
     refused (Server.updateReminder reminderId body) e w ∧
     refused (Server.deleteReminder reminderId body) e w ∧
     refused (Legacy.updateReminder reminderId body) e w ∧
     refused (Legacy.deleteReminder reminderId body) e w) ∧
  (∀ e w,
     path_error reminderId = None →
     document_id reminderId = None →
     faults e Reminders OpGet = None →
     refused (Server.updateReminder reminderId body) e w ∧
     refused (Server.deleteReminder reminderId body) e w ∧
     refused (Legacy.updateReminder reminderId body) e w ∧
     refused (Legacy.deleteReminder reminderId body) e w) ∧
  (∀ key (m : Mock.memory),
     to_string (field body "userId") = Some key →
     key ∉ Mock.object_prototype_keys →
     (m !! key = None →
      Mock.updateReminder reminderId body m =
        (Ok (Response 404 (JObj (obj [("error", JStr "User not found")]))), m)) ∧
     (∀ l, m !! key = Some l →
           Mock.find_index reminderId l = None →
           Mock.updateReminder reminderId body m =
             (Ok (Response 404 (JObj (obj [("error", JStr "Reminder not found")]))), m)) ∧
     (m !! key = None →
      Mock.deleteReminder reminderId body m =
        (Ok (Response 404 (JObj (obj [("error", JStr "User not found")]))), m)) ∧
     (∀ l, m !! key = Some l →
           Mock.find_index reminderId l = None →
           Mock.deleteReminder reminderId body m = (Ok deleted, m))).
Proof.
  intros Hu. split; [|split].
  - intros id e w Hid Hget Hwho. apply authorized_None in Hwho. unfold refused.
    rewrite (server_update_run reminderId id), (server_delete_run reminderId id),
      (legacy_update_run reminderId id), (legacy_delete_run reminderId id) by done.
    rewrite Hget, Hwho. done.
  - intros e w Hpath Hid Hget. unfold refused.
    rewrite server_update_unnamed, server_delete_unnamed, legacy_update_unnamed,
      legacy_delete_unnamed by done.
    unfold unnamed. rewrite Hpath, Hget. done.
  - intros key m Hkey Hp.
    destruct (mock_update_run reminderId body key m Hu Hkey Hp) as [Hfst Hsnd].
    unfold mock_update_answer in *. split; [|split; [|split]].
    + intros Hm. rewrite Hm in *.
      destruct (Mock.updateReminder reminderId body m) as [r m']. cbn [fst snd] in *.
      by rewrite Hfst, Hsnd.
    + intros l Hm Hnone. rewrite Hm, Hnone in *.
      destruct (Mock.updateReminder reminderId body m) as [r m']. cbn [fst snd] in *.
      by rewrite Hfst, Hsnd.
    + intros Hm. unfold Mock.deleteReminder. cbv zeta. rewrite Hu, Hkey. cbn [negb].
      by rewrite (get_slot_missing _ _ Hm Hp).
    + intros l Hm Hnone. rewrite (mock_delete_run _ _ _ _ _ Hu Hkey Hm).
      rewrite others_none by done. by rewrite insert_id.
Qed.

Lemma absent_and_foreign_reminders_refused_witness :
  refused (Server.updateReminder "r1" (as_user "u2")) quiet2 aspirin_world ∧
  refused (Server.deleteReminder "r1" (as_user "u2")) quiet2 aspirin_world ∧
  refused (Legacy.updateReminder "r1" (as_user "u2")) quiet2 aspirin_world ∧
  refused (Legacy.deleteReminder "r1" (as_user "u2")) quiet2 aspirin_world.
Proof.
  apply (proj1 (absent_and_foreign_reminders_refused "r1" (as_user "u2") eq_refl) "r1").
  - reflexivity.
  - reflexivity.
  - right. exists aspirin_stored. split; reflexivity.
Defined.

(** C2, as stated, fails in the in-memory service: for a reminder that does
    not exist and for one that belongs to another user an Update gives
    different messages, and a Delete of a reminder that does not exist
    succeeds. *)
Lemma mock_tells_absent_from_foreign :
  fst (Mock.updateReminder "zzz" (as_user "u1") walk_memory)
    = Ok (Response 404 (JObj (obj [("error", JStr "Reminder not found")]))) ∧
  fst (Mock.updateReminder "a" (as_user "u2") walk_memory)
    = Ok (Response 404 (JObj (obj [("error", JStr "User not found")]))) ∧
  fst (Mock.deleteReminder "zzz" (as_user "u1") walk_memory) = Ok deleted.
Proof. repeat split; reflexivity. Qed.

(** C3 (amended).  In the two Firestore-backed services, an authorized
    Update that supplies at least one field and that the store accepts sends
    a patch holding exactly: [title] and [datetime] when truthy,
    [description] and [completed] when not [undefined] ([false] and the
    empty string included); the response carries the stored record merged
    with that patch (and the id given in the request), the stored record
    becomes the old one with the patch written over it, and a field the
    request omits keeps its stored value.  In the in-memory service the
    reminder found (under the key that the [userId] converts to) is returned
    and stored with [title], [description] and [datetime] assigned when
    truthy and [completed] when not [undefined]. *)
Theorem update_applies_the_supplied_fields reminderId body :
  truthy (field body "userId") = true →
  let title := field body "title" in
  let description := field body "description" in
  let datetime := field body "datetime" in
  let completed := field body "completed" in
  let patch := updates_of body in
  (patch !! "title" = (if truthy title then Some title else None) ∧
   patch !! "description" = (if defined description then Some description else None) ∧
   patch !! "datetime" = (if truthy datetime then Some datetime else None) ∧
   patch !! "completed" = (if defined completed then Some completed else None) ∧
   (∀ k, k ≠ "title" → k ≠ "description" → k ≠ "datetime" → k ≠ "completed" →
         patch !! k = None)) ∧
  (∀ id oldData e w,
     document_id reminderId = Some id →
     faults e Reminders OpGet = None →
     reminders (store w) !! id = Some oldData →
     strict_eq (field oldData "userId") (field body "userId") = true →
     patch ≠ ∅ →
     faults e Reminders OpUpdate = None →
     update_applied (Server.updateReminder reminderId body) reminderId id body oldData e w ∧
     update_applied (Legacy.updateReminder reminderId body) reminderId id body oldData e w) ∧
  (∀ key (m : Mock.memory) l i old,
     to_string (field body "userId") = Some key →
     m !! key = Some l →
     Mock.find_index reminderId l = Some i →
     l !! i = Some old →
     ∃ r new,
       Mock.updateReminder reminderId body m =
         (Ok r, <[key := <[i := new]> l]> m) ∧
       status r = 200 ∧
       returned_reminder r = new ∧
       new !! "title" = (if truthy title then Some title else old !! "title") ∧
       new !! "description" =
         (if truthy description then Some description else old !! "description") ∧
       new !! "datetime" = (if truthy datetime then Some datetime else old !! "datetime") ∧
       new !! "completed" =
         (if defined completed then Some completed else old !! "completed")).
Proof.
  intros Hu. cbv zeta. split; [|split].
  - unfold updates_of.
    split; [apply build_updates_title|].
    split; [apply build_updates_description|].
    split; [apply build_updates_datetime|].
    split; [apply build_updates_completed|].
    intros; by apply build_updates_other.
  - intros id oldData e w Hid Hget Hold Hown Hne Hupd.
    unfold update_applied. cbv zeta.
    rewrite (server_update_run reminderId id), (legacy_update_run reminderId id) by done.
    cbv zeta. fold (updates_of body).
    rewrite Hget, (authorized_Some _ _ _ _ Hold Hown).
    rewrite (proj2 (update_error_None e (updates_of body))) by done.
    cbn [fst snd store trace].
    split; (split; [|split; [done|split; [done|split]]]).
    + set_solver.
    + unfold try_added. destruct (add_ok Logs e _); unfold added, patched;
        cbn [set_coll reminders coll]; by rewrite lookup_insert_eq.
    + intros k Hk. by apply omitted_field_kept.
    + set_solver.
    + unfold patched. cbn [set_coll reminders]. by rewrite lookup_insert_eq.
    + intros k Hk. by apply omitted_field_kept.
  - intros key m l i old Hkey Hm Hi Hold.
    unfold Mock.updateReminder. cbv zeta. rewrite Hu, Hkey. cbn [negb].
    rewrite (get_slot_own _ _ _ Hm), Hi, Hold. cbn [default].
    eexists _, _. split; [reflexivity|]. split; [done|]. split; [done|].
    split; [apply assign_fields_title|].
    split; [apply assign_fields_description|].
    split; [apply assign_fields_datetime|apply assign_fields_completed].
Qed.

Lemma update_applies_the_supplied_fields_witness :
  update_applied (Server.updateReminder "r1" complete_it) "r1" "r1" complete_it aspirin_stored
    quiet2 aspirin_world ∧
  update_applied (Legacy.updateReminder "r1" complete_it) "r1" "r1" complete_it aspirin_stored
    quiet2 aspirin_world.
Proof.
  apply (proj1 (proj2 (update_applies_the_supplied_fields "r1" complete_it eq_refl)));
    try reflexivity.
  apply (bool_decide_eq_false_1 _). reflexivity.
Defined.

(** C3, as stated, fails in the in-memory service: an empty description is
    supplied (it is not [undefined]) and is not applied. *)
Lemma mock_drops_empty_description :
  defined (field blank_description "description") = true ∧
  (∃ r, fst (Mock.updateReminder "a" blank_description walk_memory) = Ok r ∧
        status r = 200 ∧
        returned_reminder r !! "description" = Some (JStr "round the block")).
Proof. split; [reflexivity|]. eexists. repeat split; reflexivity. Qed.

(** C4 (amended).  In the two Firestore-backed services, a Create with
    non-empty [userId], [title] and [datetime] whose insertion the store
    accepts succeeds with 201, and the returned reminder has
    [completed = false], the generated id as [reminderId], and as
    [description] the supplied one when it is truthy and the empty string
    otherwise, in particular when it is omitted.  The in-memory service
    succeeds with 201, [completed = false] and the generated id too (for a
    [userId] that converts to a property key, and to one that is no name of
    [Object.prototype]), and returns the description as supplied:
    [undefined] when omitted. *)
Theorem create_returns_new_reminder body :
  truthy (field body "userId") = true →
  truthy (field body "title") = true →
  truthy (field body "datetime") = true →
  (∀ e w,
     faults e Reminders OpAdd = None →
     reminders (store w) !! auto_id e Reminders = None →
     created_as (Server.createReminder body) body e w ∧
     created_as (Legacy.createReminder body) body e w) ∧
  (∀ uuid key (m : Mock.memory),
     to_string (field body "userId") = Some key →
     key ∉ Mock.object_prototype_keys →
     mock_created_as uuid body key m).
Proof.
  intros Hu Ht Hd. split; [|intros; by apply mock_create_run].
  intros e w Hf Hfresh. unfold created_as. cbv zeta.
  rewrite server_create_run, legacy_create_run by done. cbv zeta.
  rewrite add_ok_true by done. cbn [fst snd store].
  pose proof (created_reminder_fields (auto_id e Reminders) (field body "userId")
    (field body "title") (field body "description") (field body "datetime"))
    as (Hc & Hi & Hdesc). cbv zeta in *.
  assert (body !! "description" = None →
          js_or (field body "description") (JStr "") = JStr "") as Hom.
  { intros Hn. by rewrite (field_missing _ _ Hn). }
  split.
  - repeat split; try done.
    + intros Hn. rewrite Hdesc. f_equal. auto.
    + rewrite reminders_logged. unfold added; cbn [set_coll reminders coll].
      by rewrite lookup_insert_eq.
  - repeat split; try done.
    + intros Hn. rewrite Hdesc. f_equal. auto.
    + unfold added; cbn [set_coll reminders coll]. by rewrite lookup_insert_eq.
Qed.

Lemma create_returns_new_reminder_witness :
  created_as (Server.createReminder aspirin) aspirin quiet empty_world ∧
  created_as (Legacy.createReminder aspirin) aspirin quiet empty_world.
Proof.
  apply (create_returns_new_reminder aspirin); reflexivity.
Defined.

(** C4, as stated, fails in the in-memory service: a reminder created
    without a description is returned with none, not with the empty
    string. *)
Lemma mock_create_leaves_description_undefined :
  aspirin !! "description" = None ∧
  (∃ r, fst (Mock.createReminder "a" aspirin ∅) = Ok r ∧
        status r = 201 ∧
        returned_reminder r !! "description" = Some JUndefined).
Proof. split; [reflexivity|]. eexists. repeat split; reflexivity. Qed.

(** C5.  A Create in which [userId], [title] or [datetime] is absent or
    empty is answered with the 400 validation error, in each of the three
    services, and nothing is written: no store call is made, no reminder is
    stored and no log entry is appended. *)
Theorem create_rejects_incomplete_input (body : gmap string jsval) :
  truthy (field body "userId") = false ∨
  truthy (field body "title") = false ∨
  truthy (field body "datetime") = false →
  (∀ e w, Server.createReminder body e w = (validation_error, w)) ∧
  (∀ e w, Legacy.createReminder body e w = (validation_error, w)) ∧
  (∀ uuid m, Mock.createReminder uuid body m = (Ok validation_error, m)).
Proof.
  intros H.
  assert (negb (truthy (field body "userId")) || negb (truthy (field body "title"))
          || negb (truthy (field body "datetime")) = true) as Hg.
  { destruct H as [-> | [-> | ->]]; simpl; rewrite ?orb_true_r; done. }
  repeat split; intros;
    unfold Server.createReminder, Legacy.createReminder, Mock.createReminder;
    cbv zeta; rewrite Hg; reflexivity.
Qed.

Lemma create_rejects_incomplete_input_witness :
  status validation_error = 400 ∧
  (∀ e w, Server.createReminder untitled e w = (validation_error, w)) ∧
  (∀ e w, Legacy.createReminder untitled e w = (validation_error, w)) ∧
  (∀ uuid m, Mock.createReminder uuid untitled m = (Ok validation_error, m)).
Proof.
  split; [reflexivity|].
  apply (create_rejects_incomplete_input untitled). right. left. reflexivity.
Defined.

(** C6 (amended).  In the two Firestore-backed services, when the query
    does not fail, ListByUser answers 200 with [{userId, reminders}] where
    [reminders] are exactly the stored reminders that have a [datetime] and
    whose stored [userId] is the given one (every reminder has a [datetime]
    in a store the service has filled), each once, in non-decreasing order
    of [datetime]; for a user with no reminder the list is empty.  In
    the in-memory service the answer to a user without an entry (whose id
    names no member of [Object.prototype]) is the 404 "No reminders found
    for this user", and the answer to a user with one is the array stored
    for that user, in the order of creation. *)
Theorem listByUser_returns_the_users_reminders userId :
  (∀ e w,
     faults e Reminders OpQuery = None →
     (∀ a b, value_leb e a b = true ∨ value_leb e b a = true) →
     ∃ snapshot,
       lists (Server.listByUser userId) userId snapshot e w ∧
       lists (Legacy.listByUser userId) userId snapshot e w ∧
       NoDup snapshot.*1 ∧
       (∀ id d, (id, d) ∈ snapshot ↔
          reminders (store w) !! id = Some d ∧
          d !! "userId" = Some (JStr userId) ∧
          is_Some (d !! "datetime")) ∧
       Sorted (ascending (value_leb e) "datetime") snapshot ∧
       ((∀ a b c, value_leb e a b = true → value_leb e b c = true →
                  value_leb e a c = true) →
        StronglySorted (ascending (value_leb e) "datetime") snapshot) ∧
       (dated (store w) →
        ∀ id d, (id, d) ∈ snapshot ↔
          reminders (store w) !! id = Some d ∧ d !! "userId" = Some (JStr userId)) ∧
       ((∀ id d, reminders (store w) !! id = Some d →
                 d !! "userId" ≠ Some (JStr userId)) →
        snapshot = [])) ∧
  (∀ m : Mock.memory,
     userId ∉ Mock.object_prototype_keys →
     (m !! userId = None →
      Mock.listByUser userId m =
        (Ok (Response 404
               (JObj (obj [("message", JStr "No reminders found for this user")]))), m)) ∧
     (∀ l, m !! userId = Some l →
           Mock.listByUser userId m =
             (Ok (Response 200
                    (JObj (obj [("userId", JStr userId);
                                ("reminders", JArr (JObj <$> l))]))), m))).
Proof.
  split.
  - intros e w Hq Htot.
    exists (run_query (value_leb e) [WhereEq "userId" (JStr userId)] (Some "datetime")
              (reminders (store w))).
    assert (∀ id d,
      (id, d) ∈ run_query (value_leb e) [WhereEq "userId" (JStr userId)] (Some "datetime")
                  (reminders (store w)) ↔
      reminders (store w) !! id = Some d ∧ d !! "userId" = Some (JStr userId) ∧
      is_Some (d !! "datetime")) as Hmem.
    { intros id d. rewrite elem_of_run_query. cbn [forallb satisfies has_order_field].
      rewrite andb_true_r, !bool_decide_eq_true. done. }
    unfold lists, Legacy.listByUser. rewrite server_list_run, Hq. cbn [fst snd called store].
    split; [done|]. split; [done|].
    split; [apply NoDup_run_query|].
    split; [exact Hmem|].
    split; [by apply Sorted_run_query|].
    split; [|split].
    + intros Htrans. apply Sorted_StronglySorted; [|by apply Sorted_run_query].
      intros x y z. unfold ascending. apply Htrans.
    + intros Hdated id d. rewrite Hmem. split; [tauto|].
      intros [Hd Hu]. split; [done|]. split; [done|]. by apply (Hdated id).
    + intros Hnone.
      destruct (run_query _ _ _ _) as [|[id d] l] eqn:Hrun; [done|].
      exfalso. apply (Hnone id d); apply (Hmem id d); left.
  - intros m Hp. rewrite (mock_list_run _ _ Hp). split.
    + by intros ->.
    + by intros l ->.
Qed.

Lemma listByUser_returns_the_users_reminders_witness :
  ∃ snapshot,
    lists (Server.listByUser "u1") "u1" snapshot quiet aspirin_world ∧
    lists (Legacy.listByUser "u1") "u1" snapshot quiet aspirin_world ∧
    NoDup snapshot.*1 ∧
    (∀ id d, (id, d) ∈ snapshot ↔
       reminders (store aspirin_world) !! id = Some d ∧
       d !! "userId" = Some (JStr "u1") ∧
       is_Some (d !! "datetime")) ∧
    Sorted (ascending firestore_leb "datetime") snapshot.
Proof.
  destruct (proj1 (listByUser_returns_the_users_reminders "u1") quiet aspirin_world)
    as (snapshot & H1 & H2 & H3 & H4 & H5 & _).
  - reflexivity.
  - apply firestore_leb_total.
  - exists snapshot. auto.
Defined.

(** C6, as stated, fails in the in-memory service: the list of a user who
    owns no reminder is an error. *)
Lemma mock_list_of_unknown_user_is_an_error :
  fst (Mock.listByUser "u1" ∅)
    = Ok (Response 404 (JObj (obj [("message", JStr "No reminders found for this user")]))).
Proof. reflexivity. Qed.

(** C7.  When the user-directory query resolves no user of role [user] in
    the organization, ListByOrganization answers with the empty list and
    makes no reminder query at all.  Whatever the directory answers, no query
    it makes has a membership filter over an empty set: the filter of the
    reminder query is never empty, the value [none] standing in for an empty
    set of ids. *)
Theorem no_reminder_query_without_patients organizationId e w :
  let r := Server.listByOrganization organizationId e w in
  (fst (db_query Users (user_query organizationId) None e w) = Ok [] →
   fst r = Response 200 (JArr []) ∧
   store (snd r) = store w ∧
   trace (snd r) = trace w ++ [CallQuery Users (user_query organizationId) None]) ∧
  (∃ calls,
     trace (snd r) = trace w ++ calls ∧
     Forall (λ c, empty_membership c = false) calls) ∧
  membership [] = [JStr "none"] ∧
  (∀ patients, membership patients ≠ []).
Proof.
  intros r. subst r. rewrite server_org_run. cbv zeta.
  split; [|split; [|split]].
  - intros ->. done.
  - destruct (fst (db_query Users (user_query organizationId) None e w)) as [[|p ps]|msg].
    + eexists. split; [reflexivity|]. by repeat constructor.
    + eexists. split; [reflexivity|].
      destruct (membership_cons p ps) as (v & vs & ->). by repeat constructor.
    + eexists. split; [reflexivity|]. by repeat constructor.
  - done.
  - intros [|p ps]; [done|]. by destruct (membership_cons p ps) as (v & vs & ->).
Qed.

Lemma no_reminder_query_without_patients_witness :
  fst (Server.listByOrganization (JStr "org1") quiet aspirin_world) = Response 200 (JArr []) ∧
  store (snd (Server.listByOrganization (JStr "org1") quiet aspirin_world))
    = store aspirin_world ∧
  trace (snd (Server.listByOrganization (JStr "org1") quiet aspirin_world))
    = trace aspirin_world ++ [CallQuery Users (user_query (JStr "org1")) None].
Proof.
  apply (no_reminder_query_without_patients (JStr "org1") quiet aspirin_world).
  reflexivity.
Defined.




(** C9 (amended).  In the in-memory service, a Delete by a user whose
    [userId] is truthy and who has an entry in the store (under the key that
    the [userId] converts to) succeeds, also when that user has no reminder
    of the given id, in which case the store is left as it was; and a second
    Delete of the same reminder succeeds too and leaves the store as the
    first one left it. *)
Theorem mock_delete_succeeds_and_is_idempotent reminderId body key (m : Mock.memory) l :
  truthy (field body "userId") = true →
  to_string (field body "userId") = Some key →
  m !! key = Some l →
  let once := Mock.deleteReminder reminderId body m in
  let twice := Mock.deleteReminder reminderId body (snd once) in
  fst once = Ok deleted ∧
  fst twice = Ok deleted ∧
  snd twice = snd once ∧
  (Mock.find_index reminderId l = None → snd once = m).
Proof.
  intros Hu Hkey Hl once twice. subst once twice.
  rewrite (mock_delete_run _ _ _ _ _ Hu Hkey Hl). cbn [fst snd].
  rewrite (mock_delete_run _ _ key _ (others reminderId l) Hu Hkey)
    by apply lookup_insert_eq.
  cbn [fst snd]. split; [done|]. split; [done|]. split.
  - by rewrite insert_insert_eq, others_idemp.
  - intros Hnone. rewrite others_none by done. by apply insert_id.
Qed.

Lemma mock_delete_succeeds_and_is_idempotent_witness :
  let once := Mock.deleteReminder "zzz" (as_user "u1") walk_memory in
  let twice := Mock.deleteReminder "zzz" (as_user "u1") (snd once) in
  fst once = Ok deleted ∧
  fst twice = Ok deleted ∧
  snd twice = snd once ∧
  (Mock.find_index "zzz" [walk] = None → snd once = walk_memory).
Proof.
  apply (mock_delete_succeeds_and_is_idempotent "zzz" (as_user "u1") "u1" walk_memory [walk]);
    reflexivity.
Defined.

(** C9, as stated, fails for a [userId] that is falsy: the number 0 has an
    entry in the store, the one made by a Create for the user whose id is
    the string of the digit 0, and a Delete by it is answered with 404
    "User not found". *)
Lemma mock_delete_by_the_user_zero_is_refused :
  to_string (field as_zero "userId") = Some "0" ∧
  is_Some (zero_memory !! "0") ∧
  Mock.deleteReminder "a" as_zero zero_memory =
    (Ok (Response 404 (JObj (obj [("error", JStr "User not found")]))), zero_memory) ∧
  fst (Mock.deleteReminder "a" as_zero zero_memory) ≠ Ok deleted.
Proof.
  split; [reflexivity|]. split; [by eexists|]. split; [reflexivity|]. discriminate.
Qed.



